(** * pydantic.fields: field descriptors and their construction paths

    A shallow embedding of [pydantic/fields.py]: the [FieldInfo] record, its
    constructor and the class methods that build it ([from_field],
    [from_annotation], [from_annotated_attribute], [_from_dataclass_field]),
    the [Field] and [PrivateAttr] functions and the queries [get_default],
    [is_required] and [rebuild_annotation].

    Python objects are dynamically typed, so one inductive type [value]
    carries every object the module handles: sentinels, scalars, containers,
    type annotations, constraint tokens, alias objects and the descriptors
    themselves.  Keyword arguments are insertion-ordered association lists,
    as Python dictionaries are.  Exceptions are a [result] type; functions
    that also emit warnings run in the monad [M], which logs them. *)

From Stdlib Require Import List String ZArith Bool Lia.
Import ListNotations.
Open Scope string_scope.
Open Scope list_scope.

Set Implicit Arguments.

(** ** Python values *)

(** The slots of [FieldInfo], over the type of objects they hold. *)
Record FieldInfoOf (V : Type) : Type := mkFieldInfo {
  annotation : V;
  default : V;
  default_factory : V;
  alias : V;
  alias_priority : V;
  validation_alias : V;
  serialization_alias : V;
  title : V;
  description : V;
  examples : V;
  exclude : V;
  include : V;
  discriminator : V;
  json_schema_extra : V;
  frozen : V;
  final : V;
  validate_default : V;
  repr : V;
  init_var : V;
  kw_only : V;
  metadata : list V
}.

(** The attributes of [dataclasses.Field] that the module reads.
    [dc_kw_only] is [None] where the attribute does not exist (it is read
    with [getattr(default, 'kw_only', None)]). *)
Record DataclassFieldOf (V : Type) : Type := mkDataclassField {
  dc_default : V;
  dc_default_factory : V;
  dc_repr : V;
  dc_metadata : list (string * V);
  dc_type : V;
  dc_kw_only : option V
}.

(** The slots of [ModelPrivateAttr]. *)
Record ModelPrivateAttrOf (V : Type) : Type := mkModelPrivateAttr {
  pa_default : V;
  pa_default_factory : V
}.

#[warnings="-register-all"]
Inductive value : Type :=
  (* sentinels *)
  | Undefined                       (* _fields.Undefined *)
  | Ellipsis                        (* ... *)
  | MISSING                         (* dataclasses.MISSING *)
  | VNone
  (* scalars and containers *)
  | VBool (b : bool)
  | VInt (n : Z)
  | VStr (s : string)
  | VList (l : list value)
  | VDict (d : list (string * value))
  | VCallable (f : unit -> value)   (* a zero-argument callable *)
  (* type annotations *)
  | VClass (name : string)          (* int, str, a model class, ... *)
  | VAny                            (* typing.Any *)
  | VFinal                          (* typing_extensions.Final, bare *)
  | VFinalOf (t : value)            (* Final[t] *)
  | VInitVar                        (* dataclasses.InitVar, bare *)
  | VInitVarOf (t : value)          (* InitVar[t], attribute [type] is t *)
  | VAnnotated (origin : value) (extras : list value)  (* Annotated[origin, *extras] *)
  (* constraint tokens: types.Strict, annotated_types.*, PydanticGeneralMetadata *)
  | Strict (v : value)
  | Gt (v : value)
  | Ge (v : value)
  | Lt (v : value)
  | Le (v : value)
  | MultipleOf (v : value)
  | MinLen (v : value)
  | MaxLen (v : value)
  | PydanticGeneralMetadata (d : list (string * value))
  (* alias objects *)
  | VAliasPath (path : list value)
  | VAliasChoices (choices : list value)
  (* descriptors *)
  | VFieldInfo (f : FieldInfoOf value)
  | VDataclassField (f : DataclassFieldOf value)
  | VModelPrivateAttr (p : ModelPrivateAttrOf value).

Definition FieldInfo : Type := FieldInfoOf value.
Definition DataclassField : Type := DataclassFieldOf value.
Definition ModelPrivateAttr : Type := ModelPrivateAttrOf value.

(** [x is None], [x is Undefined], [x is Ellipsis], [x is False] ... *)
Definition is_None (v : value) : bool :=
  match v with VNone => true | _ => false end.
Definition is_Undefined (v : value) : bool :=
  match v with Undefined => true | _ => false end.
Definition is_Ellipsis (v : value) : bool :=
  match v with Ellipsis => true | _ => false end.
Definition is_MISSING (v : value) : bool :=
  match v with MISSING => true | _ => false end.
Definition is_False (v : value) : bool :=
  match v with VBool false => true | _ => false end.

(** Python truth value of an object: [None], [False], zero and empty
    containers are false; every other object of this module has neither
    [__bool__] nor [__len__] and is true. *)
Definition truthy (v : value) : bool :=
  match v with
  | VNone => false
  | VBool b => b
  | VInt n => negb (Z.eqb n 0)
  | VStr s => negb (String.eqb s EmptyString)
  | VList l => match l with [] => false | _ => true end
  | VDict d => match d with [] => false | _ => true end
  | _ => true
  end.

(** [a or b] *)
Definition py_or (a b : value) : value := if truthy a then a else b.

(** [isinstance(v, FieldInfo)], [isinstance(v, str)], ... *)
Definition isinstance_FieldInfo (v : value) : bool :=
  match v with VFieldInfo _ => true | _ => false end.
Definition isinstance_str (v : value) : bool :=
  match v with VStr _ => true | _ => false end.
Definition isinstance_AliasPath (v : value) : bool :=
  match v with VAliasPath _ => true | _ => false end.
Definition isinstance_AliasChoices (v : value) : bool :=
  match v with VAliasChoices _ => true | _ => false end.

(** ** Exceptions and warnings *)

Inductive exn : Type :=
  | TypeError (msg : string)
  | RuntimeError (msg : string)
  | AttributeError (msg : string)
  | PydanticUserError (msg : string) (code : string).

Inductive result (A : Type) : Type :=
  | Ok (a : A)
  | Raise (e : exn).
Arguments Ok {A} a.
Arguments Raise {A} e.

Definition rbind {A B} (r : result A) (k : A -> result B) : result B :=
  match r with Ok a => k a | Raise e => Raise e end.

Inductive warning : Type :=
  | DeprecationWarning (msg : string).

(** A computation that may raise, with the warnings it emitted before it
    returned or raised, oldest first. *)
Definition M (A : Type) : Type := (result A * list warning)%type.

Definition ret {A} (a : A) : M A := (Ok a, []).
Definition raise {A} (e : exn) : M A := (Raise e, []).
Definition warn (msg : string) : M unit := (Ok tt, [DeprecationWarning msg]).
Definition lift {A} (r : result A) : M A := (r, []).
Definition bind {A B} (m : M A) (k : A -> M B) : M B :=
  match m with
  | (Ok a, w) => let '(r, w') := k a in (r, (w ++ w')%list)
  | (Raise e, w) => (Raise e, w)
  end.

Declare Scope py_scope.
Delimit Scope py_scope with py.
Notation "x <- m ;; k" := (bind m (fun x => k))
  (at level 61, m at next level, right associativity) : py_scope.
Notation "m ;;; k" := (bind m (fun _ => k))
  (at level 61, right associativity) : py_scope.
Notation "x <-? r ;; k" := (rbind r (fun x => k))
  (at level 61, r at next level, right associativity) : py_scope.
Open Scope py_scope.

(** ** Keyword-argument dictionaries *)

(** A [dict[str, Any]] in insertion order; keys are unique. *)
Definition kwargs : Type := list (string * value).

Fixpoint kw_find (key : string) (kw : kwargs) : option value :=
  match kw with
  | [] => None
  | (k, v) :: rest => if String.eqb k key then Some v else kw_find key rest
  end.

(** [del kw[key]] *)
Fixpoint kw_del (key : string) (kw : kwargs) : kwargs :=
  match kw with
  | [] => []
  | (k, v) :: rest => if String.eqb k key then rest else (k, v) :: kw_del key rest
  end.

(** [key in kw] *)
Definition kw_mem (key : string) (kw : kwargs) : bool :=
  match kw_find key kw with Some _ => true | None => false end.

(** [kw.get(key, dflt)] *)
Definition kw_get (key : string) (dflt : value) (kw : kwargs) : value :=
  match kw_find key kw with Some v => v | None => dflt end.

(** [kw.pop(key, dflt)]: the value and the dictionary left. *)
Definition kw_pop (key : string) (dflt : value) (kw : kwargs) : value * kwargs :=
  (kw_get key dflt kw, kw_del key kw).

(** [kw[key] = v]: an existing key keeps its place. *)
Fixpoint kw_set (key : string) (v : value) (kw : kwargs) : kwargs :=
  match kw with
  | [] => [(key, v)]
  | (k, x) :: rest =>
      if String.eqb k key then (k, v) :: rest else (k, x) :: kw_set key v rest
  end.

(** ** The typing hooks the module calls

    [_typing_extra.is_finalvar], [_typing_extra.is_annotated] and
    [typing_extensions.get_args] belong to the annotation-introspection
    layer; they are modelled on the annotation forms of [value]. *)

(** [Final] and [Final[t]] are final markers. *)
Definition is_finalvar (ann : value) : bool :=
  match ann with VFinal | VFinalOf _ => true | _ => false end.

Definition is_annotated (ann : value) : bool :=
  match ann with VAnnotated _ _ => true | _ => false end.

Definition get_args (ann : value) : list value :=
  match ann with
  | VFinalOf t => [t]
  | VAnnotated origin extras => origin :: extras
  | _ => []
  end.

(** Calling an object with no argument. *)
Definition call0 (f : value) : result value :=
  match f with
  | VCallable g => Ok (g tt)
  | _ => Raise (TypeError "object is not callable")
  end.

(** ** FieldInfo *)

(** [FieldInfo.metadata_lookup]: [None] for a keyword that is not in the
    table (the [KeyError] branch), [Some None] for a keyword collected into
    the general metadata, [Some (Some c)] for one with a constructor. *)
Definition metadata_lookup (key : string) : option (option (value -> value)) :=
  if String.eqb key "strict" then Some (Some Strict)
  else if String.eqb key "gt" then Some (Some Gt)
  else if String.eqb key "ge" then Some (Some Ge)
  else if String.eqb key "lt" then Some (Some Lt)
  else if String.eqb key "le" then Some (Some Le)
  else if String.eqb key "multiple_of" then Some (Some MultipleOf)
  else if String.eqb key "min_length" then Some (Some MinLen)
  else if String.eqb key "max_length" then Some (Some MaxLen)
  else if String.eqb key "pattern" then Some None
  else if String.eqb key "allow_inf_nan" then Some None
  else if String.eqb key "max_digits" then Some None
  else if String.eqb key "decimal_places" then Some None
  else None.

(** [next((a for a in args if isinstance(a, FieldInfo)), None)] *)
Fixpoint _find_field_info_arg (args : list value) : option FieldInfo :=
  match args with
  | [] => None
  | VFieldInfo f :: _ => Some f
  | _ :: rest => _find_field_info_arg rest
  end.

Definition twice_msg : string := "Field may not be used twice on the same field".

Definition _extract_metadata (ann : value) : result (value * list value) :=
  if negb (is_None ann) && is_annotated ann then
    match get_args ann with
    | first_arg :: extra_args =>
        match _find_field_info_arg extra_args with
        | Some _ => Raise (TypeError twice_msg)
        | None => Ok (first_arg, extra_args)
        end
    | [] => Ok (ann, [])
    end
  else Ok (ann, []).

(** The loop of [_collect_metadata] over [list(kwargs.items())]: the
    dictionary left, the tokens so far and the general metadata so far. *)
Fixpoint collect_loop (items kw : kwargs) (md : list value) (general : kwargs)
  : kwargs * list value * kwargs :=
  match items with
  | [] => (kw, md, general)
  | (key, v) :: rest =>
      match metadata_lookup key with
      | None => collect_loop rest kw md general
      | Some marker =>
          let kw := kw_del key kw in
          if negb (is_None v) then
            match marker with
            | None => collect_loop rest kw md (kw_set key v general)
            | Some mk => collect_loop rest kw (md ++ [mk v]) general
            end
          else collect_loop rest kw md general
      end
  end.

(** [_collect_metadata(kwargs)]: the tokens, and [kwargs] as it is left. *)
Definition _collect_metadata (kw : kwargs) : list value * kwargs :=
  let '(kw', md, general) := collect_loop kw kw [] [] in
  let md := match general with
            | [] => md
            | _ => md ++ [PydanticGeneralMetadata general]
            end in
  (md, kw').

Definition both_msg : string := "cannot specify both default and default_factory".

(** [FieldInfo.__init__], called with the keyword arguments [kw]. *)
Definition __init__ (kw : kwargs) : result FieldInfo :=
  extracted <-? _extract_metadata (kw_get "annotation" VNone kw) ;;
  let '(ann, annotation_metadata) := extracted in
  let '(dflt, kw) := kw_pop "default" Undefined kw in
  let self_default := if is_Ellipsis dflt then Undefined else dflt in
  let '(self_default_factory, kw) := kw_pop "default_factory" VNone kw in
  if negb (is_Undefined self_default) && negb (is_None self_default_factory) then
    Raise (TypeError both_msg)
  else
  let '(self_alias, kw) := kw_pop "alias" VNone kw in
  (* a conditional expression: the pop runs only when an alias is given *)
  let '(self_alias_priority, kw) :=
    if negb (is_None self_alias) then
      let '(prio, kw) := kw_pop "alias_priority" VNone kw in
      (py_or prio (VInt 2), kw)
    else (VNone, kw) in
  let '(self_title, kw) := kw_pop "title" VNone kw in
  let '(self_validation_alias, kw) := kw_pop "validation_alias" VNone kw in
  let '(self_serialization_alias, kw) := kw_pop "serialization_alias" VNone kw in
  let '(self_description, kw) := kw_pop "description" VNone kw in
  let '(self_examples, kw) := kw_pop "examples" VNone kw in
  let '(self_exclude, kw) := kw_pop "exclude" VNone kw in
  let '(self_include, kw) := kw_pop "include" VNone kw in
  let '(self_discriminator, kw) := kw_pop "discriminator" VNone kw in
  let '(self_repr, kw) := kw_pop "repr" (VBool true) kw in
  let '(self_json_schema_extra, kw) := kw_pop "json_schema_extra" VNone kw in
  let '(self_validate_default, kw) := kw_pop "validate_default" VNone kw in
  let '(self_frozen, kw) := kw_pop "frozen" VNone kw in
  let '(self_final, kw) := kw_pop "final" VNone kw in
  let '(self_init_var, kw) := kw_pop "init_var" VNone kw in
  let '(self_kw_only, kw) := kw_pop "kw_only" VNone kw in
  Ok {| annotation := ann;
        default := self_default;
        default_factory := self_default_factory;
        alias := self_alias;
        alias_priority := self_alias_priority;
        validation_alias := self_validation_alias;
        serialization_alias := self_serialization_alias;
        title := self_title;
        description := self_description;
        examples := self_examples;
        exclude := self_exclude;
        include := self_include;
        discriminator := self_discriminator;
        json_schema_extra := self_json_schema_extra;
        frozen := self_frozen;
        final := self_final;
        validate_default := self_validate_default;
        repr := self_repr;
        init_var := self_init_var;
        kw_only := self_kw_only;
        metadata := fst (_collect_metadata kw) ++ annotation_metadata |}.

(** Attribute assignment [self.slot = x] on a descriptor. *)
Definition set_annotation (self : FieldInfo) (x : value) : FieldInfo :=
  {| annotation := x;
     default := default self;
     default_factory := default_factory self;
     alias := alias self;
     alias_priority := alias_priority self;
     validation_alias := validation_alias self;
     serialization_alias := serialization_alias self;
     title := title self;
     description := description self;
     examples := examples self;
     exclude := exclude self;
     include := include self;
     discriminator := discriminator self;
     json_schema_extra := json_schema_extra self;
     frozen := frozen self;
     final := final self;
     validate_default := validate_default self;
     repr := repr self;
     init_var := init_var self;
     kw_only := kw_only self;
     metadata := metadata self |}.
Definition set_default (self : FieldInfo) (x : value) : FieldInfo :=
  {| annotation := annotation self;
     default := x;
     default_factory := default_factory self;
     alias := alias self;
     alias_priority := alias_priority self;
     validation_alias := validation_alias self;
     serialization_alias := serialization_alias self;
     title := title self;
     description := description self;
     examples := examples self;
     exclude := exclude self;
     include := include self;
     discriminator := discriminator self;
     json_schema_extra := json_schema_extra self;
     frozen := frozen self;
     final := final self;
     validate_default := validate_default self;
     repr := repr self;
     init_var := init_var self;
     kw_only := kw_only self;
     metadata := metadata self |}.
Definition set_final (self : FieldInfo) (x : value) : FieldInfo :=
  {| annotation := annotation self;
     default := default self;
     default_factory := default_factory self;
     alias := alias self;
     alias_priority := alias_priority self;
     validation_alias := validation_alias self;
     serialization_alias := serialization_alias self;
     title := title self;
     description := description self;
     examples := examples self;
     exclude := exclude self;
     include := include self;
     discriminator := discriminator self;
     json_schema_extra := json_schema_extra self;
     frozen := frozen self;
     final := x;
     validate_default := validate_default self;
     repr := repr self;
     init_var := init_var self;
     kw_only := kw_only self;
     metadata := metadata self |}.
Definition set_init_var (self : FieldInfo) (x : value) : FieldInfo :=
  {| annotation := annotation self;
     default := default self;
     default_factory := default_factory self;
     alias := alias self;
     alias_priority := alias_priority self;
     validation_alias := validation_alias self;
     serialization_alias := serialization_alias self;
     title := title self;
     description := description self;
     examples := examples self;
     exclude := exclude self;
     include := include self;
     discriminator := discriminator self;
     json_schema_extra := json_schema_extra self;
     frozen := frozen self;
     final := final self;
     validate_default := validate_default self;
     repr := repr self;
     init_var := x;
     kw_only := kw_only self;
     metadata := metadata self |}.
Definition set_kw_only (self : FieldInfo) (x : value) : FieldInfo :=
  {| annotation := annotation self;
     default := default self;
     default_factory := default_factory self;
     alias := alias self;
     alias_priority := alias_priority self;
     validation_alias := validation_alias self;
     serialization_alias := serialization_alias self;
     title := title self;
     description := description self;
     examples := examples self;
     exclude := exclude self;
     include := include self;
     discriminator := discriminator self;
     json_schema_extra := json_schema_extra self;
     frozen := frozen self;
     final := final self;
     validate_default := validate_default self;
     repr := repr self;
     init_var := init_var self;
     kw_only := x;
     metadata := metadata self |}.
Definition set_metadata (self : FieldInfo) (x : list value) : FieldInfo :=
  {| annotation := annotation self;
     default := default self;
     default_factory := default_factory self;
     alias := alias self;
     alias_priority := alias_priority self;
     validation_alias := validation_alias self;
     serialization_alias := serialization_alias self;
     title := title self;
     description := description self;
     examples := examples self;
     exclude := exclude self;
     include := include self;
     discriminator := discriminator self;
     json_schema_extra := json_schema_extra self;
     frozen := frozen self;
     final := final self;
     validate_default := validate_default self;
     repr := repr self;
     init_var := init_var self;
     kw_only := kw_only self;
     metadata := x |}.

Definition dquote : string := String (Ascii.ascii_of_nat 34) EmptyString.

Definition annotation_kwarg_msg : string :=
  dquote ++ "annotation" ++ dquote ++ " is not permitted as a Field keyword argument".

(** [FieldInfo.from_field(default, **kwargs)] *)
Definition from_field (dflt : value) (kw : kwargs) : result FieldInfo :=
  if kw_mem "annotation" kw then Raise (TypeError annotation_kwarg_msg)
  else __init__ (("default", dflt) :: kw).

Definition twice_default_msg : string :=
  "Default may not be specified twice on the same field".

(** [a for a in extra_args if not isinstance(a, FieldInfo)] *)
Definition not_field_infos (extra_args : list value) : list value :=
  filter (fun a => negb (isinstance_FieldInfo a)) extra_args.

(** [FieldInfo.from_annotation(annotation)] *)
Definition from_annotation (ann : value) : result FieldInfo :=
  let '(final0, ann) :=
    if is_finalvar ann then
      (true, match ann with VFinal => ann | _ => hd ann (get_args ann) end)
    else (false, ann) in
  let fallback (fin : bool) :=
    __init__ [("annotation", ann); ("final", VBool fin)] in
  if is_annotated ann then
    match get_args ann with
    | first_arg :: extra_args =>
        let fin := if is_finalvar first_arg then true else final0 in
        match _find_field_info_arg extra_args with
        | Some field_info =>
            let new_field_info := field_info in
            let new_field_info := set_annotation new_field_info first_arg in
            let new_field_info := set_final new_field_info (VBool fin) in
            let new_field_info :=
              set_metadata new_field_info
                (metadata new_field_info ++ not_field_infos extra_args) in
            Ok new_field_info
        | None => fallback fin
        end
    | [] => fallback final0
    end
  else fallback final0.

(** [FieldInfo.is_required()] *)
Definition is_required (self : FieldInfo) : bool :=
  is_Undefined (default self) && is_None (default_factory self).

(** [FieldInfo.get_default(call_default_factory=...)].  The copy helper
    [_utils.smart_deepcopy] lives outside this module and is a parameter. *)
Definition get_default (smart_deepcopy : value -> value)
    (self : FieldInfo) (call_default_factory : bool) : result value :=
  if is_None (default_factory self) then Ok (smart_deepcopy (default self))
  else if call_default_factory then call0 (default_factory self)
  else Ok VNone.

(** *** Rebuilding the annotation

    [rebuild_annotation] does not write [Annotated[...]]: it calls the
    class behind it, [typing_extensions._AnnotatedAlias], with the stored
    annotation and the metadata list.  That class belongs to the typing
    module; what follows models its constructor and [get_args] on the
    object it builds. *)

(** The object [_AnnotatedAlias(origin, metadata)] builds when it is handed
    a list: the constructor stores the metadata object it is given in
    [__metadata__], where the subscription [Annotated[...]] hands it a
    tuple. *)
Record AnnotatedAlias : Type := mkAnnotatedAlias {
  __origin__ : value;
  __metadata__ : list value
}.

(** Whether an object has a [__module__] attribute: classes, typing
    forms, functions and the instances of classes written in Python have
    one; [None], the Ellipsis literal and the instances of the built-in
    scalars and containers have none. *)
Definition has_module_attribute (v : value) : bool :=
  match v with
  | VNone | Ellipsis | VBool _ | VInt _ | VStr _ | VList _ | VDict _ => false
  | _ => true
  end.

(** [type(v).__name__] for the objects without a [__module__]. *)
Definition type_name (v : value) : string :=
  match v with
  | VNone => "NoneType"
  | Ellipsis => "ellipsis"
  | VBool _ => "bool"
  | VInt _ => "int"
  | VStr _ => "str"
  | VList _ => "list"
  | VDict _ => "dict"
  | _ => "object"
  end.

Definition concatenate_msg : string :=
  "can only concatenate tuple (not " ++ dquote ++ "list" ++ dquote ++ ") to tuple".

Definition no_module_msg (v : value) : string :=
  "'" ++ type_name v ++ "' object has no attribute '__module__'".

(** [typing_extensions._AnnotatedAlias(origin, metadata)] with a list as
    metadata.  For an origin that is itself an annotated form the
    constructor puts the metadata of the origin, a tuple, in front of the
    list, and the sum of a tuple and a list raises.  For any other origin the
    initialiser of the base class reads [origin.__module__], and the list is
    stored as it is. *)
Definition _AnnotatedAlias (origin : value) (md : list value)
  : result AnnotatedAlias :=
  match origin with
  | VAnnotated _ _ => Raise (TypeError concatenate_msg)
  | _ =>
      if has_module_attribute origin
      then Ok {| __origin__ := origin; __metadata__ := md |}
      else Raise (AttributeError (no_module_msg origin))
  end.

(** [typing_extensions.get_args] on such an object computes
    [(tp.__origin__,) + tp.__metadata__], a tuple plus a list: it returns
    nothing and raises this exception. *)
Definition get_args_of_alias (tp : AnnotatedAlias) : exn :=
  TypeError concatenate_msg.

(** What [rebuild_annotation] returns: the stored annotation, or the object
    it built. *)
Inductive rebuilt_annotation : Type :=
  | Annotation (a : value)
  | ListAlias (a : AnnotatedAlias).

(** [FieldInfo.rebuild_annotation()] *)
Definition rebuild_annotation (self : FieldInfo) : result rebuilt_annotation :=
  match metadata self with
  | [] => Ok (Annotation (annotation self))
  | _ =>
      a <-? _AnnotatedAlias (annotation self) (metadata self) ;;
      Ok (ListAlias a)
  end.

(** [FieldInfo.from_annotation] called with what [rebuild_annotation]
    returned.  The object built from a list is no final marker and
    [is_annotated] holds of it, its origin being [Annotated]; so the first
    thing the function does with it is the call of [get_args]. *)
Definition from_rebuilt_annotation (ann : rebuilt_annotation) : result FieldInfo :=
  match ann with
  | Annotation a => from_annotation a
  | ListAlias a => Raise (get_args_of_alias a)
  end.

(** ** The Field function *)

(** The named parameters of [Field]; any other keyword lands in [**extra]. *)
Definition Field_parameters : list string :=
  [ "default"; "default_factory"; "alias"; "alias_priority"; "validation_alias";
    "serialization_alias"; "title"; "description"; "examples"; "exclude";
    "include"; "discriminator"; "json_schema_extra"; "frozen"; "final";
    "validate_default"; "repr"; "init_var"; "kw_only"; "pattern"; "strict";
    "gt"; "ge"; "lt"; "le"; "multiple_of"; "allow_inf_nan"; "max_digits";
    "decimal_places"; "min_length"; "max_length" ].

Definition is_Field_parameter (key : string) : bool :=
  existsb (String.eqb key) Field_parameters.

Definition const_msg : string := "`const` is removed, use `Literal` instead".
Definition min_items_msg : string :=
  "`min_items` is deprecated and will be removed, use `min_length` instead".
Definition max_items_msg : string :=
  "`max_items` is deprecated and will be removed, use `max_length` instead".
Definition unique_items_msg : string :=
  "`unique_items` is removed, use `Set` instead" ++
  "(this feature is discussed in https://github.com/pydantic/pydantic-core/issues/296)".
Definition allow_mutation_msg : string :=
  "`allow_mutation` is deprecated and will be removed. use `frozen` instead".
Definition regex_msg : string := "`regex` is removed. use `pattern` instead".
Definition extra_msg : string :=
  "Extra keyword arguments on `Field` is deprecated and will be removed. use `json_schema_extra` instead".
Definition validation_alias_msg : string :=
  "Invalid `validation_alias` type. it should be `str`, `AliasChoices`, or `AliasPath`".

(** [Field(...)], called with the keyword arguments [args] (a positional
    default is the keyword [default]).  Parameters that are not given take
    their defaults; the other keywords are [extra], in call order. *)
Definition Field (args : kwargs) : M FieldInfo :=
  let dflt := kw_get "default" Undefined args in
  let default_factory := kw_get "default_factory" VNone args in
  let alias := kw_get "alias" VNone args in
  let alias_priority := kw_get "alias_priority" VNone args in
  let validation_alias := kw_get "validation_alias" VNone args in
  let serialization_alias := kw_get "serialization_alias" VNone args in
  let title := kw_get "title" VNone args in
  let description := kw_get "description" VNone args in
  let examples := kw_get "examples" VNone args in
  let exclude := kw_get "exclude" VNone args in
  let include := kw_get "include" VNone args in
  let discriminator := kw_get "discriminator" VNone args in
  let json_schema_extra := kw_get "json_schema_extra" VNone args in
  let frozen := kw_get "frozen" VNone args in
  let final := kw_get "final" VNone args in
  let validate_default := kw_get "validate_default" VNone args in
  let repr := kw_get "repr" (VBool true) args in
  let init_var := kw_get "init_var" VNone args in
  let kw_only := kw_get "kw_only" VNone args in
  let pattern := kw_get "pattern" VNone args in
  let strict := kw_get "strict" VNone args in
  let gt := kw_get "gt" VNone args in
  let ge := kw_get "ge" VNone args in
  let lt := kw_get "lt" VNone args in
  let le := kw_get "le" VNone args in
  let multiple_of := kw_get "multiple_of" VNone args in
  let allow_inf_nan := kw_get "allow_inf_nan" VNone args in
  let max_digits := kw_get "max_digits" VNone args in
  let decimal_places := kw_get "decimal_places" VNone args in
  let min_length := kw_get "min_length" VNone args in
  let max_length := kw_get "max_length" VNone args in
  let extra : kwargs :=
    filter (fun kv => negb (is_Field_parameter (fst kv))) args in
  (* Check deprecated and removed params from V1. *)
  let '(const, extra) := kw_pop "const" VNone extra in
  if negb (is_None const) then
    raise (PydanticUserError const_msg "deprecated-kwargs")
  else
  let '(min_items, extra) := kw_pop "min_items" VNone extra in
  min_length <-
    (if negb (is_None min_items) then
       warn min_items_msg ;;;
       ret (if is_None min_length then min_items else min_length)
     else ret min_length) ;;
  let '(max_items, extra) := kw_pop "max_items" VNone extra in
  max_length <-
    (if negb (is_None max_items) then
       warn max_items_msg ;;;
       ret (if is_None max_length then max_items else max_length)
     else ret max_length) ;;
  let '(unique_items, extra) := kw_pop "unique_items" VNone extra in
  if negb (is_None unique_items) then
    raise (PydanticUserError unique_items_msg "deprecated-kwargs")
  else
  let '(allow_mutation, extra) := kw_pop "allow_mutation" VNone extra in
  frozen <-
    (if negb (is_None allow_mutation) then
       warn allow_mutation_msg ;;;
       ret (if is_False allow_mutation then VBool true else frozen)
     else ret frozen) ;;
  let '(regex, extra) := kw_pop "regex" VNone extra in
  if negb (is_None regex) then
    raise (PydanticUserError regex_msg "deprecated-kwargs")
  else
  json_schema_extra <-
    (if truthy (VDict extra) then
       warn extra_msg ;;;
       ret (if negb (truthy json_schema_extra) then VDict extra
            else json_schema_extra)
     else ret json_schema_extra) ;;
  if truthy validation_alias
     && negb (isinstance_str validation_alias
              || isinstance_AliasChoices validation_alias
              || isinstance_AliasPath validation_alias) then
    raise (TypeError validation_alias_msg)
  else
  let serialization_alias :=
    if is_None serialization_alias && isinstance_str alias then alias
    else serialization_alias in
  lift (from_field dflt
    [ ("default_factory", default_factory);
      ("alias", alias);
      ("alias_priority", alias_priority);
      ("validation_alias", py_or validation_alias alias);
      ("serialization_alias", serialization_alias);
      ("title", title);
      ("description", description);
      ("examples", examples);
      ("exclude", exclude);
      ("include", include);
      ("discriminator", discriminator);
      ("json_schema_extra", json_schema_extra);
      ("frozen", frozen);
      ("final", final);
      ("pattern", pattern);
      ("validate_default", validate_default);
      ("repr", repr);
      ("init_var", init_var);
      ("kw_only", kw_only);
      ("strict", strict);
      ("gt", gt);
      ("ge", ge);
      ("lt", lt);
      ("le", le);
      ("multiple_of", multiple_of);
      ("min_length", min_length);
      ("max_length", max_length);
      ("allow_inf_nan", allow_inf_nan);
      ("max_digits", max_digits);
      ("decimal_places", decimal_places) ]).

(** ** Descriptors from dataclass fields and annotated attributes *)

Definition multiple_values_msg : string :=
  "Field() got multiple values for keyword argument".

(** [FieldInfo._from_dataclass_field(dc_field)].  The call
    [Field(default=..., default_factory=..., repr=..., **dc_field.metadata)]
    is a [TypeError] of the interpreter when the mapping repeats one of the
    three explicit keywords. *)
Definition _from_dataclass_field (dc_field : DataclassField) : M FieldInfo :=
  let dflt := dc_default dc_field in
  let dflt := if is_MISSING dflt then Undefined else dflt in
  let default_factory :=
    if is_MISSING (dc_default_factory dc_field) then VNone
    else dc_default_factory dc_field in
  if kw_mem "default" (dc_metadata dc_field)
     || kw_mem "default_factory" (dc_metadata dc_field)
     || kw_mem "repr" (dc_metadata dc_field) then
    raise (TypeError multiple_values_msg)
  else
  field <- Field (("default", dflt) :: ("default_factory", default_factory)
                  :: ("repr", dc_repr dc_field) :: dc_metadata dc_field) ;;
  extracted <- lift (_extract_metadata (dc_type dc_field)) ;;
  let '(ann, annotation_metadata) := extracted in
  let field := set_annotation field ann in
  let field := set_metadata field (metadata field ++ annotation_metadata) in
  ret field.

Definition initvar_msg : string :=
  "InitVar is not supported in Python 3.7 as type information is lost".

(** [sys.version_info < (3, 8)], on the major and minor numbers. *)
Definition version_lt_3_8 (version_info : Z * Z) : bool :=
  let '(major, minor) := version_info in
  (major <? 3)%Z || ((major =? 3)%Z && (minor <? 8)%Z).

(** [FieldInfo.from_annotated_attribute(annotation, default)], run by an
    interpreter of version [version_info]. *)
Definition from_annotated_attribute (version_info : Z * Z)
    (ann : value) (dflt : value) : M FieldInfo :=
  let '(final0, ann) :=
    if is_finalvar ann then
      (true, match ann with VFinal => ann | _ => hd ann (get_args ann) end)
    else (false, ann) in
  match dflt with
  | VFieldInfo default_info =>
      extracted <- lift (_extract_metadata ann) ;;
      let '(ann', annotation_metadata) := extracted in
      let default_info := set_annotation default_info ann' in
      let default_info :=
        set_metadata default_info (metadata default_info ++ annotation_metadata) in
      let default_info := set_final default_info (VBool final0) in
      ret default_info
  | VDataclassField dc =>
      init <-
        match ann with
        | VInitVar =>
            if version_lt_3_8 version_info then raise (RuntimeError initvar_msg)
            else ret (true, VAny)
        | VInitVarOf t => ret (true, t)
        | _ => ret (false, ann)
        end ;;
      let '(init_var, ann) := init in
      pydantic_field <- _from_dataclass_field dc ;;
      extracted <- lift (_extract_metadata ann) ;;
      let '(ann', annotation_metadata) := extracted in
      let pydantic_field := set_annotation pydantic_field ann' in
      let pydantic_field :=
        set_metadata pydantic_field
          (metadata pydantic_field ++ annotation_metadata) in
      let pydantic_field := set_final pydantic_field (VBool final0) in
      let pydantic_field := set_init_var pydantic_field (VBool init_var) in
      let pydantic_field :=
        set_kw_only pydantic_field
          (match dc_kw_only dc with Some k => k | None => VNone end) in
      ret pydantic_field
  | _ =>
      let fallback :=
        lift (__init__ [("annotation", ann); ("default", dflt);
                        ("final", VBool final0)]) in
      if is_annotated ann then
        match get_args ann with
        | first_arg :: extra_args =>
            match _find_field_info_arg extra_args with
            | Some field_info =>
                if negb (is_required field_info) then
                  raise (TypeError twice_default_msg)
                else
                  let new_field_info := field_info in
                  let new_field_info := set_default new_field_info dflt in
                  let new_field_info := set_annotation new_field_info first_arg in
                  let new_field_info :=
                    set_metadata new_field_info
                      (metadata new_field_info ++ not_field_infos extra_args) in
                  ret new_field_info
            | None => fallback
            end
        | [] => fallback
        end
      else fallback
  end.

(** ** Private attributes *)

(** [PrivateAttr(default, default_factory=...)] *)
Definition PrivateAttr (dflt default_factory : value) : result ModelPrivateAttr :=
  if negb (is_Undefined dflt) && negb (is_None default_factory) then
    Raise (TypeError both_msg)
  else
    Ok {| pa_default := dflt; pa_default_factory := default_factory |}.

Unset Implicit Arguments.

(** * Normal forms and the terms of the statements *)

(** The keywords [__init__] pops, in the order it pops them (the alias
    priority only when an alias is given), and the dictionary that reaches
    [_collect_metadata]. *)
Definition popped_keys (alias_given : bool) : list string :=
  [ "default"; "default_factory"; "alias" ]
  ++ (if alias_given then [ "alias_priority" ] else [])
  ++ [ "title"; "validation_alias"; "serialization_alias"; "description";
       "examples"; "exclude"; "include"; "discriminator"; "repr";
       "json_schema_extra"; "validate_default"; "frozen"; "final";
       "init_var"; "kw_only" ].

Definition after_pops (kw : kwargs) : kwargs :=
  fold_left (fun kw key => kw_del key kw)
    (popped_keys (negb (is_None (kw_get "alias" VNone kw)))) kw.

(** The stored default: [Ellipsis] becomes [Undefined]. *)
Definition stored_default (kw : kwargs) : value :=
  let dflt := kw_get "default" Undefined kw in
  if is_Ellipsis dflt then Undefined else dflt.

(** What [__init__] builds when it raises nothing, slot by slot, each read
    from the dictionary it was called with. *)
Definition built (kw : kwargs) (ann : value) (annotation_metadata : list value)
  : FieldInfo :=
  {| annotation := ann;
     default := stored_default kw;
     default_factory := kw_get "default_factory" VNone kw;
     alias := kw_get "alias" VNone kw;
     alias_priority :=
       if negb (is_None (kw_get "alias" VNone kw))
       then py_or (kw_get "alias_priority" VNone kw) (VInt 2) else VNone;
     validation_alias := kw_get "validation_alias" VNone kw;
     serialization_alias := kw_get "serialization_alias" VNone kw;
     title := kw_get "title" VNone kw;
     description := kw_get "description" VNone kw;
     examples := kw_get "examples" VNone kw;
     exclude := kw_get "exclude" VNone kw;
     include := kw_get "include" VNone kw;
     discriminator := kw_get "discriminator" VNone kw;
     json_schema_extra := kw_get "json_schema_extra" VNone kw;
     frozen := kw_get "frozen" VNone kw;
     final := kw_get "final" VNone kw;
     validate_default := kw_get "validate_default" VNone kw;
     repr := kw_get "repr" (VBool true) kw;
     init_var := kw_get "init_var" VNone kw;
     kw_only := kw_get "kw_only" VNone kw;
     metadata := fst (_collect_metadata (after_pops kw)) ++ annotation_metadata |}.

(** The keywords of a call that are not parameters of [Field]. *)
Definition extra_of (args : kwargs) : kwargs :=
  filter (fun kv => negb (is_Field_parameter (fst kv))) args.

(** [extra] once the six legacy keywords are popped. *)
Definition extra_left (args : kwargs) : kwargs :=
  fold_left (fun kw key => kw_del key kw)
    ["const"; "min_items"; "max_items"; "unique_items"; "allow_mutation"; "regex"]
    (extra_of args).

(** The fatal checks of [Field], in the order the code meets them. *)
Definition Field_error (args : kwargs) : option exn :=
  let validation_alias := kw_get "validation_alias" VNone args in
  if negb (is_None (kw_get "const" VNone args)) then
    Some (PydanticUserError const_msg "deprecated-kwargs")
  else if negb (is_None (kw_get "unique_items" VNone args)) then
    Some (PydanticUserError unique_items_msg "deprecated-kwargs")
  else if negb (is_None (kw_get "regex" VNone args)) then
    Some (PydanticUserError regex_msg "deprecated-kwargs")
  else if truthy validation_alias
          && negb (isinstance_str validation_alias
                   || isinstance_AliasChoices validation_alias
                   || isinstance_AliasPath validation_alias) then
    Some (TypeError validation_alias_msg)
  else None.

(** A length bound after the translation of its legacy keyword. *)
Definition translated (legacy current : string) (args : kwargs) : value :=
  if negb (is_None (kw_get legacy VNone args))
     && is_None (kw_get current VNone args)
  then kw_get legacy VNone args else kw_get current VNone args.

(** The keyword arguments [Field] hands to [from_field]. *)
Definition Field_kwargs (args : kwargs) : kwargs :=
  [ ("default_factory", kw_get "default_factory" VNone args);
    ("alias", kw_get "alias" VNone args);
    ("alias_priority", kw_get "alias_priority" VNone args);
    ("validation_alias",
       py_or (kw_get "validation_alias" VNone args) (kw_get "alias" VNone args));
    ("serialization_alias",
       if is_None (kw_get "serialization_alias" VNone args)
          && isinstance_str (kw_get "alias" VNone args)
       then kw_get "alias" VNone args
       else kw_get "serialization_alias" VNone args);
    ("title", kw_get "title" VNone args);
    ("description", kw_get "description" VNone args);
    ("examples", kw_get "examples" VNone args);
    ("exclude", kw_get "exclude" VNone args);
    ("include", kw_get "include" VNone args);
    ("discriminator", kw_get "discriminator" VNone args);
    ("json_schema_extra",
       if truthy (VDict (extra_left args))
          && negb (truthy (kw_get "json_schema_extra" VNone args))
       then VDict (extra_left args)
       else kw_get "json_schema_extra" VNone args);
    ("frozen",
       if is_False (kw_get "allow_mutation" VNone args) then VBool true
       else kw_get "frozen" VNone args);
    ("final", kw_get "final" VNone args);
    ("pattern", kw_get "pattern" VNone args);
    ("validate_default", kw_get "validate_default" VNone args);
    ("repr", kw_get "repr" (VBool true) args);
    ("init_var", kw_get "init_var" VNone args);
    ("kw_only", kw_get "kw_only" VNone args);
    ("strict", kw_get "strict" VNone args);
    ("gt", kw_get "gt" VNone args);
    ("ge", kw_get "ge" VNone args);
    ("lt", kw_get "lt" VNone args);
    ("le", kw_get "le" VNone args);
    ("multiple_of", kw_get "multiple_of" VNone args);
    ("min_length", translated "min_items" "min_length" args);
    ("max_length", translated "max_items" "max_length" args);
    ("allow_inf_nan", kw_get "allow_inf_nan" VNone args);
    ("max_digits", kw_get "max_digits" VNone args);
    ("decimal_places", kw_get "decimal_places" VNone args) ].

(** The annotation once a [Final[...]] wrapper is taken off; a bare [Final]
    stays as it is. *)
Definition unwrap_final (ann : value) : value :=
  match ann with VFinalOf t => t | _ => ann end.

(** The invariants of a descriptor's [annotation] and [metadata] slots: the
    annotation is stored with its embedded metadata split off, and the
    metadata holds constraint tokens, never a descriptor.  Both hold of
    every descriptor the constructor builds (the first provided the origin
    of an annotated form is not annotated again, which the typing module
    guarantees by flattening nested forms). *)
Definition stripped (f : FieldInfo) : Prop :=
  is_annotated (annotation f) = false.
Definition tokens_only (f : FieldInfo) : Prop :=
  _find_field_info_arg (metadata f) = None.

(** An annotation as the typing module builds it: the origin of an
    annotated form is not an annotated form again. *)
Definition flat (ann : value) : Prop :=
  forall origin extras,
    ann = VAnnotated origin extras -> is_annotated origin = false.

(** The descriptor an annotation embeds: the first one among the extra
    arguments of the annotated form, looked for under a [Final[...]]
    wrapper too, as both annotation paths do. *)
Definition embedded_field_info (ann : value) : option FieldInfo :=
  match unwrap_final ann with
  | VAnnotated _ extras => _find_field_info_arg extras
  | _ => None
  end.

(** A default that is a plain value: neither a descriptor nor a dataclass
    field, which [from_annotated_attribute] resolves on branches of their
    own. *)
Definition plain_default (dflt : value) : bool :=
  match dflt with
  | VFieldInfo _ | VDataclassField _ => false
  | _ => true
  end.

(** How many descriptors the extra arguments of an annotated form hold. *)
Definition count_field_infos (extras : list value) : nat :=
  List.length (filter isinstance_FieldInfo extras).

(** The constructions that take a default and a default_factory from the
    caller. *)
Inductive construction : Type :=
  | Direct (kw : kwargs)                     (* FieldInfo called with kw *)
  | ViaFromField (dflt : value) (kw : kwargs) (* FieldInfo.from_field *)
  | Builder (args : kwargs)                  (* Field called with args *)
  | ExternalField (dc : DataclassField)      (* _from_dataclass_field *)
  | Private (dflt default_factory : value).  (* PrivateAttr *)

Definition error_of {A : Type} (r : result A) : option exn :=
  match r with Ok _ => None | Raise e => Some e end.

(** The exception a construction ends with, if any. *)
Definition outcome (c : construction) : option exn :=
  match c with
  | Direct kw => error_of (__init__ kw)
  | ViaFromField dflt kw => error_of (from_field dflt kw)
  | Builder args => error_of (fst (Field args))
  | ExternalField dc => error_of (fst (_from_dataclass_field dc))
  | Private dflt default_factory => error_of (PrivateAttr dflt default_factory)
  end.

(** The call [_from_dataclass_field] makes to [Field]. *)
Definition dataclass_args (dc : DataclassField) : kwargs :=
  ("default", if is_MISSING (dc_default dc) then Undefined else dc_default dc)
  :: ("default_factory",
      if is_MISSING (dc_default_factory dc) then VNone
      else dc_default_factory dc)
  :: ("repr", dc_repr dc) :: dc_metadata dc.

Definition repeats_keyword (dc : DataclassField) : bool :=
  kw_mem "default" (dc_metadata dc)
  || kw_mem "default_factory" (dc_metadata dc)
  || kw_mem "repr" (dc_metadata dc).

(** The default and the factory the caller supplies. *)
Definition supplied_default (c : construction) : value :=
  match c with
  | Direct kw => kw_get "default" Undefined kw
  | ViaFromField dflt _ => dflt
  | Builder args => kw_get "default" Undefined args
  | ExternalField dc => kw_get "default" Undefined (dataclass_args dc)
  | Private dflt _ => dflt
  end.

Definition supplied_factory (c : construction) : value :=
  match c with
  | Direct kw => kw_get "default_factory" VNone kw
  | ViaFromField _ kw => kw_get "default_factory" VNone kw
  | Builder args => kw_get "default_factory" VNone args
  | ExternalField dc => kw_get "default_factory" VNone (dataclass_args dc)
  | Private _ default_factory => default_factory
  end.

(** A concrete default is a value other than Unset; for a field descriptor
    the Ellipsis literal stands for Unset as well, for a private attribute
    it does not. *)
Definition concrete_default (c : construction) : bool :=
  match c with
  | Private dflt _ => negb (is_Undefined dflt)
  | _ => negb (is_Undefined (supplied_default c))
         && negb (is_Ellipsis (supplied_default c))
  end.

Definition supplies_both (c : construction) : bool :=
  concrete_default c && negb (is_None (supplied_factory c)).

Definition is_Ok {A : Type} (r : result A) : bool :=
  match r with Ok _ => true | Raise _ => false end.

(** The checks a construction runs before it compares default and
    default_factory. *)
Definition earlier_checks_pass (c : construction) : bool :=
  match c with
  | Direct kw => is_Ok (_extract_metadata (kw_get "annotation" VNone kw))
  | ViaFromField _ kw => negb (kw_mem "annotation" kw)
  | Builder args =>
      match Field_error args with None => true | Some _ => false end
  | ExternalField dc =>
      negb (repeats_keyword dc)
      && match Field_error (dataclass_args dc) with
         | None => true
         | Some _ => false
         end
  | Private _ _ => true
  end.

(** * The rest of the module *)

(** ** Alias objects *)

(** [AliasPath(first_arg, *args)] and [AliasChoices(first_choice, *choices)]:
    the constructors store the first argument followed by the others. *)
Definition AliasPath (first_arg : value) (args : list value) : value :=
  VAliasPath (first_arg :: args).

Definition AliasChoices (first_choice : value) (choices : list value) : value :=
  VAliasChoices (first_choice :: choices).

(** [AliasPath.convert_to_aliases], on the stored path. *)
Definition AliasPath_convert_to_aliases (path : list value) : list value := path.

(** [AliasChoices.convert_to_aliases], on the stored choices: the loop
    appends one list per choice. *)
Definition AliasChoices_convert_to_aliases (choices : list value)
  : list (list value) :=
  fold_left
    (fun aliases c =>
       match c with
       | VAliasPath path => aliases ++ [AliasPath_convert_to_aliases path]
       | _ => aliases ++ [[c]]
       end)
    choices [].

(** ** ModelPrivateAttr *)

(** [ModelPrivateAttr.get_default()], with the copy helper as a parameter. *)
Definition ModelPrivateAttr_get_default (smart_deepcopy : value -> value)
    (self : ModelPrivateAttr) : result value :=
  if is_None (pa_default_factory self)
  then Ok (smart_deepcopy (pa_default self))
  else call0 (pa_default_factory self).

(** ** The representation of a descriptor *)

(** [FieldInfo.__slots__] *)
Definition __slots__ : list string :=
  [ "annotation"; "default"; "default_factory"; "alias"; "alias_priority";
    "validation_alias"; "serialization_alias"; "title"; "description";
    "examples"; "exclude"; "include"; "discriminator"; "json_schema_extra";
    "frozen"; "final"; "validate_default"; "repr"; "init_var"; "kw_only";
    "metadata" ].

(** [getattr(self, s)] for a slot name; the metadata list is a list object. *)
Definition getattr (self : FieldInfo) (s : string) : value :=
  if String.eqb s "annotation" then annotation self
  else if String.eqb s "default" then default self
  else if String.eqb s "default_factory" then default_factory self
  else if String.eqb s "alias" then alias self
  else if String.eqb s "alias_priority" then alias_priority self
  else if String.eqb s "validation_alias" then validation_alias self
  else if String.eqb s "serialization_alias" then serialization_alias self
  else if String.eqb s "title" then title self
  else if String.eqb s "description" then description self
  else if String.eqb s "examples" then examples self
  else if String.eqb s "exclude" then exclude self
  else if String.eqb s "include" then include self
  else if String.eqb s "discriminator" then discriminator self
  else if String.eqb s "json_schema_extra" then json_schema_extra self
  else if String.eqb s "frozen" then frozen self
  else if String.eqb s "final" then final self
  else if String.eqb s "validate_default" then validate_default self
  else if String.eqb s "repr" then repr self
  else if String.eqb s "init_var" then init_var self
  else if String.eqb s "kw_only" then kw_only self
  else VList (metadata self).

Definition is_True (v : value) : bool :=
  match v with VBool true => true | _ => false end.

(** What one turn of the loop of [__repr_args__] yields for the slot [s].
    [display] stands for [PlainRepr(display_as_type(...))] and [py_eq] for
    the comparison [==] of two objects, both defined outside this module. *)
Definition repr_slot (display : value -> value) (py_eq : value -> value -> bool)
    (self : FieldInfo) (s : string) : list (string * value) :=
  if String.eqb s "annotation" then []
  else if String.eqb s "metadata" && negb (truthy (VList (metadata self))) then []
  else if String.eqb s "repr" && is_True (repr self) then []
  else if String.eqb s "final" then []
  else if String.eqb s "frozen" && is_False (frozen self) then []
  else if String.eqb s "validation_alias"
          && py_eq (validation_alias self) (alias self) then []
  else if String.eqb s "serialization_alias"
          && py_eq (serialization_alias self) (alias self) then []
  else if String.eqb s "default_factory" && negb (is_None (default_factory self))
  then [("default_factory", display (default_factory self))]
  else
    let v := getattr self s in
    if negb (is_None v) && negb (is_Undefined v) then [(s, v)] else [].

(** [FieldInfo.__repr_args__()]: the pairs the generator yields, in order. *)
Definition __repr_args__ (display : value -> value)
    (py_eq : value -> value -> bool) (self : FieldInfo)
  : list (string * value) :=
  ("annotation", display (annotation self))
  :: ("required", VBool (is_required self))
  :: flat_map (repr_slot display py_eq self) __slots__.

(** ** Terms of the statements about the metadata tokens *)

(** The tokens with a constructor of their own, in keyword order. *)
Definition dedicated_tokens (kw : kwargs) : list value :=
  flat_map
    (fun kv =>
       match metadata_lookup (fst kv) with
       | Some (Some mk) => if is_None (snd kv) then [] else [mk (snd kv)]
       | _ => []
       end) kw.

(** The keywords collected into the general metadata, in keyword order. *)
Definition general_entries (kw : kwargs) : kwargs :=
  filter
    (fun kv =>
       match metadata_lookup (fst kv) with
       | Some None => negb (is_None (snd kv))
       | _ => false
       end) kw.

(** The general-metadata token, if there is anything to put into it. *)
Definition bucket (general : kwargs) : list value :=
  match general with
  | [] => []
  | _ => [PydanticGeneralMetadata general]
  end.

(** The keywords [_collect_metadata] leaves in the dictionary. *)
Definition not_constraints (kw : kwargs) : kwargs :=
  filter
    (fun kv => match metadata_lookup (fst kv) with None => true | _ => false end)
    kw.

Definition opt_token (mk : value -> value) (v : value) : list value :=
  if is_None v then [] else [mk v].

Definition opt_entry (key : string) (v : value) : kwargs :=
  if is_None v then [] else [(key, v)].

(** Whether [key] is one of the table's keywords among [items]. *)
Definition taken_out (items : kwargs) (key : string) : bool :=
  existsb
    (fun it => String.eqb key (fst it)
               && match metadata_lookup (fst it) with
                  | None => false
                  | Some _ => true
                  end) items.

(** ** Terms of the statements about the Field function *)

(** The warnings of a call of [Field] that passes every check, oldest
    first. *)
Definition Field_warnings (args : kwargs) : list warning :=
  (if is_None (kw_get "min_items" VNone args) then []
   else [DeprecationWarning min_items_msg])
  ++ (if is_None (kw_get "max_items" VNone args) then []
      else [DeprecationWarning max_items_msg])
  ++ (if is_None (kw_get "allow_mutation" VNone args) then []
      else [DeprecationWarning allow_mutation_msg])
  ++ (if truthy (VDict (extra_left args)) then [DeprecationWarning extra_msg]
      else []).

(** The keywords [Field] pops from [extra] by name. *)
Definition legacy_keywords : list string :=
  ["const"; "min_items"; "max_items"; "unique_items"; "allow_mutation"; "regex"].

(** The three shapes a validation alias may have. *)
Definition permitted_alias_shape (v : value) : bool :=
  isinstance_str v || isinstance_AliasChoices v || isinstance_AliasPath v.

(** The dictionary [__init__] receives from [Field]. *)
Definition Field_call (args : kwargs) : kwargs :=
  ("default", kw_get "default" Undefined args) :: Field_kwargs args.

(** Two descriptors with the same options: every slot but the annotation,
    the final flag and the metadata. *)
Definition same_options (f g : FieldInfo) : Prop :=
  default f = default g /\ default_factory f = default_factory g /\
  alias f = alias g /\ alias_priority f = alias_priority g /\
  validation_alias f = validation_alias g /\
  serialization_alias f = serialization_alias g /\
  title f = title g /\ description f = description g /\
  examples f = examples g /\ exclude f = exclude g /\
  include f = include g /\ discriminator f = discriminator g /\
  json_schema_extra f = json_schema_extra g /\ frozen f = frozen g /\
  validate_default f = validate_default g /\ repr f = repr g /\
  init_var f = init_var g /\ kw_only f = kw_only g.

(** A descriptor holds a default or a factory, never both. *)
Definition exclusive (f : FieldInfo) : Prop :=
  is_Undefined (default f) || is_None (default_factory f) = true.

(** The type an annotation stands for, and the metadata it embeds: the two
    parts of its annotated form, looked for under a [Final[...]] wrapper. *)
Definition annotated_origin (ann : value) : value :=
  match unwrap_final ann with
  | VAnnotated origin _ => origin
  | a => a
  end.

Definition annotated_extras (ann : value) : list value :=
  match unwrap_final ann with
  | VAnnotated _ extras => extras
  | _ => []
  end.

(** [InitVar] or [InitVar[t]]. *)
Definition is_initvar (ann : value) : bool :=
  match ann with VInitVar | VInitVarOf _ => true | _ => false end.

(** The aliases one choice stands for. *)
Definition choice_aliases (c : value) : list value :=
  match c with
  | VAliasPath path => path
  | _ => [c]
  end.

(** ** Computed fields *)

(** The object a decorator is applied to, as far as [computed_field] looks
    at it: its docstring, and the dictionary [get_type_hints] returns for
    the function it wraps. *)
Record PyFunction : Type := mkPyFunction {
  __doc__ : value;
  type_hints : kwargs
}.

(** The fields of [ComputedFieldInfo]. *)
Record ComputedFieldInfo : Type := mkComputedFieldInfo {
  wrapped_property : PyFunction;
  return_type : value;
  cf_alias : value;
  cf_alias_priority : value;
  cf_title : value;
  cf_description : value;
  cf_repr : value
}.

(** [PydanticDescriptorProxy(wrapped, decorator_info)] *)
Record PydanticDescriptorProxy : Type := mkPydanticDescriptorProxy {
  wrapped : PyFunction;
  decorator_info : ComputedFieldInfo
}.

(** The variables of [computed_field] the inner function [dec] closes over.
    The alias, the title and the repr flag are only read; the description,
    the return type and the alias priority are declared nonlocal and
    assigned by [dec].  An unset return type, the [_UNSET] object, is
    [None] here. *)
Record closure : Type := mkClosure {
  cl_alias : value;
  cl_title : value;
  cl_repr : value;
  cl_description : value;
  cl_return_type : option value;
  cl_alias_priority : value
}.

Definition set_cl_description (c : closure) (v : value) : closure :=
  {| cl_alias := cl_alias c; cl_title := cl_title c; cl_repr := cl_repr c;
     cl_description := v; cl_return_type := cl_return_type c;
     cl_alias_priority := cl_alias_priority c |}.

Definition set_cl_return_type (c : closure) (v : option value) : closure :=
  {| cl_alias := cl_alias c; cl_title := cl_title c; cl_repr := cl_repr c;
     cl_description := cl_description c; cl_return_type := v;
     cl_alias_priority := cl_alias_priority c |}.

Definition set_cl_alias_priority (c : closure) (v : value) : closure :=
  {| cl_alias := cl_alias c; cl_title := cl_title c; cl_repr := cl_repr c;
     cl_description := cl_description c; cl_return_type := cl_return_type c;
     cl_alias_priority := v |}.

Definition missing_return_type_msg : string :=
  "Computed field is missing return type annotation or specifying `return_type`"
  ++ " to the `@computed_field` decorator (e.g. `@computed_field(return_type=int|str)`)".

(** The last three statements of [dec], once the return type is known. *)
Definition dec_finish (ensure_property : PyFunction -> PyFunction)
    (c : closure) (rt : value) (f : PyFunction)
  : result PydanticDescriptorProxy * closure :=
  let f := ensure_property f in
  let c :=
    set_cl_alias_priority c
      (if negb (is_None (cl_alias c))
       then py_or (cl_alias_priority c) (VInt 2) else VNone) in
  let dec_info :=
    {| wrapped_property := f; return_type := rt; cf_alias := cl_alias c;
       cf_alias_priority := cl_alias_priority c; cf_title := cl_title c;
       cf_description := cl_description c; cf_repr := cl_repr c |} in
  (Ok {| wrapped := f; decorator_info := dec_info |}, c).

(** The inner function [dec] of [computed_field]: what it returns or
    raises, and the closure variables as it leaves them.  The helpers
    [inspect.cleandoc] and [_decorators.ensure_property] are parameters. *)
Definition dec (cleandoc : value -> value)
    (ensure_property : PyFunction -> PyFunction)
    (c : closure) (f : PyFunction)
  : result PydanticDescriptorProxy * closure :=
  let c :=
    if is_None (cl_description c) && truthy (__doc__ f)
    then set_cl_description c (cleandoc (__doc__ f)) else c in
  match cl_return_type c with
  | None =>
      match kw_find "return" (type_hints f) with
      | None =>
          (Raise (PydanticUserError missing_return_type_msg
                    "model-field-missing-annotation"), c)
      | Some rt => dec_finish ensure_property (set_cl_return_type c (Some rt)) rt f
      end
  | Some rt => dec_finish ensure_property c rt f
  end.

(** [computed_field(__f, alias=..., ...)]: the decorator when no function is
    given, the result of applying it otherwise. *)
Definition computed_field (cleandoc : value -> value)
    (ensure_property : PyFunction -> PyFunction)
    (__f : option PyFunction)
    (alias alias_priority title description repr : value)
    (return_type : option value)
  : closure + (result PydanticDescriptorProxy * closure) :=
  let c := {| cl_alias := alias; cl_title := title; cl_repr := repr;
              cl_description := description; cl_return_type := return_type;
              cl_alias_priority := alias_priority |} in
  match __f with
  | None => inl c
  | Some f => inr (dec cleandoc ensure_property c f)
  end.

(** * Properties *)

(** ** Dictionaries *)

Lemma kw_find_del_other (k k' : string) (kw : kwargs) :
  k <> k' -> kw_find k (kw_del k' kw) = kw_find k kw.
Proof.
  intros Hne. induction kw as [|[key v] rest IH]; simpl; [reflexivity|].
  destruct (String.eqb key k') eqn:Hk'.
  - apply String.eqb_eq in Hk'. subst key.
    destruct (String.eqb k' k) eqn:Hk; [|reflexivity].
    apply String.eqb_eq in Hk. congruence.
  - simpl. destruct (String.eqb key k); [reflexivity|exact IH].
Qed.

Lemma kw_get_del_other (k k' : string) (d : value) (kw : kwargs) :
  k <> k' -> kw_get k d (kw_del k' kw) = kw_get k d kw.
Proof.
  intros Hne. unfold kw_get. now rewrite kw_find_del_other.
Qed.

Lemma kw_del_absent (k : string) (kw : kwargs) :
  kw_mem k kw = false -> kw_del k kw = kw.
Proof.
  unfold kw_mem. induction kw as [|[key v] rest IH]; simpl; [reflexivity|].
  destruct (String.eqb key k); [discriminate|].
  intros H. now rewrite IH.
Qed.

(** Rewriting a lookup through the deletions that precede it; the side
    conditions compare two literal keys. *)
Ltac kw_simpl :=
  repeat (rewrite kw_get_del_other by discriminate).

(** ** The constructor *)

(** The tokens of [_collect_metadata] are built by the table's constructors
    or are the general-metadata token: none is a descriptor. *)
Lemma marker_not_field_info (key : string) (mk : value -> value) (v : value) :
  metadata_lookup key = Some (Some mk) -> isinstance_FieldInfo (mk v) = false.
Proof.
  unfold metadata_lookup.
  repeat match goal with
         | |- context [String.eqb key ?s] => destruct (String.eqb key s)
         end;
    intros H; inversion H; reflexivity.
Qed.

Lemma find_field_info_none_iff (l : list value) :
  _find_field_info_arg l = None <-> forallb (fun a => negb (isinstance_FieldInfo a)) l = true.
Proof.
  induction l as [|a l IH]; simpl; [tauto|].
  destruct a; simpl; try exact IH.
  split; discriminate.
Qed.

Lemma find_field_info_app (l1 l2 : list value) :
  _find_field_info_arg l1 = None ->
  _find_field_info_arg (l1 ++ l2) = _find_field_info_arg l2.
Proof.
  induction l1 as [|a l1 IH]; simpl; [reflexivity|].
  destruct a; auto; discriminate.
Qed.

Lemma collect_loop_no_field_info (items kw : kwargs) (md : list value) (general : kwargs) :
  _find_field_info_arg md = None ->
  _find_field_info_arg (snd (fst (collect_loop items kw md general))) = None.
Proof.
  revert kw md general.
  induction items as [|[key v] rest IH]; intros kw md general Hmd; simpl;
    [exact Hmd|].
  destruct (metadata_lookup key) as [marker|] eqn:Hlook; [|now apply IH].
  destruct (negb (is_None v)); [|now apply IH].
  destruct marker as [mk|]; [|now apply IH].
  apply IH. rewrite find_field_info_app by exact Hmd.
  simpl. pose proof (@marker_not_field_info key mk v Hlook) as Hmk.
  destruct (mk v); try reflexivity. discriminate Hmk.
Qed.

Lemma _collect_metadata_no_field_info (kw : kwargs) :
  _find_field_info_arg (fst (_collect_metadata kw)) = None.
Proof.
  unfold _collect_metadata.
  pose proof (@collect_loop_no_field_info kw kw [] [] eq_refl) as H.
  destruct (collect_loop kw kw [] []) as [[kw' md] general]. simpl in *.
  destruct general; simpl; [exact H|].
  now rewrite find_field_info_app by exact H.
Qed.

Lemma _extract_metadata_no_field_info (ann first : value) (md : list value) :
  _extract_metadata ann = Ok (first, md) -> _find_field_info_arg md = None.
Proof.
  unfold _extract_metadata.
  destruct (negb (is_None ann) && is_annotated ann).
  - destruct (get_args ann) as [|a extra]; [intros H; now inversion H|].
    destruct (_find_field_info_arg extra) eqn:Hf; intros H; inversion H.
    now subst.
  - intros H; now inversion H.
Qed.

(** [__init__] in one case analysis: the annotation is split first, the
    mutual-exclusion check comes second, and nothing fails after it. *)
Lemma __init___unfold (kw : kwargs) :
  __init__ kw =
  match _extract_metadata (kw_get "annotation" VNone kw) with
  | Raise e => Raise e
  | Ok (ann, annotation_metadata) =>
      if negb (is_Undefined (stored_default kw))
         && negb (is_None (kw_get "default_factory" VNone kw))
      then Raise (TypeError both_msg)
      else Ok (built kw ann annotation_metadata)
  end.
Proof.
  unfold __init__, rbind, built, stored_default, after_pops, kw_pop.
  destruct (_extract_metadata (kw_get "annotation" VNone kw)) as [[ann md]|e];
    [|reflexivity].
  kw_simpl.
  destruct (is_None (kw_get "alias" VNone kw));
    cbn [negb fold_left popped_keys app]; kw_simpl; reflexivity.
Qed.

(** A descriptor the constructor returns is [built] from its arguments. *)
Lemma __init___built (kw : kwargs) (f : FieldInfo) :
  __init__ kw = Ok f ->
  exists ann md,
    _extract_metadata (kw_get "annotation" VNone kw) = Ok (ann, md) /\
    f = built kw ann md.
Proof.
  rewrite __init___unfold.
  destruct (_extract_metadata (kw_get "annotation" VNone kw)) as [[ann md]|e];
    [|discriminate].
  destruct (negb _ && negb _); [discriminate|].
  intros H. inversion H. now exists ann, md.
Qed.

(** ** The Field function in normal form *)

Lemma kw_find_filter (f : string -> bool) (key : string) (kw : kwargs) :
  f key = true ->
  kw_find key (filter (fun kv => f (fst kv)) kw) = kw_find key kw.
Proof.
  intros Hkey. induction kw as [|[k v] rest IH]; simpl; [reflexivity|].
  destruct (f k) eqn:Hk; simpl.
  - now rewrite IH.
  - destruct (String.eqb k key) eqn:Heq; [|exact IH].
    apply String.eqb_eq in Heq. congruence.
Qed.

Lemma kw_get_extra_of (key : string) (d : value) (args : kwargs) :
  is_Field_parameter key = false ->
  kw_get key d (extra_of args) = kw_get key d args.
Proof.
  intros H. unfold kw_get, extra_of.
  rewrite (kw_find_filter (fun k => negb (is_Field_parameter k))); [reflexivity|].
  now rewrite H.
Qed.

(** What [Field] returns or raises, warnings apart. *)
Lemma Field_fst (args : kwargs) :
  fst (Field args) =
  match Field_error args with
  | Some e => Raise e
  | None => from_field (kw_get "default" Undefined args) (Field_kwargs args)
  end.
Proof.
  unfold Field, Field_error, Field_kwargs, translated, extra_left, kw_pop.
  fold (extra_of args). cbn [fold_left].
  kw_simpl. rewrite !kw_get_extra_of by reflexivity.
  set (call := from_field _).
  destruct (is_None (kw_get "const" VNone args)); [|reflexivity].
  cbn [negb].
  assert (Ham : is_None (kw_get "allow_mutation" VNone args) = true ->
                is_False (kw_get "allow_mutation" VNone args) = false)
    by (destruct (kw_get "allow_mutation" VNone args); simpl; congruence).
  destruct (is_None (kw_get "min_items" VNone args));
  destruct (is_None (kw_get "max_items" VNone args));
  (destruct (is_None (kw_get "unique_items" VNone args)); [|reflexivity]);
  (destruct (is_None (kw_get "allow_mutation" VNone args));
   destruct (is_False (kw_get "allow_mutation" VNone args));
   try (specialize (Ham eq_refl); discriminate Ham));
  (destruct (is_None (kw_get "regex" VNone args)); [|reflexivity]);
  cbn [negb andb bind warn ret raise lift fst snd app];
  match goal with
  | |- context [truthy (VDict ?d)] => destruct (truthy (VDict d))
  end;
  cbn [negb andb bind warn ret raise lift fst snd app];
  match goal with
  | |- context [truthy ?v && negb ?w] => destruct (truthy v && negb w)
  end;
  reflexivity.
Qed.

(** [_from_dataclass_field], warnings apart. *)
Lemma _from_dataclass_field_fst (dc : DataclassField) :
  fst (_from_dataclass_field dc) =
  if repeats_keyword dc then Raise (TypeError multiple_values_msg)
  else
    match fst (Field (dataclass_args dc)) with
    | Raise e => Raise e
    | Ok field =>
        match _extract_metadata (dc_type dc) with
        | Raise e => Raise e
        | Ok (ann, annotation_metadata) =>
            Ok (set_metadata (set_annotation field ann)
                  (metadata (set_annotation field ann) ++ annotation_metadata))
        end
    end.
Proof.
  unfold _from_dataclass_field. fold (repeats_keyword dc). fold (dataclass_args dc).
  destruct (repeats_keyword dc); [reflexivity|].
  destruct (Field (dataclass_args dc)) as [[field|e] w]; [|reflexivity].
  cbn [bind lift fst].
  destruct (_extract_metadata (dc_type dc)) as [[ann md]|e]; reflexivity.
Qed.

(** ** The bare-annotation path in normal form *)

Lemma from_annotation_plain (ann : value) :
  is_annotated (unwrap_final ann) = false ->
  from_annotation ann =
  __init__ [("annotation", unwrap_final ann); ("final", VBool (is_finalvar ann))].
Proof.
  intros H. destruct ann; simpl in H; try discriminate H; try reflexivity.
  unfold from_annotation. simpl. now rewrite H.
Qed.

Lemma from_annotation_annotated (origin : value) (extras : list value) :
  from_annotation (VAnnotated origin extras) =
  match _find_field_info_arg extras with
  | Some field_info =>
      Ok (set_metadata
            (set_final (set_annotation field_info origin)
                       (VBool (is_finalvar origin)))
            (metadata field_info ++ not_field_infos extras))
  | None =>
      __init__ [("annotation", VAnnotated origin extras);
                ("final", VBool (is_finalvar origin))]
  end.
Proof.
  unfold from_annotation. simpl.
  destruct (_find_field_info_arg extras); destruct (is_finalvar origin);
    reflexivity.
Qed.

(** The constructor called with an annotation and a final flag only. *)
Lemma __init___annotation_final (ann first : value) (md : list value) (fin : bool) :
  _extract_metadata ann = Ok (first, md) ->
  __init__ [("annotation", ann); ("final", VBool fin)] =
  Ok (built [("annotation", ann); ("final", VBool fin)] first md).
Proof.
  intros H. rewrite __init___unfold.
  change (kw_get "annotation" VNone [("annotation", ann); ("final", VBool fin)])
    with ann.
  rewrite H. reflexivity.
Qed.

Lemma _extract_metadata_plain (ann : value) :
  is_annotated ann = false -> _extract_metadata ann = Ok (ann, []).
Proof.
  intros H. unfold _extract_metadata. rewrite H.
  now rewrite andb_false_r.
Qed.

Lemma _extract_metadata_annotated (origin : value) (extras : list value) :
  _extract_metadata (VAnnotated origin extras) =
  match _find_field_info_arg extras with
  | Some _ => Raise (TypeError twice_msg)
  | None => Ok (origin, extras)
  end.
Proof. reflexivity. Qed.

(** ** C6: a bare annotation without embedded metadata *)

(** C6, as the claim states it, fails at [Final[int]]: the descriptor built
    from it rebuilds to [int], not to [Final[int]]. *)
Lemma C6_final_annotation_not_returned :
  exists f,
    is_annotated (VFinalOf (VClass "int")) = false /\
    from_annotation (VFinalOf (VClass "int")) = Ok f /\
    rebuild_annotation f = Ok (Annotation (VClass "int")) /\
    rebuild_annotation f <> Ok (Annotation (VFinalOf (VClass "int"))).
Proof.
  eexists. split; [reflexivity|]. split; [reflexivity|].
  split; [reflexivity|discriminate].
Qed.

(** C6 (amended): for every annotation A without embedded metadata, the
    descriptor built from the bare annotation is required, has no
    constraint metadata, records in [final] whether A is a final marker, and
    rebuilds to A with a [Final[...]] wrapper taken off; so it rebuilds to A
    itself whenever A is not of the form [Final[T]]. *)
Theorem C6_bare_annotation (A : value) :
  is_annotated (unwrap_final A) = false ->
  exists f,
    from_annotation A = Ok f /\
    is_required f = true /\
    metadata f = [] /\
    final f = VBool (is_finalvar A) /\
    rebuild_annotation f = Ok (Annotation (unwrap_final A)) /\
    ((forall T, A <> VFinalOf T) -> rebuild_annotation f = Ok (Annotation A)).
Proof.
  intros H. rewrite (@from_annotation_plain A H).
  rewrite (@__init___annotation_final _ _ _ _ (@_extract_metadata_plain _ H)).
  eexists. split; [reflexivity|].
  repeat split.
  intros HA. cbn. destruct A; try reflexivity. now elim (HA A).
Qed.

Lemma C6_bare_annotation_witness :
  exists f,
    from_annotation (VClass "int") = Ok f /\
    is_required f = true /\
    metadata f = [] /\
    final f = VBool false /\
    rebuild_annotation f = Ok (Annotation (VClass "int")) /\
    ((forall T, VClass "int" <> VFinalOf T) ->
     rebuild_annotation f = Ok (Annotation (VClass "int"))).
Proof. exact (C6_bare_annotation (VClass "int") eq_refl). Defined.

(** ** C5: rebuilding the annotation and reading it back *)

Lemma __init___tokens_only (kw : kwargs) (f : FieldInfo) :
  __init__ kw = Ok f -> tokens_only f.
Proof.
  rewrite __init___unfold.
  destruct (_extract_metadata (kw_get "annotation" VNone kw))
    as [[ann md]|e] eqn:Hex; [|discriminate].
  destruct (negb _ && negb _); [discriminate|].
  intros H. inversion H. unfold tokens_only, built. cbn [metadata].
  rewrite find_field_info_app by apply _collect_metadata_no_field_info.
  exact (_extract_metadata_no_field_info _ _ _ Hex).
Qed.

Lemma __init___stripped (kw : kwargs) (f : FieldInfo) :
  (forall origin extras,
      kw_get "annotation" VNone kw = VAnnotated origin extras ->
      is_annotated origin = false) ->
  __init__ kw = Ok f -> stripped f.
Proof.
  intros Hflat Hinit.
  apply __init___built in Hinit as (ann & md & Hex & ->).
  unfold stripped. cbn [built annotation].
  destruct (kw_get "annotation" VNone kw) eqn:Hann;
    try (inversion Hex; reflexivity).
  rewrite _extract_metadata_annotated in Hex.
  destruct (_find_field_info_arg extras); [discriminate Hex|].
  inversion Hex. subst. exact (Hflat _ _ eq_refl).
Qed.

(** The annotation written as the subscription [Annotated[...]], the stored
    annotation first and the metadata after it, is read back by the
    bare-annotation path as the same annotation and the same metadata, for a
    descriptor as the data model has it. *)
Lemma annotated_form_roundtrip (f : FieldInfo) :
  tokens_only f ->
  exists g,
    from_annotation (VAnnotated (annotation f) (metadata f)) = Ok g /\
    annotation g = annotation f /\
    metadata g = metadata f.
Proof.
  intros Htok. unfold tokens_only in Htok.
  rewrite from_annotation_annotated. rewrite Htok.
  rewrite (__init___annotation_final _ (annotation f) (metadata f)).
  - eexists. split; [reflexivity|]. split; reflexivity.
  - rewrite _extract_metadata_annotated. now rewrite Htok.
Qed.

(** What [rebuild_annotation] does for a descriptor with metadata. *)
Lemma rebuild_annotation_nonempty (f : FieldInfo) :
  metadata f <> [] ->
  rebuild_annotation f =
  match annotation f with
  | VAnnotated _ _ => Raise (TypeError concatenate_msg)
  | origin =>
      if has_module_attribute origin
      then Ok (ListAlias {| __origin__ := origin; __metadata__ := metadata f |})
      else Raise (AttributeError (no_module_msg origin))
  end.
Proof.
  intros Hne. unfold rebuild_annotation, _AnnotatedAlias, rbind.
  destruct (metadata f) as [|m md]; [now elim Hne|].
  destruct (annotation f); reflexivity.
Qed.

(** C5: the round trip the claim states does not go through.  For every
    field descriptor with a non-empty metadata list, rebuild_annotation()
    followed by the bare-annotation path returns no descriptor: it raises.
    When the stored annotation is a type, rebuild_annotation() returns an
    alias object that holds the metadata list itself, and reading its
    arguments back raises the TypeError of adding a list to a tuple. *)
Theorem C5_rebuild_roundtrip_raises (f : FieldInfo) :
  metadata f <> [] ->
  (forall g, (a <-? rebuild_annotation f ;; from_rebuilt_annotation a) <> Ok g) /\
  (has_module_attribute (annotation f) = true ->
   (a <-? rebuild_annotation f ;; from_rebuilt_annotation a)
   = Raise (TypeError concatenate_msg)) /\
  (stripped f ->
   has_module_attribute (annotation f) = true ->
   rebuild_annotation f
   = Ok (ListAlias {| __origin__ := annotation f; __metadata__ := metadata f |})).
Proof.
  intros Hne. rewrite (rebuild_annotation_nonempty f Hne). unfold stripped.
  destruct (annotation f) eqn:Ha; cbn [has_module_attribute rbind
    from_rebuilt_annotation get_args_of_alias is_annotated];
    (split; [intros g; discriminate|]);
    (split; [intros H; first [reflexivity | discriminate H]|]);
    intros H1 H2; first [reflexivity | discriminate H1 | discriminate H2].
Qed.

Lemma C5_rebuild_roundtrip_raises_witness :
  exists f,
    from_annotation (VAnnotated (VClass "int") [Gt (VInt 5)]) = Ok f /\
    annotation f = VClass "int" /\
    metadata f = [Gt (VInt 5)] /\
    rebuild_annotation f
    = Ok (ListAlias {| __origin__ := VClass "int";
                       __metadata__ := [Gt (VInt 5)] |}) /\
    (a <-? rebuild_annotation f ;; from_rebuilt_annotation a)
    = Raise (TypeError concatenate_msg).
Proof.
  eexists. split; [vm_compute; reflexivity|].
  split; [reflexivity|]. split; [reflexivity|].
  match goal with
  | |- rebuild_annotation ?f = _ /\ _ =>
      assert (Hne : metadata f <> []) by discriminate;
      destruct (C5_rebuild_roundtrip_raises f Hne) as (_ & Hraise & Halias)
  end.
  split; [exact (Halias eq_refl eq_refl)|exact (Hraise eq_refl)].
Defined.

(** ** C7: constraint routing *)

(** The builder called with a greater-than bound and a pattern, whatever
    the two values are: the dedicated token first, the general-metadata token
    last, although [pattern] is handed over before [gt]. *)
Lemma Field_gt_pattern (g p : value) :
  is_None g = false -> is_None p = false ->
  exists f,
    Field [("gt", g); ("pattern", p)] = (Ok f, []) /\
    metadata f = [Gt g; PydanticGeneralMetadata [("pattern", p)]].
Proof.
  intros Hg Hp.
  unfold Field, from_field, lift, kw_pop. cbn -[__init__].
  rewrite __init___unfold. cbn.
  unfold built, _collect_metadata. cbn. rewrite Hg, Hp. cbn.
  eexists. split; reflexivity.
Qed.

(** C7: the builder called with gt=5 and pattern="^a" gives a descriptor
    whose metadata list is exactly two tokens, the dedicated greater-than
    token and then the shared general-metadata token that carries the
    pattern; the order of the two keywords in the call does not matter. *)
Theorem C7_constraint_routing :
  (exists f,
     Field [("gt", VInt 5); ("pattern", VStr "^a")] = (Ok f, []) /\
     metadata f = [Gt (VInt 5); PydanticGeneralMetadata [("pattern", VStr "^a")]]) /\
  (exists f,
     Field [("pattern", VStr "^a"); ("gt", VInt 5)] = (Ok f, []) /\
     metadata f = [Gt (VInt 5); PydanticGeneralMetadata [("pattern", VStr "^a")]]).
Proof.
  split.
  - exact (Field_gt_pattern (VInt 5) (VStr "^a") eq_refl eq_refl).
  - eexists. split; reflexivity.
Qed.

(** ** C8: the deprecated min_items option *)

(** C8: the builder called with min_items=3 and no min_length warns that
    min_items is deprecated and gives the min-length-3 token; called with
    min_items=3 and min_length=5 it warns as well and gives the
    min-length-5 token. *)
Theorem C8_min_items_translation :
  (exists f,
     Field [("min_items", VInt 3)] = (Ok f, [DeprecationWarning min_items_msg]) /\
     metadata f = [MinLen (VInt 3)] /\
     In (MinLen (VInt 3)) (metadata f)) /\
  (exists f,
     Field [("min_items", VInt 3); ("min_length", VInt 5)]
       = (Ok f, [DeprecationWarning min_items_msg]) /\
     metadata f = [MinLen (VInt 5)] /\
     In (MinLen (VInt 5)) (metadata f)).
Proof.
  split; eexists; (split; [reflexivity|]); (split; [reflexivity|now left]).
Qed.

(** ** C9: get_default *)

(** C9: with no factory set, get_default returns the copy of the stored
    default, which is Unset for a required field (the copy helper returns
    Unset for Unset); with a factory set and the caller opting in it calls
    the factory and returns its result; with a factory set and the caller not
    opting in it returns None, whatever the factory would give. *)
Theorem C9_get_default (smart_deepcopy : value -> value) (f : FieldInfo) :
  (default_factory f = VNone ->
     forall b, get_default smart_deepcopy f b = Ok (smart_deepcopy (default f))) /\
  (smart_deepcopy Undefined = Undefined ->
     is_required f = true ->
     forall b, get_default smart_deepcopy f b = Ok Undefined) /\
  (forall factory, default_factory f = VCallable factory ->
     get_default smart_deepcopy f true = Ok (factory tt)) /\
  (is_None (default_factory f) = false ->
     get_default smart_deepcopy f false = Ok VNone).
Proof.
  unfold get_default, is_required. split; [|split; [|split]].
  - intros H b. now rewrite H.
  - intros Hcopy Hreq b. apply andb_true_iff in Hreq as [Hd Hf].
    rewrite Hf. destruct (default f); try discriminate Hd. now rewrite Hcopy.
  - intros factory H. now rewrite H.
  - intros H. now rewrite H.
Qed.

Lemma C9_get_default_witness :
  let f := set_default (built [] (VClass "int") []) (VInt 4) in
  let g := built [("default_factory", VCallable (fun _ => VList []))] (VClass "list") [] in
  (forall b, get_default (fun v => v) f b = Ok (VInt 4)) /\
  (forall b, get_default (fun v => v) (built [] (VClass "int") []) b = Ok Undefined) /\
  get_default (fun v => v) g true = Ok (VList []) /\
  get_default (fun v => v) g false = Ok VNone.
Proof.
  intros f g. split; [|split; [|split]].
  - exact (proj1 (C9_get_default (fun v => v) f) eq_refl).
  - exact (proj1 (proj2 (C9_get_default (fun v => v) (built [] (VClass "int") [])))
             eq_refl eq_refl).
  - exact (proj1 (proj2 (proj2 (C9_get_default (fun v => v) g))) _ eq_refl).
  - exact (proj2 (proj2 (proj2 (C9_get_default (fun v => v) g))) eq_refl).
Defined.

(** ** C4: the alias priority *)

(** The same for the builder: the dictionary is the one [Field] hands over. *)
Lemma Field_built (args : kwargs) (f : FieldInfo) :
  fst (Field args) = Ok f ->
  exists ann md,
    _extract_metadata
      (kw_get "annotation" VNone
         (("default", kw_get "default" Undefined args) :: Field_kwargs args))
    = Ok (ann, md) /\
    f = built (("default", kw_get "default" Undefined args) :: Field_kwargs args)
              ann md.
Proof.
  rewrite Field_fst. destruct (Field_error args); [discriminate|].
  unfold from_field. destruct (kw_mem "annotation" _); [discriminate|].
  intros H. apply __init___built in H as (ann & md & Hex & ->).
  now exists ann, md.
Qed.

(** C4, as the claim states it, fails at alias="x", alias_priority=0: the
    priority stored is 2, not 0. *)
Lemma C4_zero_priority_not_honored :
  exists f,
    Field [("alias", VStr "x"); ("alias_priority", VInt 0)] = (Ok f, []) /\
    alias f = VStr "x" /\
    alias_priority f = VInt 2 /\
    alias_priority f <> VInt 0.
Proof.
  eexists. split; [reflexivity|]. split; [reflexivity|].
  split; [reflexivity|discriminate].
Qed.

(** C4 (amended): for every field-descriptor construction in which an alias
    is given, by the constructor or by the builder: the alias priority is 2
    if the caller supplies none, and also if the caller supplies a false one
    (None, 0, False); a true priority the caller supplies is the one
    stored. *)
Theorem C4_alias_priority :
  (forall kw f,
     __init__ kw = Ok f ->
     is_None (kw_get "alias" VNone kw) = false ->
     let supplied := kw_get "alias_priority" VNone kw in
     (kw_mem "alias_priority" kw = false -> alias_priority f = VInt 2) /\
     (truthy supplied = false -> alias_priority f = VInt 2) /\
     (truthy supplied = true -> alias_priority f = supplied)) /\
  (forall args f,
     fst (Field args) = Ok f ->
     is_None (kw_get "alias" VNone args) = false ->
     let supplied := kw_get "alias_priority" VNone args in
     (kw_mem "alias_priority" args = false -> alias_priority f = VInt 2) /\
     (truthy supplied = false -> alias_priority f = VInt 2) /\
     (truthy supplied = true -> alias_priority f = supplied)).
Proof.
  assert (Hor : forall kw,
             (kw_mem "alias_priority" kw = false ->
              py_or (kw_get "alias_priority" VNone kw) (VInt 2) = VInt 2) /\
             (truthy (kw_get "alias_priority" VNone kw) = false ->
              py_or (kw_get "alias_priority" VNone kw) (VInt 2) = VInt 2) /\
             (truthy (kw_get "alias_priority" VNone kw) = true ->
              py_or (kw_get "alias_priority" VNone kw) (VInt 2) =
              kw_get "alias_priority" VNone kw)).
  { intros kw. unfold py_or, kw_get, kw_mem.
    destruct (kw_find "alias_priority" kw) as [v|]; repeat split; intros H;
      try discriminate H; try reflexivity; now rewrite H. }
  split.
  - intros kw f Hinit Halias supplied.
    apply __init___built in Hinit as (ann & md & _ & ->).
    unfold built, alias_priority. rewrite Halias. exact (Hor kw).
  - intros args f HField Halias supplied.
    apply Field_built in HField as (ann & md & _ & ->).
    unfold built, alias_priority.
    change (kw_get "alias" VNone (_ :: Field_kwargs args))
      with (kw_get "alias" VNone args).
    change (kw_get "alias_priority" VNone (_ :: Field_kwargs args))
      with (kw_get "alias_priority" VNone args).
    rewrite Halias. exact (Hor args).
Qed.

Lemma C4_alias_priority_witness :
  exists f,
    Field [("alias", VStr "x"); ("alias_priority", VInt 1)] = (Ok f, []) /\
    alias_priority f = VInt 1.
Proof.
  eexists. split; [reflexivity|].
  exact (proj2 (proj2 (proj2 C4_alias_priority
           [("alias", VStr "x"); ("alias_priority", VInt 1)] _
           eq_refl eq_refl)) eq_refl).
Defined.

(** ** C10: the Ellipsis literal as default *)

Lemma kw_find_del_same (k : string) (kw : kwargs) :
  NoDup (map fst kw) -> kw_find k (kw_del k kw) = None.
Proof.
  induction kw as [|[key v] rest IH]; simpl; [reflexivity|].
  intros Hnd. inversion Hnd as [|? ? Hnotin Hrest]; subst.
  destruct (String.eqb key k) eqn:Hk.
  - apply String.eqb_eq in Hk. subst key.
    clear IH Hnd Hrest. induction rest as [|[k' v'] rest IH]; [reflexivity|].
    simpl in *. destruct (String.eqb k' k) eqn:Hk'.
    + apply String.eqb_eq in Hk'. tauto.
    + apply IH. tauto.
  - simpl. rewrite Hk. now apply IH.
Qed.

(** C10, as the claim states it, fails when a default_factory comes with
    the Ellipsis default: the default is normalized to Unset, but the
    descriptor is not required. *)
Lemma C10_ellipsis_with_factory_not_required :
  exists f,
    Field [("default", Ellipsis);
           ("default_factory", VCallable (fun _ => VList []))] = (Ok f, []) /\
    default f = Undefined /\
    is_required f = false.
Proof. eexists. split; [reflexivity|]. split; reflexivity. Qed.

(** C10 (amended): for every construction that hands the Ellipsis literal
    as default to the constructor, directly, through from_field or through
    the builder, the stored default is normalized to Unset and the descriptor
    is the one built as if no default had been supplied; it is required if
    and only if no default_factory is supplied. *)
Theorem C10_ellipsis_default :
  (forall kw f,
     kw_get "default" Undefined kw = Ellipsis ->
     __init__ kw = Ok f ->
     default f = Undefined /\
     is_required f = is_None (kw_get "default_factory" VNone kw)) /\
  (forall kw,
     NoDup (map fst kw) ->
     kw_get "default" Undefined kw = Ellipsis ->
     __init__ kw = __init__ (kw_del "default" kw)) /\
  (forall kw, from_field Ellipsis kw = from_field Undefined kw) /\
  (forall args f,
     kw_get "default" Undefined args = Ellipsis ->
     fst (Field args) = Ok f ->
     default f = Undefined /\
     is_required f = is_None (kw_get "default_factory" VNone args)).
Proof.
  split; [|split; [|split]].
  - intros kw f Hd Hinit.
    apply __init___built in Hinit as (ann & md & _ & ->).
    unfold is_required, built, stored_default. cbn [default default_factory].
    rewrite Hd. split; reflexivity.
  - intros kw Hnd Hd. rewrite !__init___unfold.
    assert (Hgone : kw_find "default" (kw_del "default" kw) = None)
      by now apply kw_find_del_same.
    assert (Hsd : stored_default (kw_del "default" kw) = stored_default kw).
    { unfold stored_default, kw_get at 1 2. rewrite Hgone, Hd. reflexivity. }
    assert (Hpops : after_pops (kw_del "default" kw) = after_pops kw).
    { unfold after_pops. kw_simpl.
      destruct (is_None (kw_get "alias" VNone kw));
        cbn [negb fold_left popped_keys app];
        (rewrite (kw_del_absent "default" (kw_del "default" kw));
           [reflexivity|unfold kw_mem; now rewrite Hgone]). }
    unfold built. rewrite Hsd, Hpops. kw_simpl. reflexivity.
  - intros kw. unfold from_field. rewrite !__init___unfold. reflexivity.
  - intros args f Hd HField.
    apply Field_built in HField as (ann & md & _ & ->).
    unfold is_required, built, stored_default. cbn [default default_factory].
    change (kw_get "default" Undefined (_ :: Field_kwargs args)) with
      (kw_get "default" Undefined args).
    rewrite Hd. split; reflexivity.
Qed.

Lemma C10_ellipsis_default_witness :
  exists f,
    Field [("default", Ellipsis); ("gt", VInt 0)] = (Ok f, []) /\
    default f = Undefined /\
    is_required f = true.
Proof.
  eexists. split; [reflexivity|].
  exact (proj2 (proj2 (proj2 C10_ellipsis_default))
           [("default", Ellipsis); ("gt", VInt 0)] _ eq_refl eq_refl).
Defined.

(** The annotation+default path with a descriptor embedded in the
    annotation assigns the default slot without going through the
    constructor: there the Ellipsis literal is stored as it is. *)
Lemma annotated_attribute_keeps_ellipsis :
  exists fi f,
    Field [("gt", VInt 0)] = (Ok fi, []) /\
    from_annotated_attribute (3, 11)%Z
      (VAnnotated (VClass "int") [VFieldInfo fi]) Ellipsis = (Ok f, []) /\
    default f = Ellipsis /\
    is_required f = false.
Proof.
  eexists. eexists. split; [reflexivity|]. split; [reflexivity|].
  split; reflexivity.
Qed.

(** ** C2: a default for an annotation that embeds a descriptor *)

Lemma final_split (ann : value) :
  (if is_finalvar ann
   then (true, match ann with VFinal => ann | _ => hd ann (get_args ann) end)
   else (false, ann))
  = (is_finalvar ann, unwrap_final ann).
Proof. destruct ann; reflexivity. Qed.

(** The third branch of [from_annotated_attribute]. *)
Lemma from_annotated_attribute_plain (version_info : Z * Z) (ann dflt : value) :
  plain_default dflt = true ->
  from_annotated_attribute version_info ann dflt =
  match unwrap_final ann with
  | VAnnotated first_arg extra_args =>
      match _find_field_info_arg extra_args with
      | Some field_info =>
          if negb (is_required field_info) then
            (Raise (TypeError twice_default_msg), [])
          else
            (Ok (set_metadata
                   (set_annotation (set_default field_info dflt) first_arg)
                   (metadata field_info ++ not_field_infos extra_args)), [])
      | None =>
          (__init__ [("annotation", unwrap_final ann); ("default", dflt);
                     ("final", VBool (is_finalvar ann))], [])
      end
  | _ =>
      (__init__ [("annotation", unwrap_final ann); ("default", dflt);
                 ("final", VBool (is_finalvar ann))], [])
  end.
Proof.
  intros Hplain. unfold from_annotated_attribute. rewrite final_split.
  destruct dflt; try discriminate Hplain;
    (destruct (unwrap_final ann); try reflexivity;
     cbn [is_annotated get_args];
     destruct (_find_field_info_arg extras); reflexivity).
Qed.

(** C2: for every annotation that embeds a required descriptor, the
    annotation+default path with a supplied default value succeeds and gives
    a descriptor whose default is that value; for every annotation whose
    embedded descriptor is not required, it raises 'Default may not be
    specified twice on the same field'. *)
Theorem C2_default_for_embedded_descriptor
    (version_info : Z * Z) (ann dflt : value) (fi : FieldInfo) :
  embedded_field_info ann = Some fi ->
  plain_default dflt = true ->
  (is_required fi = true ->
     exists g,
       from_annotated_attribute version_info ann dflt = (Ok g, []) /\
       default g = dflt) /\
  (is_required fi = false ->
     from_annotated_attribute version_info ann dflt
       = (Raise (TypeError twice_default_msg), [])).
Proof.
  intros Hemb Hplain. unfold embedded_field_info in Hemb.
  rewrite (from_annotated_attribute_plain _ _ _ Hplain).
  destruct (unwrap_final ann); try discriminate Hemb.
  rewrite Hemb. split; intros Hreq; rewrite Hreq; cbn [negb].
  - eexists. split; reflexivity.
  - reflexivity.
Qed.

Lemma C2_default_for_embedded_descriptor_witness :
  exists fi,
    Field [("gt", VInt 4)] = (Ok fi, []) /\
    (exists g,
       from_annotated_attribute (3, 11)%Z
         (VAnnotated (VClass "int") [VFieldInfo fi]) (VInt 4) = (Ok g, []) /\
       default g = VInt 4) /\
    from_annotated_attribute (3, 11)%Z
      (VAnnotated (VClass "int") [VFieldInfo (set_default fi (VInt 1))]) (VInt 4)
      = (Raise (TypeError twice_default_msg), []).
Proof.
  eexists. split; [reflexivity|]. split.
  - match goal with
    | |- exists g, from_annotated_attribute ?v ?a ?d = _ /\ _ =>
        exact (proj1 (C2_default_for_embedded_descriptor v a d _
                        eq_refl eq_refl) eq_refl)
    end.
  - match goal with
    | |- from_annotated_attribute ?v ?a ?d = _ =>
        exact (proj2 (C2_default_for_embedded_descriptor v a d _
                        eq_refl eq_refl) eq_refl)
    end.
Defined.

(** ** The metadata invariant along the other paths *)

(** The invariant [tokens_only] along the other paths: the descriptor of
    the bare-annotation path and of the builder holds tokens only, provided
    the descriptor the annotation embeds does. *)
Lemma not_field_infos_tokens (extras : list value) :
  _find_field_info_arg (not_field_infos extras) = None.
Proof.
  unfold not_field_infos.
  induction extras as [|a l IH]; simpl; [reflexivity|].
  destruct a; simpl; exact IH.
Qed.

Lemma from_annotation_unfold (ann : value) :
  from_annotation ann =
  match unwrap_final ann with
  | VAnnotated first_arg extra_args =>
      let fin := is_finalvar first_arg || is_finalvar ann in
      match _find_field_info_arg extra_args with
      | Some field_info =>
          Ok (set_metadata
                (set_final (set_annotation field_info first_arg) (VBool fin))
                (metadata field_info ++ not_field_infos extra_args))
      | None =>
          __init__ [("annotation", unwrap_final ann); ("final", VBool fin)]
      end
  | _ =>
      __init__ [("annotation", unwrap_final ann);
                ("final", VBool (is_finalvar ann))]
  end.
Proof.
  unfold from_annotation. rewrite final_split.
  destruct (unwrap_final ann); reflexivity.
Qed.

Lemma from_annotation_tokens_only (ann : value) (f : FieldInfo) :
  (forall fi, embedded_field_info ann = Some fi -> tokens_only fi) ->
  from_annotation ann = Ok f -> tokens_only f.
Proof.
  intros Hemb. rewrite from_annotation_unfold. unfold embedded_field_info in Hemb.
  destruct (unwrap_final ann); try apply __init___tokens_only.
  cbn zeta. destruct (_find_field_info_arg extras) as [fi|];
    [|apply __init___tokens_only].
  intros H. inversion H. unfold tokens_only. cbn [set_metadata metadata].
  rewrite find_field_info_app by exact (Hemb fi eq_refl).
  apply not_field_infos_tokens.
Qed.

Lemma Field_tokens_only (args : kwargs) (f : FieldInfo) :
  fst (Field args) = Ok f -> tokens_only f.
Proof.
  rewrite Field_fst. destruct (Field_error args); [discriminate|].
  unfold from_field. destruct (kw_mem "annotation" _); [discriminate|].
  apply __init___tokens_only.
Qed.

Lemma _from_dataclass_field_tokens_only (dc : DataclassField) (f : FieldInfo) :
  fst (_from_dataclass_field dc) = Ok f -> tokens_only f.
Proof.
  rewrite _from_dataclass_field_fst.
  destruct (repeats_keyword dc); [discriminate|].
  destruct (fst (Field (dataclass_args dc))) as [field|e] eqn:HField;
    [|discriminate].
  apply Field_tokens_only in HField.
  destruct (_extract_metadata (dc_type dc)) as [[ann md]|e] eqn:Hex;
    [|discriminate].
  intros H. inversion H. unfold tokens_only. cbn [set_metadata metadata].
  rewrite find_field_info_app by exact HField.
  exact (_extract_metadata_no_field_info _ _ _ Hex).
Qed.

Lemma from_annotated_attribute_tokens_only
    (version_info : Z * Z) (ann dflt : value) (f : FieldInfo) :
  (forall d, dflt = VFieldInfo d -> tokens_only d) ->
  (forall fi, embedded_field_info ann = Some fi -> tokens_only fi) ->
  fst (from_annotated_attribute version_info ann dflt) = Ok f ->
  tokens_only f.
Proof.
  intros Hdflt Hemb.
  destruct (plain_default dflt) eqn:Hplain.
  - rewrite (from_annotated_attribute_plain _ _ _ Hplain).
    unfold embedded_field_info in Hemb.
    destruct (unwrap_final ann); try apply __init___tokens_only.
    destruct (_find_field_info_arg extras) as [fi|];
      [|apply __init___tokens_only].
    destruct (negb (is_required fi)); [discriminate|].
    intros H. inversion H. unfold tokens_only. cbn [set_metadata metadata].
    rewrite find_field_info_app by exact (Hemb fi eq_refl).
    apply not_field_infos_tokens.
  - unfold from_annotated_attribute. rewrite final_split.
    destruct dflt as [| | | | | | | | | | | | | | | | | | | | | | | | | | | |d|dc|];
      try discriminate Hplain.
    + destruct (_extract_metadata (unwrap_final ann)) as [[a md]|e] eqn:Hex;
        [|discriminate].
      cbn [bind lift ret fst]. intros H. inversion H.
      unfold tokens_only. cbn [set_final set_metadata metadata].
      rewrite find_field_info_app by exact (Hdflt d eq_refl).
      exact (_extract_metadata_no_field_info _ _ _ Hex).
    + set (init := match unwrap_final ann with
                   | VInitVar => _ | VInitVarOf t => _ | _ => _ end).
      destruct init as [[[init_var ann']|e] w0]; [|discriminate].
      cbn [bind].
      destruct (_from_dataclass_field dc) as [[field|e] w1] eqn:Hdc;
        [|discriminate].
      assert (Hfield : tokens_only field)
        by (apply (_from_dataclass_field_tokens_only dc); now rewrite Hdc).
      cbn [bind lift].
      destruct (_extract_metadata ann') as [[a md]|e] eqn:Hex; [|discriminate].
      cbn [bind ret fst]. intros H. inversion H.
      unfold tokens_only.
      cbn [set_kw_only set_init_var set_final set_metadata set_annotation metadata].
      rewrite find_field_info_app by exact Hfield.
      exact (_extract_metadata_no_field_info _ _ _ Hex).
Qed.

(** The invariant [stripped] along the paths, for flat annotations. *)
Lemma _extract_metadata_stripped (ann first : value) (md : list value) :
  flat ann -> _extract_metadata ann = Ok (first, md) -> is_annotated first = false.
Proof.
  intros Hflat. destruct ann; try (intros H; inversion H; reflexivity).
  rewrite _extract_metadata_annotated.
  destruct (_find_field_info_arg extras); [discriminate|].
  intros H. inversion H. subst. exact (Hflat _ _ eq_refl).
Qed.

Lemma Field_stripped (args : kwargs) (f : FieldInfo) :
  fst (Field args) = Ok f -> stripped f.
Proof.
  intros H. apply Field_built in H as (ann & md & Hex & ->).
  unfold stripped. cbn [built annotation].
  change (kw_get "annotation" VNone (_ :: Field_kwargs args)) with VNone in Hex.
  now inversion Hex.
Qed.

Lemma from_annotation_stripped (ann : value) (f : FieldInfo) :
  flat (unwrap_final ann) -> from_annotation ann = Ok f -> stripped f.
Proof.
  intros Hflat. rewrite from_annotation_unfold.
  assert (Hinit : forall fin g,
             __init__ [("annotation", unwrap_final ann); ("final", VBool fin)]
               = Ok g -> stripped g).
  { intros fin g. apply __init___stripped. exact Hflat. }
  destruct (unwrap_final ann) eqn:Hu; try apply Hinit.
  cbn zeta. destruct (_find_field_info_arg extras); [|apply Hinit].
  intros H. inversion H. unfold stripped.
  cbn [set_metadata set_final set_annotation annotation].
  exact (Hflat _ _ eq_refl).
Qed.

Lemma from_annotated_attribute_stripped
    (version_info : Z * Z) (ann dflt : value) (f : FieldInfo) :
  flat (unwrap_final ann) ->
  (forall t, unwrap_final ann = VInitVarOf t -> flat t) ->
  fst (from_annotated_attribute version_info ann dflt) = Ok f ->
  stripped f.
Proof.
  intros Hflat Hinitvar.
  destruct (plain_default dflt) eqn:Hplain.
  - rewrite (from_annotated_attribute_plain _ _ _ Hplain).
    assert (Hinit : forall g,
               __init__ [("annotation", unwrap_final ann); ("default", dflt);
                         ("final", VBool (is_finalvar ann))] = Ok g ->
               stripped g).
    { intros g. apply __init___stripped. exact Hflat. }
    destruct (unwrap_final ann) eqn:Hu; try apply Hinit.
    destruct (_find_field_info_arg extras) as [fi|]; [|apply Hinit].
    destruct (negb (is_required fi)); [discriminate|].
    intros H. inversion H. unfold stripped.
    cbn [set_metadata set_annotation annotation].
    exact (Hflat _ _ eq_refl).
  - unfold from_annotated_attribute. rewrite final_split.
    destruct dflt as [| | | | | | | | | | | | | | | | | | | | | | | | | | | |d|dc|];
      try discriminate Hplain.
    + destruct (_extract_metadata (unwrap_final ann)) as [[a md]|e] eqn:Hex;
        [|discriminate].
      cbn [bind lift ret fst]. intros H. inversion H.
      unfold stripped. cbn [set_final set_metadata set_annotation annotation].
      exact (_extract_metadata_stripped _ _ _ Hflat Hex).
    + assert (Hann' : forall r w,
                 match unwrap_final ann with
                 | VInitVar =>
                     if version_lt_3_8 version_info
                     then raise (RuntimeError initvar_msg)
                     else ret (true, VAny)
                 | VInitVarOf t => ret (true, t)
                 | _ => ret (false, unwrap_final ann)
                 end = (Ok r, w) -> flat (snd r)).
      { intros r w. destruct (unwrap_final ann) eqn:Hu;
          try (intros H; inversion H; exact Hflat).
        - destruct (version_lt_3_8 version_info); intros H; inversion H.
          intros o e Heq. discriminate Heq.
        - intros H. inversion H. exact (Hinitvar _ eq_refl). }
      destruct (match unwrap_final ann with
                | VInitVar => _ | VInitVarOf t => _ | _ => _ end)
        as [[[init_var ann']|e] w0]; [|discriminate].
      specialize (Hann' _ _ eq_refl). cbn [snd] in Hann'.
      cbn [bind].
      destruct (_from_dataclass_field dc) as [[field|e] w1]; [|discriminate].
      cbn [bind lift].
      destruct (_extract_metadata ann') as [[a md]|e] eqn:Hex; [|discriminate].
      cbn [bind ret fst]. intros H. inversion H.
      unfold stripped.
      cbn [set_kw_only set_init_var set_final set_metadata set_annotation
           annotation].
      exact (_extract_metadata_stripped _ _ _ Hann' Hex).
Qed.

(** ** C3: descriptors embedded in an annotation *)

Lemma count_zero_find_none (extras : list value) :
  count_field_infos extras = 0 <-> _find_field_info_arg extras = None.
Proof.
  unfold count_field_infos.
  induction extras as [|a l IH]; simpl; [tauto|].
  destruct a; simpl; try exact IH.
  split; discriminate.
Qed.

Lemma count_pos_find_some (extras : list value) :
  1 <= count_field_infos extras -> exists fi, _find_field_info_arg extras = Some fi.
Proof.
  intros H. destruct (_find_field_info_arg extras) as [fi|] eqn:Hf;
    [now exists fi|].
  apply count_zero_find_none in Hf. lia.
Qed.

(** The bare-annotation path raises nothing on an annotated form. *)
Lemma from_annotation_annotated_ok (origin : value) (extras : list value) :
  exists g, from_annotation (VAnnotated origin extras) = Ok g.
Proof.
  rewrite from_annotation_annotated.
  destruct (_find_field_info_arg extras) eqn:Hf; [eexists; reflexivity|].
  rewrite (__init___annotation_final _ origin extras).
  - eexists; reflexivity.
  - rewrite _extract_metadata_annotated. now rewrite Hf.
Qed.

(** With two descriptors embedded, the bare-annotation path returns the
    first one and leaves the second out. *)
Lemma from_annotation_two_descriptors :
  exists f1 f2 g,
    Field [("gt", VInt 1)] = (Ok f1, []) /\
    Field [("lt", VInt 5)] = (Ok f2, []) /\
    from_annotation (VAnnotated (VClass "int") [VFieldInfo f1; VFieldInfo f2])
      = Ok g /\
    metadata g = [Gt (VInt 1)].
Proof.
  do 3 eexists. split; [reflexivity|]. split; [reflexivity|].
  split; reflexivity.
Qed.

(** C3, as the claim states it, fails for direct construction: an
    annotation that embeds exactly one descriptor is rejected there. *)
Lemma C3_single_descriptor_rejected :
  exists fi,
    Field [("gt", VInt 1)] = (Ok fi, []) /\
    count_field_infos [VFieldInfo fi] = 1 /\
    __init__ [("annotation", VAnnotated (VClass "int") [VFieldInfo fi])]
      = Raise (TypeError twice_msg).
Proof.
  eexists. split; [reflexivity|]. split; reflexivity.
Qed.

(** C3 (amended): where a descriptor is already at hand (direct
    construction with an annotation, or a descriptor or a dataclass field
    given as the default of an annotated attribute), an annotation that
    embeds at least one descriptor raises 'Field may not be used twice on the
    same field', and an annotation that embeds none does not; the
    bare-annotation path accepts an annotation that embeds at most one
    descriptor. *)
Theorem C3_field_used_twice (origin : value) (extras : list value) :
  let ann := VAnnotated origin extras in
  (1 <= count_field_infos extras ->
     _extract_metadata ann = Raise (TypeError twice_msg) /\
     (forall kw, kw_get "annotation" VNone kw = ann ->
        __init__ kw = Raise (TypeError twice_msg)) /\
     (forall version_info d,
        from_annotated_attribute version_info ann (VFieldInfo d)
          = (Raise (TypeError twice_msg), [])) /\
     (forall version_info dc field w,
        _from_dataclass_field dc = (Ok field, w) ->
        from_annotated_attribute version_info ann (VDataclassField dc)
          = (Raise (TypeError twice_msg), w))) /\
  (count_field_infos extras = 0 ->
     _extract_metadata ann = Ok (origin, extras) /\
     (forall kw, kw_get "annotation" VNone kw = ann ->
        __init__ kw <> Raise (TypeError twice_msg)) /\
     (forall version_info d,
        exists g,
          from_annotated_attribute version_info ann (VFieldInfo d) = (Ok g, [])) /\
     (forall version_info dc field w,
        _from_dataclass_field dc = (Ok field, w) ->
        exists g,
          from_annotated_attribute version_info ann (VDataclassField dc)
            = (Ok g, w))) /\
  (count_field_infos extras <= 1 -> exists g, from_annotation ann = Ok g).
Proof.
  intros ann. split; [|split].
  - intros Hpos. apply count_pos_find_some in Hpos as [fi Hfi].
    assert (Hex : _extract_metadata ann = Raise (TypeError twice_msg))
      by (unfold ann; rewrite _extract_metadata_annotated; now rewrite Hfi).
    split; [exact Hex|]. split; [|split].
    + intros kw Hkw. rewrite __init___unfold, Hkw, Hex. reflexivity.
    + intros version_info d. unfold from_annotated_attribute.
      rewrite final_split. cbn [is_finalvar unwrap_final ann].
      fold ann. rewrite Hex. reflexivity.
    + intros version_info dc field w Hdc. unfold from_annotated_attribute.
      rewrite final_split. cbn [is_finalvar unwrap_final ann].
      fold ann. rewrite Hdc. cbn [bind ret lift app]. rewrite Hex.
      cbn [bind ret lift app]. now rewrite app_nil_r.
  - intros Hzero. apply count_zero_find_none in Hzero.
    assert (Hex : _extract_metadata ann = Ok (origin, extras))
      by (unfold ann; rewrite _extract_metadata_annotated; now rewrite Hzero).
    split; [exact Hex|]. split; [|split].
    + intros kw Hkw. rewrite __init___unfold, Hkw, Hex.
      destruct (negb _ && negb _); discriminate.
    + intros version_info d. unfold from_annotated_attribute.
      rewrite final_split. cbn [is_finalvar unwrap_final ann].
      fold ann. rewrite Hex. eexists. reflexivity.
    + intros version_info dc field w Hdc. unfold from_annotated_attribute.
      rewrite final_split. cbn [is_finalvar unwrap_final ann].
      fold ann. rewrite Hdc. cbn [bind ret lift app]. rewrite Hex.
      cbn [bind ret lift app]. rewrite app_nil_r. eexists. reflexivity.
  - intros _. apply from_annotation_annotated_ok.
Qed.

Lemma C3_field_used_twice_witness :
  exists fi,
    Field [("gt", VInt 1)] = (Ok fi, []) /\
    _extract_metadata (VAnnotated (VClass "int") [VFieldInfo fi])
      = Raise (TypeError twice_msg) /\
    _extract_metadata (VAnnotated (VClass "int") [Gt (VInt 1)])
      = Ok (VClass "int", [Gt (VInt 1)]) /\
    exists g, from_annotation (VAnnotated (VClass "int") [VFieldInfo fi]) = Ok g.
Proof.
  eexists. split; [reflexivity|]. split; [|split].
  - match goal with
    | |- _extract_metadata (VAnnotated ?o ?e) = _ =>
        exact (proj1 (proj1 (C3_field_used_twice o e) (le_n 1)))
    end.
  - exact (proj1 (proj1 (proj2 (C3_field_used_twice (VClass "int") [Gt (VInt 1)]))
                    eq_refl)).
  - match goal with
    | |- exists g, from_annotation (VAnnotated ?o ?e) = _ =>
        exact (proj2 (proj2 (C3_field_used_twice o e)) (le_n 1))
    end.
Defined.

(** ** C1: default and default_factory together *)

Lemma _extract_metadata_raises (ann : value) (e : exn) :
  _extract_metadata ann = Raise e -> e = TypeError twice_msg.
Proof.
  unfold _extract_metadata.
  destruct (negb (is_None ann) && is_annotated ann); [|discriminate].
  destruct (get_args ann) as [|a extra]; [discriminate|].
  destruct (_find_field_info_arg extra); [|discriminate].
  intros H. now inversion H.
Qed.

Lemma stored_default_concrete (kw : kwargs) :
  negb (is_Undefined (stored_default kw))
  = negb (is_Undefined (kw_get "default" Undefined kw))
    && negb (is_Ellipsis (kw_get "default" Undefined kw)).
Proof.
  unfold stored_default. now destruct (kw_get "default" Undefined kw).
Qed.

(** The constructor against the mutual-exclusion check. *)
Lemma __init___both (kw : kwargs) :
  let both :=
    negb (is_Undefined (kw_get "default" Undefined kw))
    && negb (is_Ellipsis (kw_get "default" Undefined kw))
    && negb (is_None (kw_get "default_factory" VNone kw)) in
  (both = true ->
     error_of (__init__ kw) <> None /\
     (is_Ok (_extract_metadata (kw_get "annotation" VNone kw)) = true ->
      error_of (__init__ kw) = Some (TypeError both_msg))) /\
  (both = false -> error_of (__init__ kw) <> Some (TypeError both_msg)).
Proof.
  intros both. unfold both. rewrite __init___unfold, <- stored_default_concrete.
  destruct (_extract_metadata (kw_get "annotation" VNone kw))
    as [[ann md]|e] eqn:Hex.
  - split; intros H; rewrite H; simpl; [|discriminate].
    split; [discriminate|reflexivity].
  - apply _extract_metadata_raises in Hex. subst e.
    split; intros _; simpl; [split|]; discriminate.
Qed.

Lemma from_field_both (dflt : value) (kw : kwargs) :
  let both :=
    negb (is_Undefined dflt) && negb (is_Ellipsis dflt)
    && negb (is_None (kw_get "default_factory" VNone kw)) in
  (both = true ->
     error_of (from_field dflt kw) <> None /\
     (kw_mem "annotation" kw = false ->
      error_of (from_field dflt kw) = Some (TypeError both_msg))) /\
  (both = false -> error_of (from_field dflt kw) <> Some (TypeError both_msg)).
Proof.
  intros both. unfold both, from_field.
  pose proof (__init___both (("default", dflt) :: kw)) as Hinit.
  cbn zeta in Hinit.
  change (kw_get "default" Undefined (("default", dflt) :: kw)) with dflt in Hinit.
  change (kw_get "default_factory" VNone (("default", dflt) :: kw))
    with (kw_get "default_factory" VNone kw) in Hinit.
  change (kw_get "annotation" VNone (("default", dflt) :: kw))
    with (kw_get "annotation" VNone kw) in Hinit.
  destruct (kw_mem "annotation" kw) eqn:Hmem.
  - split; intros _; simpl; [split|]; discriminate.
  - destruct Hinit as [Hyes Hno]. split; [|exact Hno].
    intros Hb. destruct (Hyes Hb) as [Hfail Hexact]. split; [exact Hfail|].
    intros _. apply Hexact.
    unfold kw_get, kw_mem in *. destruct (kw_find "annotation" kw);
      [discriminate Hmem|reflexivity].
Qed.

Lemma Field_error_not_both (args : kwargs) (e : exn) :
  Field_error args = Some e -> e <> TypeError both_msg.
Proof.
  unfold Field_error.
  repeat match goal with
         | |- context [if ?c then _ else _] => destruct c
         end;
    intros H; inversion H; discriminate.
Qed.

Lemma Field_both (args : kwargs) :
  let both :=
    negb (is_Undefined (kw_get "default" Undefined args))
    && negb (is_Ellipsis (kw_get "default" Undefined args))
    && negb (is_None (kw_get "default_factory" VNone args)) in
  (both = true ->
     error_of (fst (Field args)) <> None /\
     (Field_error args = None ->
      error_of (fst (Field args)) = Some (TypeError both_msg))) /\
  (both = false -> error_of (fst (Field args)) <> Some (TypeError both_msg)).
Proof.
  intros both. unfold both. rewrite Field_fst.
  destruct (Field_error args) as [e|] eqn:Herr.
  - apply Field_error_not_both in Herr.
    split; intros _; simpl; [split; [discriminate|discriminate]|congruence].
  - destruct (from_field_both (kw_get "default" Undefined args) (Field_kwargs args))
      as [Hyes Hno].
    split; [|exact Hno].
    intros Hb. destruct (Hyes Hb) as [Hfail Hexact]. split; [exact Hfail|].
    intros _. now apply Hexact.
Qed.

Lemma _from_dataclass_field_both (dc : DataclassField) :
  let both := supplies_both (ExternalField dc) in
  (both = true ->
     error_of (fst (_from_dataclass_field dc)) <> None /\
     (earlier_checks_pass (ExternalField dc) = true ->
      error_of (fst (_from_dataclass_field dc)) = Some (TypeError both_msg))) /\
  (both = false ->
     error_of (fst (_from_dataclass_field dc)) <> Some (TypeError both_msg)).
Proof.
  intros both. unfold both, supplies_both, concrete_default, supplied_default,
    supplied_factory, earlier_checks_pass.
  rewrite _from_dataclass_field_fst.
  destruct (Field_both (dataclass_args dc)) as [Hyes Hno]. cbn zeta in Hyes, Hno.
  destruct (repeats_keyword dc).
  - split; intros _; simpl; [split|]; discriminate.
  - split.
    + intros Hb. destruct (Hyes Hb) as [Hfail Hexact].
      destruct (fst (Field (dataclass_args dc))) as [field|e];
        [now elim Hfail|].
      split; [discriminate|].
      cbn [negb andb]. intros Hpass. apply Hexact.
      now destruct (Field_error (dataclass_args dc)).
    + intros Hb. specialize (Hno Hb).
      destruct (fst (Field (dataclass_args dc))) as [field|e]; [|exact Hno].
      destruct (_extract_metadata (dc_type dc)) as [[ann md]|e] eqn:Hex;
        [discriminate|].
      apply _extract_metadata_raises in Hex. subst e. discriminate.
Qed.

(** C1, as the claim states it, fails on the annotation+default path: with
    a default_factory in the descriptor the annotation embeds and a concrete
    default on the attribute, the error is the double-default one, not the
    mutual-exclusion one. *)
Lemma C1_annotated_attribute_other_error :
  exists fi,
    Field [("default_factory", VCallable (fun _ => VList []))] = (Ok fi, []) /\
    from_annotated_attribute (3, 11)%Z
      (VAnnotated (VClass "list") [VFieldInfo fi]) (VList [VInt 4])
      = (Raise (TypeError twice_default_msg), []) /\
    TypeError twice_default_msg <> TypeError both_msg.
Proof.
  eexists. split; [reflexivity|]. split; [reflexivity|discriminate].
Qed.

(** C1 (amended): for every construction through the constructor,
    from_field, the builder, an external dataclass field or PrivateAttr:
    supplying both a concrete default and a default_factory makes the
    construction fail, with the mutual-exclusion error whenever the checks
    that run before the comparison pass; supplying at most one of them never
    raises the mutual-exclusion error.  On the annotation+default path, a
    plain default for an annotation whose embedded descriptor has a
    default_factory raises the double-default error. *)
Theorem C1_default_and_factory :
  (forall c,
     (supplies_both c = true ->
        outcome c <> None /\
        (earlier_checks_pass c = true ->
         outcome c = Some (TypeError both_msg))) /\
     (supplies_both c = false -> outcome c <> Some (TypeError both_msg))) /\
  (forall version_info ann dflt fi,
     embedded_field_info ann = Some fi ->
     plain_default dflt = true ->
     is_None (default_factory fi) = false ->
     from_annotated_attribute version_info ann dflt
       = (Raise (TypeError twice_default_msg), [])).
Proof.
  split.
  - intros [kw|dflt kw|args|dc|dflt factory].
    + destruct (__init___both kw) as [Hyes Hno]. split; [|exact Hno].
      exact Hyes.
    + destruct (from_field_both dflt kw) as [Hyes Hno]. split; [|exact Hno].
      intros Hb. destruct (Hyes Hb) as [Hfail Hexact]. split; [exact Hfail|].
      intros Hpass. apply Hexact. simpl in Hpass.
      now destruct (kw_mem "annotation" kw).
    + destruct (Field_both args) as [Hyes Hno]. split; [|exact Hno].
      intros Hb. destruct (Hyes Hb) as [Hfail Hexact]. split; [exact Hfail|].
      intros Hpass. apply Hexact. simpl in Hpass.
      now destruct (Field_error args).
    + exact (_from_dataclass_field_both dc).
    + unfold supplies_both, outcome, PrivateAttr. simpl.
      destruct (negb (is_Undefined dflt) && negb (is_None factory));
        split; intros H; try discriminate H; simpl; [split|]; congruence.
  - intros version_info ann dflt fi Hemb Hplain Hfactory.
    unfold embedded_field_info in Hemb.
    rewrite (from_annotated_attribute_plain _ _ _ Hplain).
    destruct (unwrap_final ann); try discriminate Hemb.
    rewrite Hemb. unfold is_required. rewrite Hfactory, andb_false_r.
    reflexivity.
Qed.

Lemma C1_default_and_factory_witness :
  let factory := VCallable (fun _ => VList []) in
  outcome (Builder [("default", VInt 1); ("default_factory", factory)])
    = Some (TypeError both_msg) /\
  outcome (Private (VInt 1) factory) = Some (TypeError both_msg) /\
  outcome (Builder [("default_factory", factory)]) <> Some (TypeError both_msg) /\
  outcome (Direct [("default", VInt 1)]) <> Some (TypeError both_msg).
Proof.
  intros factory. split; [|split; [|split]].
  - exact (proj2 (proj1 (proj1 C1_default_and_factory
             (Builder [("default", VInt 1); ("default_factory", factory)]))
             eq_refl) eq_refl).
  - exact (proj2 (proj1 (proj1 C1_default_and_factory
             (Private (VInt 1) factory)) eq_refl) eq_refl).
  - exact (proj2 (proj1 C1_default_and_factory
             (Builder [("default_factory", factory)])) eq_refl).
  - exact (proj2 (proj1 C1_default_and_factory
             (Direct [("default", VInt 1)])) eq_refl).
Defined.

(** * More properties of the module *)

(** ** What _collect_metadata computes *)

Lemma kw_set_fresh (key : string) (v : value) (g : kwargs) :
  kw_find key g = None -> kw_set key v g = g ++ [(key, v)].
Proof.
  induction g as [|[k x] rest IH]; simpl; [reflexivity|].
  destruct (String.eqb k key); [discriminate|].
  intros H. now rewrite IH.
Qed.

Lemma kw_find_app_fresh (key k : string) (v : value) (g : kwargs) :
  key <> k -> kw_find key (g ++ [(k, v)]) = kw_find key g.
Proof.
  intros Hne. induction g as [|[k' x] rest IH]; simpl.
  - destruct (String.eqb k key) eqn:H; [|reflexivity].
    apply String.eqb_eq in H. congruence.
  - destruct (String.eqb k' key); [reflexivity|exact IH].
Qed.

Lemma kw_del_filter (key : string) (kw : kwargs) :
  NoDup (map fst kw) ->
  kw_del key kw = filter (fun kv => negb (String.eqb (fst kv) key)) kw.
Proof.
  induction kw as [|[k v] rest IH]; simpl; [reflexivity|].
  intros Hnd. inversion Hnd as [|? ? Hnotin Hrest]; subst.
  destruct (String.eqb k key) eqn:Hk; simpl.
  - apply String.eqb_eq in Hk. subst k.
    clear IH Hnd Hrest. induction rest as [|[k' v'] rest IH]; [reflexivity|].
    simpl in *. destruct (String.eqb k' key) eqn:Hk'.
    + apply String.eqb_eq in Hk'. tauto.
    + simpl. f_equal. apply IH. tauto.
  - f_equal. now apply IH.
Qed.

Lemma NoDup_keys_filter (f : string * value -> bool) (kw : kwargs) :
  NoDup (map fst kw) -> NoDup (map fst (filter f kw)).
Proof.
  induction kw as [|[k v] rest IH]; simpl; [constructor|].
  intros Hnd. inversion Hnd as [|? ? Hnotin Hrest]; subst.
  destruct (f (k, v)); [|now apply IH].
  simpl. constructor; [|now apply IH].
  intros Hin. apply Hnotin. apply in_map_iff in Hin as [[k' v'] [Hk Hin]].
  apply filter_In in Hin as [Hin _]. simpl in Hk. subst k'.
  apply in_map_iff. now exists (k, v').
Qed.

(** The loop of [_collect_metadata], one component at a time. *)
Lemma collect_loop_tokens (items kw : kwargs) (md : list value) (general : kwargs) :
  snd (fst (collect_loop items kw md general)) = md ++ dedicated_tokens items.
Proof.
  revert kw md general.
  induction items as [|[key v] rest IH]; intros kw md general.
  - simpl. now rewrite app_nil_r.
  - cbn [collect_loop dedicated_tokens flat_map fst snd].
    fold (dedicated_tokens rest).
    destruct (metadata_lookup key) as [[mk|]|]; [| |now rewrite IH].
    + destruct (is_None v); cbn [negb]; rewrite IH; [reflexivity|].
      now rewrite <- app_assoc.
    + destruct (is_None v); cbn [negb]; now rewrite IH.
Qed.

Lemma collect_loop_general (items kw : kwargs) (md : list value) (general : kwargs) :
  NoDup (map fst items) ->
  (forall key, In key (map fst items) -> kw_find key general = None) ->
  snd (collect_loop items kw md general) = general ++ general_entries items.
Proof.
  revert kw md general.
  induction items as [|[key v] rest IH]; intros kw md general Hnd Hfresh.
  - simpl. now rewrite app_nil_r.
  - inversion Hnd as [|? ? Hnotin Hrest]; subst.
    assert (Hnext : forall key0, In key0 (map fst rest) ->
                                 kw_find key0 general = None)
      by (intros key0 Hin; apply Hfresh; now right).
    cbn [collect_loop general_entries filter fst snd].
    fold (general_entries rest).
    destruct (metadata_lookup key) as [[mk|]|]; [| |now apply IH].
    + destruct (is_None v); cbn [negb]; now apply IH.
    + destruct (is_None v); cbn [negb]; [now apply IH|].
      rewrite IH; [|exact Hrest|].
      * rewrite kw_set_fresh by (apply Hfresh; now left).
        now rewrite <- app_assoc.
      * intros key0 Hin.
        rewrite kw_set_fresh by (apply Hfresh; now left).
        rewrite kw_find_app_fresh; [now apply Hnext|].
        intros ->. now apply Hnotin.
Qed.

Lemma taken_out_cons (key : string) (v : value) (rest : kwargs) (k : string) :
  taken_out ((key, v) :: rest) k =
  (String.eqb k key
   && match metadata_lookup key with None => false | Some _ => true end)
  || taken_out rest k.
Proof. reflexivity. Qed.

Lemma filter_taken_out (key : string) (v : value) (rest kw : kwargs) :
  metadata_lookup key <> None ->
  filter (fun kv => negb (taken_out rest (fst kv)))
         (filter (fun kv => negb (String.eqb (fst kv) key)) kw)
  = filter (fun kv => negb (taken_out ((key, v) :: rest) (fst kv))) kw.
Proof.
  intros Hlook. induction kw as [|[k x] kw IH]; [reflexivity|].
  cbn [filter fst]. rewrite taken_out_cons.
  destruct (metadata_lookup key); [|now elim Hlook].
  rewrite andb_true_r.
  destruct (String.eqb k key); cbn [negb orb]; [exact IH|].
  cbn [filter fst].
  destruct (taken_out rest k); cbn [negb]; [exact IH|].
  f_equal. exact IH.
Qed.

Lemma collect_loop_rest (items kw : kwargs) (md : list value) (general : kwargs) :
  NoDup (map fst kw) ->
  fst (fst (collect_loop items kw md general)) =
  filter (fun kv => negb (taken_out items (fst kv))) kw.
Proof.
  revert kw md general.
  induction items as [|[key v] rest IH]; intros kw md general Hnd.
  - simpl. clear.
    induction kw as [|kv kw IH]; simpl; [reflexivity|now rewrite <- IH].
  - cbn [collect_loop].
    destruct (metadata_lookup key) as [marker|] eqn:Hlook.
    + assert (Hnd' : NoDup (map fst (kw_del key kw)))
        by (rewrite kw_del_filter by exact Hnd; now apply NoDup_keys_filter).
      assert (Hgoal : forall md' g',
                 fst (fst (collect_loop rest (kw_del key kw) md' g')) =
                 filter (fun kv => negb (taken_out ((key, v) :: rest) (fst kv)))
                        kw).
      { intros md' g'. rewrite IH by exact Hnd'.
        rewrite kw_del_filter by exact Hnd.
        apply filter_taken_out. now rewrite Hlook. }
      destruct (negb (is_None v)); [destruct marker|]; apply Hgoal.
    + rewrite IH by exact Hnd.
      apply filter_ext. intros [k x]. rewrite taken_out_cons, Hlook.
      now rewrite andb_false_r.
Qed.

(** [_collect_metadata] on a dictionary, in closed form. *)
Lemma _collect_metadata_result (kw : kwargs) :
  NoDup (map fst kw) ->
  _collect_metadata kw
  = (dedicated_tokens kw ++ bucket (general_entries kw), not_constraints kw).
Proof.
  intros Hnd. unfold _collect_metadata.
  pose proof (collect_loop_tokens kw kw [] []) as Htok.
  pose proof (collect_loop_general kw kw [] [] Hnd (fun _ _ => eq_refl)) as Hgen.
  pose proof (collect_loop_rest kw kw [] [] Hnd) as Hrest.
  destruct (collect_loop kw kw [] []) as [[kw' md] general].
  cbn [fst snd app] in Htok, Hgen, Hrest. subst kw' md general.
  f_equal.
  - unfold bucket.
    destruct (general_entries kw); [now rewrite app_nil_r|reflexivity].
  - unfold not_constraints. apply filter_ext_in. intros [k x] Hin.
    cbn [fst]. unfold taken_out.
    destruct (metadata_lookup k) eqn:Hlook.
    + assert (H : existsb
                    (fun it => String.eqb k (fst it)
                               && match metadata_lookup (fst it) with
                                  | None => false
                                  | Some _ => true
                                  end) kw = true).
      { apply existsb_exists. exists (k, x). split; [exact Hin|].
        cbn [fst]. now rewrite String.eqb_refl, Hlook. }
      now rewrite H.
    + assert (H : existsb
                    (fun it => String.eqb k (fst it)
                               && match metadata_lookup (fst it) with
                                  | None => false
                                  | Some _ => true
                                  end) kw = false).
      { apply not_true_is_false. intros Hex.
        apply existsb_exists in Hex as [[k' x'] [_ Hk]]. cbn [fst] in Hk.
        apply andb_true_iff in Hk as [Hk Hl]. apply String.eqb_eq in Hk.
        subst k'. now rewrite Hlook in Hl. }
      now rewrite H.
Qed.


(** X1: for a dictionary (keys unique), [_collect_metadata] returns the
    tokens of the table's constructors in keyword order, each built from a
    value that is not None, followed by at most one general-metadata token,
    which carries the bucketed keywords with a value that is not None, in
    keyword order; the dictionary is left with exactly the keywords that are
    not in the table, in their order. *)
Theorem X1_collect_metadata_result (kw : kwargs) :
  NoDup (map fst kw) ->
  _collect_metadata kw
  = (dedicated_tokens kw ++ bucket (general_entries kw), not_constraints kw).
Proof. exact (_collect_metadata_result kw). Qed.

Lemma X1_collect_metadata_result_witness :
  _collect_metadata
    [("pattern", VStr "^a"); ("title", VStr "t"); ("gt", VInt 5); ("lt", VNone)]
  = ([Gt (VInt 5); PydanticGeneralMetadata [("pattern", VStr "^a")]],
     [("title", VStr "t")]).
Proof.
  refine (X1_collect_metadata_result
            [("pattern", VStr "^a"); ("title", VStr "t"); ("gt", VInt 5);
             ("lt", VNone)] _).
  repeat (constructor; [cbn; intuition discriminate|]). constructor.
Defined.

(** ** The metadata of a constructed descriptor *)

Lemma dedicated_tokens_del (key : string) (kw : kwargs) :
  metadata_lookup key = None ->
  dedicated_tokens (kw_del key kw) = dedicated_tokens kw.
Proof.
  intros Hlook. induction kw as [|[k v] rest IH]; [reflexivity|].
  cbn [kw_del]. destruct (String.eqb k key) eqn:Hk.
  - apply String.eqb_eq in Hk. subst k.
    cbn [dedicated_tokens flat_map fst]. now rewrite Hlook.
  - cbn [dedicated_tokens flat_map]. f_equal. exact IH.
Qed.

Lemma general_entries_del (key : string) (kw : kwargs) :
  metadata_lookup key = None ->
  general_entries (kw_del key kw) = general_entries kw.
Proof.
  intros Hlook. induction kw as [|[k v] rest IH]; [reflexivity|].
  cbn [kw_del]. destruct (String.eqb k key) eqn:Hk.
  - apply String.eqb_eq in Hk. subst k.
    cbn [general_entries filter fst]. now rewrite Hlook.
  - cbn [general_entries filter].
    destruct (match metadata_lookup (fst (k, v)) with
              | Some None => negb (is_None (snd (k, v)))
              | _ => false
              end); [f_equal|]; exact IH.
Qed.

Lemma NoDup_keys_del (key : string) (kw : kwargs) :
  NoDup (map fst kw) -> NoDup (map fst (kw_del key kw)).
Proof.
  intros Hnd. rewrite kw_del_filter by exact Hnd. now apply NoDup_keys_filter.
Qed.

Lemma after_dels (keys : list string) (kw : kwargs) :
  (forall key, In key keys -> metadata_lookup key = None) ->
  NoDup (map fst kw) ->
  let kw' := fold_left (fun kw key => kw_del key kw) keys kw in
  dedicated_tokens kw' = dedicated_tokens kw /\
  general_entries kw' = general_entries kw /\
  NoDup (map fst kw').
Proof.
  revert kw. induction keys as [|key keys IH]; intros kw Hkeys Hnd; cbn zeta.
  - now repeat split.
  - cbn [fold_left].
    destruct (IH (kw_del key kw)) as (Hd & Hg & Hn).
    + intros k Hin. apply Hkeys. now right.
    + now apply NoDup_keys_del.
    + cbn zeta in Hd, Hg, Hn. rewrite Hd, Hg.
      rewrite dedicated_tokens_del, general_entries_del
        by (apply Hkeys; now left).
      now repeat split.
Qed.

Lemma after_pops_tokens (kw : kwargs) :
  NoDup (map fst kw) ->
  dedicated_tokens (after_pops kw) = dedicated_tokens kw /\
  general_entries (after_pops kw) = general_entries kw /\
  NoDup (map fst (after_pops kw)).
Proof.
  intros Hnd. unfold after_pops. apply after_dels; [|exact Hnd].
  intros key Hin.
  destruct (negb (is_None (kw_get "alias" VNone kw)));
    cbn [popped_keys app In] in Hin;
    repeat (destruct Hin as [<-|Hin]; [reflexivity|]); now elim Hin.
Qed.

(** The metadata of a constructed descriptor, read off the dictionary the
    constructor was called with. *)
Lemma __init___metadata (kw : kwargs) (f : FieldInfo) :
  NoDup (map fst kw) ->
  __init__ kw = Ok f ->
  exists ann annotation_metadata,
    _extract_metadata (kw_get "annotation" VNone kw)
      = Ok (ann, annotation_metadata) /\
    annotation f = ann /\
    metadata f = dedicated_tokens kw ++ bucket (general_entries kw)
                 ++ annotation_metadata.
Proof.
  intros Hnd Hinit.
  apply __init___built in Hinit as (ann & md & Hex & ->).
  exists ann, md. split; [exact Hex|]. split; [reflexivity|].
  cbn [built metadata].
  destruct (after_pops_tokens kw Hnd) as (Hd & Hg & Hn).
  rewrite (_collect_metadata_result _ Hn). cbn [fst].
  now rewrite Hd, Hg, <- app_assoc.
Qed.

(** X2: the metadata of a descriptor the constructor builds from a
    dictionary (keys unique) is, in this order: the tokens of the constraint
    keywords in the order the caller gave them, the general-metadata token if
    any, and the metadata embedded in the annotation. *)
Theorem X2_constructor_metadata_order (kw : kwargs) (f : FieldInfo) :
  NoDup (map fst kw) ->
  __init__ kw = Ok f ->
  exists ann annotation_metadata,
    _extract_metadata (kw_get "annotation" VNone kw)
      = Ok (ann, annotation_metadata) /\
    annotation f = ann /\
    metadata f = dedicated_tokens kw ++ bucket (general_entries kw)
                 ++ annotation_metadata.
Proof. exact (__init___metadata kw f). Qed.

Ltac nodup_keys :=
  repeat (constructor; [cbn; intuition discriminate|]); constructor.

Lemma X2_constructor_metadata_order_witness :
  exists f,
    __init__ [("pattern", VStr "^a");
              ("annotation", VAnnotated (VClass "str") [MaxLen (VInt 9)]);
              ("min_length", VInt 1)] = Ok f /\
    annotation f = VClass "str" /\
    metadata f = [MinLen (VInt 1);
                  PydanticGeneralMetadata [("pattern", VStr "^a")];
                  MaxLen (VInt 9)].
Proof.
  eexists. split; [reflexivity|].
  match goal with
  | |- annotation ?f = _ /\ _ =>
      destruct (X2_constructor_metadata_order
                  [("pattern", VStr "^a");
                   ("annotation", VAnnotated (VClass "str") [MaxLen (VInt 9)]);
                   ("min_length", VInt 1)] f ltac:(nodup_keys) eq_refl)
        as (ann & md & Hex & Hann & Hmd)
  end.
  inversion Hex as [[Ha Hm]].
  split; [now rewrite Hann, <- Ha|now rewrite Hmd, <- Hm].
Defined.

(** ** The Field function: result, errors and warnings *)

Lemma Field_result (args : kwargs) :
  fst (Field args) =
  match Field_error args with
  | Some e => Raise e
  | None => __init__ (Field_call args)
  end.
Proof.
  rewrite Field_fst. destruct (Field_error args); reflexivity.
Qed.

Lemma Field_ok (args : kwargs) (f : FieldInfo) :
  fst (Field args) = Ok f ->
  Field_error args = None /\
  __init__ (Field_call args) = Ok f /\
  f = built (Field_call args) VNone [].
Proof.
  rewrite Field_result. destruct (Field_error args); [discriminate|].
  intros H. split; [reflexivity|]. split; [exact H|].
  apply __init___built in H as (ann & md & Hex & ->).
  change (kw_get "annotation" VNone (Field_call args)) with VNone in Hex.
  now inversion Hex.
Qed.

(** The warnings of a call that passes the checks of [Field]. *)
Lemma Field_snd (args : kwargs) :
  Field_error args = None -> snd (Field args) = Field_warnings args.
Proof.
  unfold Field, Field_error, Field_warnings, extra_left, kw_pop.
  fold (extra_of args). cbn [fold_left].
  kw_simpl. rewrite !kw_get_extra_of by reflexivity.
  set (call := from_field _).
  destruct (is_None (kw_get "const" VNone args)); [|discriminate].
  cbn [negb].
  destruct (is_None (kw_get "min_items" VNone args));
  destruct (is_None (kw_get "max_items" VNone args));
  (destruct (is_None (kw_get "unique_items" VNone args)); [|discriminate]);
  destruct (is_None (kw_get "allow_mutation" VNone args));
  (destruct (is_None (kw_get "regex" VNone args)); [|discriminate]);
  cbn [negb andb bind warn ret raise lift fst snd app];
  match goal with
  | |- context [truthy (VDict ?d)] => destruct (truthy (VDict d))
  end;
  cbn [negb andb bind warn ret raise lift fst snd app];
  match goal with
  | |- context [truthy ?v && negb ?w] => destruct (truthy v && negb w)
  end;
  try discriminate; intros _; reflexivity.
Qed.

Lemma Field_call_keys (args : kwargs) : NoDup (map fst (Field_call args)).
Proof. cbn. nodup_keys. Qed.

(** X3: whatever the order of the keywords in the call, the metadata of a
    descriptor [Field] returns lists the tokens in one fixed order: strict,
    gt, ge, lt, le, multiple_of, min_length, max_length (the two lengths
    after the translation of min_items and max_items), and last the one
    general-metadata token for pattern, allow_inf_nan, max_digits and
    decimal_places, which is there only if one of the four is given; a
    keyword given as None contributes nothing. *)
Theorem X3_Field_metadata_order (args : kwargs) (f : FieldInfo) :
  fst (Field args) = Ok f ->
  metadata f =
  opt_token Strict (kw_get "strict" VNone args)
  ++ opt_token Gt (kw_get "gt" VNone args)
  ++ opt_token Ge (kw_get "ge" VNone args)
  ++ opt_token Lt (kw_get "lt" VNone args)
  ++ opt_token Le (kw_get "le" VNone args)
  ++ opt_token MultipleOf (kw_get "multiple_of" VNone args)
  ++ opt_token MinLen (translated "min_items" "min_length" args)
  ++ opt_token MaxLen (translated "max_items" "max_length" args)
  ++ bucket (opt_entry "pattern" (kw_get "pattern" VNone args)
             ++ opt_entry "allow_inf_nan" (kw_get "allow_inf_nan" VNone args)
             ++ opt_entry "max_digits" (kw_get "max_digits" VNone args)
             ++ opt_entry "decimal_places" (kw_get "decimal_places" VNone args)).
Proof.
  intros H. apply Field_ok in H as (_ & Hinit & _).
  apply (__init___metadata _ _ (Field_call_keys args)) in Hinit
    as (ann & md & Hex & _ & ->).
  change (kw_get "annotation" VNone (Field_call args)) with VNone in Hex.
  inversion Hex. subst ann md. rewrite app_nil_r.
  change (dedicated_tokens (Field_call args)) with
    (opt_token Strict (kw_get "strict" VNone args)
     ++ opt_token Gt (kw_get "gt" VNone args)
     ++ opt_token Ge (kw_get "ge" VNone args)
     ++ opt_token Lt (kw_get "lt" VNone args)
     ++ opt_token Le (kw_get "le" VNone args)
     ++ opt_token MultipleOf (kw_get "multiple_of" VNone args)
     ++ opt_token MinLen (translated "min_items" "min_length" args)
     ++ opt_token MaxLen (translated "max_items" "max_length" args) ++ []).
  rewrite app_nil_r, <- !app_assoc. do 8 f_equal.
  unfold general_entries, Field_call, Field_kwargs, opt_entry.
  cbn [filter fst snd metadata_lookup String.eqb Ascii.eqb Bool.eqb].
  destruct (is_None (kw_get "pattern" VNone args));
    destruct (is_None (kw_get "allow_inf_nan" VNone args));
    destruct (is_None (kw_get "max_digits" VNone args));
    destruct (is_None (kw_get "decimal_places" VNone args)); reflexivity.
Qed.

Lemma X3_Field_metadata_order_witness :
  exists f,
    Field [("max_digits", VInt 6); ("le", VInt 9); ("max_items", VInt 3);
           ("pattern", VStr "^a"); ("strict", VBool true)]
      = (Ok f, [DeprecationWarning max_items_msg]) /\
    metadata f = [Strict (VBool true); Le (VInt 9); MaxLen (VInt 3);
                  PydanticGeneralMetadata
                    [("pattern", VStr "^a"); ("max_digits", VInt 6)]].
Proof.
  eexists. split; [reflexivity|].
  match goal with
  | |- metadata ?f = _ =>
      exact (X3_Field_metadata_order
               [("max_digits", VInt 6); ("le", VInt 9); ("max_items", VInt 3);
                ("pattern", VStr "^a"); ("strict", VBool true)] f eq_refl)
  end.
Defined.

(** The errors [Field] can end with. *)
Lemma Field_raises (args : kwargs) (e : exn) :
  fst (Field args) = Raise e ->
  e = PydanticUserError const_msg "deprecated-kwargs" \/
  e = PydanticUserError unique_items_msg "deprecated-kwargs" \/
  e = PydanticUserError regex_msg "deprecated-kwargs" \/
  e = TypeError validation_alias_msg \/
  e = TypeError both_msg.
Proof.
  rewrite Field_result.
  destruct (Field_error args) as [e'|] eqn:Herr.
  - intros H. inversion H. subst e'. clear H. revert Herr.
    unfold Field_error.
    repeat match goal with
           | |- context [if ?c then _ else _] => destruct c
           end;
      intros H; inversion H; tauto.
  - rewrite __init___unfold.
    change (kw_get "annotation" VNone (Field_call args)) with VNone.
    cbn [_extract_metadata is_None negb andb].
    destruct (negb _ && negb _); [|discriminate].
    intros H. inversion H. tauto.
Qed.

(** X4: [Field] raises nothing but five errors: the three removed-option
    errors (const, unique_items, regex, each with the code
    deprecated-kwargs), the type error of a validation alias of the wrong
    shape, and the mutual-exclusion error; a removed option that is given
    (not None) always makes it fail, const first. *)
Theorem X4_Field_errors (args : kwargs) :
  (forall e, fst (Field args) = Raise e ->
     e = PydanticUserError const_msg "deprecated-kwargs" \/
     e = PydanticUserError unique_items_msg "deprecated-kwargs" \/
     e = PydanticUserError regex_msg "deprecated-kwargs" \/
     e = TypeError validation_alias_msg \/
     e = TypeError both_msg) /\
  (is_None (kw_get "const" VNone args) = false ->
     Field args = (Raise (PydanticUserError const_msg "deprecated-kwargs"), [])) /\
  (is_None (kw_get "const" VNone args) = true ->
   is_None (kw_get "unique_items" VNone args) = false ->
     fst (Field args)
     = Raise (PydanticUserError unique_items_msg "deprecated-kwargs")) /\
  (is_None (kw_get "const" VNone args) = true ->
   is_None (kw_get "unique_items" VNone args) = true ->
   is_None (kw_get "regex" VNone args) = false ->
     fst (Field args) = Raise (PydanticUserError regex_msg "deprecated-kwargs")).
Proof.
  split; [|split; [|split]].
  - intros e. apply Field_raises.
  - intros Hc. unfold Field, kw_pop. fold (extra_of args).
    rewrite kw_get_extra_of by reflexivity. now rewrite Hc.
  - intros Hc Hu. rewrite Field_result. unfold Field_error.
    now rewrite Hc, Hu.
  - intros Hc Hu Hr. rewrite Field_result. unfold Field_error.
    now rewrite Hc, Hu, Hr.
Qed.

Lemma X4_Field_errors_witness :
  Field [("regex", VStr "a+"); ("const", VInt 1)]
    = (Raise (PydanticUserError const_msg "deprecated-kwargs"), []) /\
  fst (Field [("min_items", VInt 1); ("regex", VStr "a+")])
    = Raise (PydanticUserError regex_msg "deprecated-kwargs").
Proof.
  split.
  - exact (proj1 (proj2 (X4_Field_errors
                           [("regex", VStr "a+"); ("const", VInt 1)])) eq_refl).
  - exact (proj2 (proj2 (proj2 (X4_Field_errors
                                  [("min_items", VInt 1); ("regex", VStr "a+")])))
             eq_refl eq_refl eq_refl).
Defined.

(** X5: [Field] never leaves an annotation on the descriptor and never
    raises the error that [from_field] has for an annotation keyword: a
    keyword named annotation is one of the extra keywords, warned about and,
    when no json_schema_extra is given, stored there. *)
Theorem X5_Field_annotation_keyword (args : kwargs) :
  fst (Field args) <> Raise (TypeError annotation_kwarg_msg) /\
  (forall f, fst (Field args) = Ok f -> annotation f = VNone) /\
  (forall a f,
     kw_find "annotation" args = Some a ->
     fst (Field args) = Ok f ->
     In (DeprecationWarning extra_msg) (snd (Field args)) /\
     (truthy (kw_get "json_schema_extra" VNone args) = false ->
      exists extra,
        json_schema_extra f = VDict extra /\
        kw_find "annotation" extra = Some a)).
Proof.
  split; [|split].
  - intros H. destruct (Field_raises args _ H)
      as [E|[E|[E|[E|E]]]]; discriminate E.
  - intros f H. apply Field_ok in H as (_ & _ & ->). reflexivity.
  - intros a f Ha H. apply Field_ok in H as (Herr & _ & ->).
    assert (Hleft : kw_find "annotation" (extra_left args) = Some a).
    { unfold extra_left. cbn [fold_left].
      rewrite !kw_find_del_other by discriminate.
      unfold extra_of.
      rewrite (kw_find_filter (fun k => negb (is_Field_parameter k)));
        [exact Ha|reflexivity]. }
    assert (Htruthy : truthy (VDict (extra_left args)) = true)
      by (destruct (extra_left args); [discriminate Hleft|reflexivity]).
    split.
    + rewrite (Field_snd args Herr). unfold Field_warnings.
      rewrite Htruthy. apply in_or_app. right. apply in_or_app. right.
      apply in_or_app. right. now left.
    + intros Hjse. exists (extra_left args). split; [|exact Hleft].
      cbn [built json_schema_extra].
      change (kw_get "json_schema_extra" VNone (Field_call args)) with
        (if truthy (VDict (extra_left args))
            && negb (truthy (kw_get "json_schema_extra" VNone args))
         then VDict (extra_left args)
         else kw_get "json_schema_extra" VNone args).
      now rewrite Htruthy, Hjse.
Qed.

Lemma X5_Field_annotation_keyword_witness :
  exists f,
    fst (Field [("annotation", VClass "int")]) = Ok f /\
    annotation f = VNone /\
    In (DeprecationWarning extra_msg)
       (snd (Field [("annotation", VClass "int")])) /\
    exists extra,
      json_schema_extra f = VDict extra /\
      kw_find "annotation" extra = Some (VClass "int").
Proof.
  eexists. split; [reflexivity|].
  match goal with
  | |- annotation ?f = _ /\ _ =>
      pose proof (X5_Field_annotation_keyword [("annotation", VClass "int")])
        as (_ & Hann & Hextra);
      destruct (Hextra (VClass "int") f eq_refl eq_refl) as (Hw & Hjse);
      exact (conj (Hann f eq_refl) (conj Hw (Hjse eq_refl)))
  end.
Defined.

(** X6: the aliases of a descriptor [Field] returns: the alias is the one
    given; the serialization alias is the one given, or the alias when none
    is given and the alias is a string; the validation alias is the one
    given when it is true, else the alias; so a true validation alias has
    one of the three permitted shapes or is the alias itself. *)
Theorem X6_Field_aliases (args : kwargs) (f : FieldInfo) :
  fst (Field args) = Ok f ->
  let given_alias := kw_get "alias" VNone args in
  let given_validation := kw_get "validation_alias" VNone args in
  let given_serialization := kw_get "serialization_alias" VNone args in
  alias f = given_alias /\
  serialization_alias f =
    (if is_None given_serialization && isinstance_str given_alias
     then given_alias else given_serialization) /\
  validation_alias f =
    (if truthy given_validation then given_validation else given_alias) /\
  (permitted_alias_shape (validation_alias f) = true \/
   validation_alias f = alias f).
Proof.
  intros H ga gv gs. apply Field_ok in H as (Herr & _ & ->).
  split; [reflexivity|]. split; [reflexivity|]. split; [reflexivity|].
  change (validation_alias (built (Field_call args) VNone []))
    with (py_or gv ga).
  change (alias (built (Field_call args) VNone [])) with ga.
  unfold py_or. destruct (truthy gv) eqn:Htruthy; [left|now right].
  revert Herr. unfold Field_error. fold gv.
  repeat match goal with
         | |- context [if negb ?c then _ else _] => destruct (negb c)
         end; try discriminate.
  rewrite Htruthy. unfold permitted_alias_shape.
  destruct (isinstance_str gv || isinstance_AliasChoices gv
            || isinstance_AliasPath gv); [reflexivity|discriminate].
Qed.

Lemma X6_Field_aliases_witness :
  exists f,
    fst (Field [("alias", VStr "x"); ("validation_alias", VInt 0)]) = Ok f /\
    alias f = VStr "x" /\
    serialization_alias f = VStr "x" /\
    validation_alias f = VStr "x".
Proof.
  eexists. split; [reflexivity|].
  match goal with
  | |- alias ?f = _ /\ _ =>
      destruct (X6_Field_aliases
                  [("alias", VStr "x"); ("validation_alias", VInt 0)] f eq_refl)
        as (Ha & Hs & Hv & _);
      exact (conj Ha (conj Hs Hv))
  end.
Defined.

(** X7: a call of [Field] that returns a descriptor warns once for each
    deprecated feature it uses and for nothing else, in this order:
    min_items, max_items, allow_mutation (each when given, not None), extra
    keywords (when any keyword is left that is neither a parameter nor one of
    the six legacy keywords); a call that uses none of them emits no
    warning. *)
Theorem X7_Field_warnings (args : kwargs) (f : FieldInfo) :
  fst (Field args) = Ok f ->
  snd (Field args) = Field_warnings args /\
  (is_None (kw_get "min_items" VNone args) = true ->
   is_None (kw_get "max_items" VNone args) = true ->
   is_None (kw_get "allow_mutation" VNone args) = true ->
   extra_left args = [] ->
   snd (Field args) = []).
Proof.
  intros H. apply Field_ok in H as (Herr & _ & _).
  rewrite (Field_snd args Herr). split; [reflexivity|].
  intros Hmin Hmax Ham Hextra. unfold Field_warnings.
  now rewrite Hmin, Hmax, Ham, Hextra.
Qed.

Lemma X7_Field_warnings_witness :
  snd (Field [("allow_mutation", VBool true); ("min_items", VInt 1);
              ("foo", VInt 1)])
  = [DeprecationWarning min_items_msg; DeprecationWarning allow_mutation_msg;
     DeprecationWarning extra_msg] /\
  snd (Field [("gt", VInt 1)]) = [].
Proof.
  split.
  - exact (proj1 (X7_Field_warnings
                    [("allow_mutation", VBool true); ("min_items", VInt 1);
                     ("foo", VInt 1)] _ eq_refl)).
  - exact (proj2 (X7_Field_warnings [("gt", VInt 1)] _ eq_refl)
             eq_refl eq_refl eq_refl eq_refl).
Defined.

(** X8: the frozen flag of a descriptor [Field] returns is True when
    allow_mutation is given as False, whatever frozen is given, and is the
    frozen flag given otherwise; allow_mutation given as True does not
    unfreeze. *)
Theorem X8_Field_frozen (args : kwargs) (f : FieldInfo) :
  fst (Field args) = Ok f ->
  (kw_get "allow_mutation" VNone args = VBool false -> frozen f = VBool true) /\
  (kw_get "allow_mutation" VNone args <> VBool false ->
   frozen f = kw_get "frozen" VNone args).
Proof.
  intros H. apply Field_ok in H as (_ & _ & ->).
  change (frozen (built (Field_call args) VNone [])) with
    (if is_False (kw_get "allow_mutation" VNone args) then VBool true
     else kw_get "frozen" VNone args).
  split; intros Ham.
  - now rewrite Ham.
  - destruct (kw_get "allow_mutation" VNone args) as [| | | |[|]| | | | | | | | | | | | | | | | | | | | | | | | | |];
      try reflexivity.
    now elim Ham.
Qed.

Lemma X8_Field_frozen_witness :
  exists f g,
    fst (Field [("frozen", VBool false); ("allow_mutation", VBool false)]) = Ok f /\
    frozen f = VBool true /\
    fst (Field [("frozen", VBool true); ("allow_mutation", VBool true)]) = Ok g /\
    frozen g = VBool true.
Proof.
  eexists. eexists. split; [reflexivity|]. split; [|split; [reflexivity|]].
  - match goal with
    | |- frozen ?f = _ =>
        exact (proj1 (X8_Field_frozen
                        [("frozen", VBool false); ("allow_mutation", VBool false)]
                        f eq_refl) eq_refl)
    end.
  - match goal with
    | |- frozen ?f = _ =>
        refine (proj2 (X8_Field_frozen
                         [("frozen", VBool true); ("allow_mutation", VBool true)]
                         f eq_refl) _); discriminate
    end.
Defined.

Lemma fold_del_filter (keys : list string) (kw : kwargs) :
  NoDup (map fst kw) ->
  fold_left (fun kw key => kw_del key kw) keys kw
  = filter (fun kv => negb (existsb (String.eqb (fst kv)) keys)) kw.
Proof.
  revert kw. induction keys as [|key keys IH]; intros kw Hnd.
  - cbn. clear. induction kw as [|kv kw IH]; cbn; [reflexivity|now rewrite <- IH].
  - cbn [fold_left]. rewrite IH by now apply NoDup_keys_del.
    rewrite kw_del_filter by exact Hnd.
    clear. induction kw as [|[k x] kw IH]; [reflexivity|].
    cbn [filter fst existsb].
    destruct (String.eqb k key); cbn [negb orb]; [exact IH|].
    cbn [filter fst].
    destruct (existsb (String.eqb k) keys); cbn [negb]; [exact IH|].
    f_equal. exact IH.
Qed.

(** X9: the keywords of a call (keys unique) that are neither parameters
    of [Field] nor one of the six legacy keywords become the
    json_schema_extra of the descriptor, in call order, when there is at
    least one and the json_schema_extra given is false (None or empty); when
    a true json_schema_extra is given it is kept and those keywords are left
    out of the descriptor. *)
Theorem X9_Field_extra_keywords (args : kwargs) (f : FieldInfo) :
  NoDup (map fst args) ->
  fst (Field args) = Ok f ->
  let unknown :=
    filter (fun kv => negb (is_Field_parameter (fst kv))
                      && negb (existsb (String.eqb (fst kv)) legacy_keywords))
           args in
  let given := kw_get "json_schema_extra" VNone args in
  (unknown <> [] -> truthy given = false -> json_schema_extra f = VDict unknown) /\
  (truthy given = true -> json_schema_extra f = given) /\
  (unknown = [] -> json_schema_extra f = given).
Proof.
  intros Hnd H unknown given. apply Field_ok in H as (_ & _ & ->).
  assert (Hleft : extra_left args = unknown).
  { unfold extra_left, extra_of.
    rewrite fold_del_filter by now apply NoDup_keys_filter.
    unfold unknown, legacy_keywords. clear.
    induction args as [|[k x] args IH]; [reflexivity|].
    cbn [filter fst]. destruct (is_Field_parameter k); cbn [negb andb];
      [exact IH|].
    cbn [filter fst].
    destruct (negb (existsb (String.eqb k) _)); [f_equal|]; exact IH. }
  change (json_schema_extra (built (Field_call args) VNone [])) with
    (if truthy (VDict (extra_left args)) && negb (truthy given)
     then VDict (extra_left args) else given).
  rewrite Hleft. split; [|split].
  - intros Hne Hg. rewrite Hg.
    destruct unknown; [now elim Hne|reflexivity].
  - intros Hg. rewrite Hg. now rewrite andb_false_r.
  - intros ->. reflexivity.
Qed.

Lemma X9_Field_extra_keywords_witness :
  exists f g,
    fst (Field [("foo", VInt 1); ("gt", VInt 0); ("min_items", VInt 2);
                ("bar", VStr "b")]) = Ok f /\
    json_schema_extra f = VDict [("foo", VInt 1); ("bar", VStr "b")] /\
    fst (Field [("foo", VInt 1);
                ("json_schema_extra", VDict [("x", VInt 0)])]) = Ok g /\
    json_schema_extra g = VDict [("x", VInt 0)].
Proof.
  eexists. eexists. split; [reflexivity|]. split; [|split; [reflexivity|]].
  - match goal with
    | |- json_schema_extra ?f = _ =>
        refine (proj1 (X9_Field_extra_keywords
                         [("foo", VInt 1); ("gt", VInt 0); ("min_items", VInt 2);
                          ("bar", VStr "b")] f ltac:(nodup_keys) eq_refl)
                  _ eq_refl); discriminate
    end.
  - match goal with
    | |- json_schema_extra ?f = _ =>
        exact (proj1 (proj2 (X9_Field_extra_keywords
                               [("foo", VInt 1);
                                ("json_schema_extra", VDict [("x", VInt 0)])]
                               f ltac:(nodup_keys) eq_refl)) eq_refl)
    end.
Defined.

(** ** The bare-annotation path *)

(** The type an annotation stands for and the metadata it embeds, under a
    [Final[...]] wrapper too. *)
Lemma same_options_refl (f : FieldInfo) : same_options f f.
Proof. unfold same_options. repeat split. Qed.

Lemma _extract_metadata_parts (ann : value) :
  embedded_field_info ann = None ->
  _extract_metadata (unwrap_final ann)
  = Ok (annotated_origin ann, annotated_extras ann).
Proof.
  unfold embedded_field_info, annotated_origin, annotated_extras.
  destruct (unwrap_final ann); try reflexivity.
  intros H. rewrite _extract_metadata_annotated. now rewrite H.
Qed.

(** X10: the bare-annotation path raises nothing, whatever the annotation:
    it returns a descriptor whose annotation is the type with a Final[...]
    wrapper and the embedded metadata taken off, and whose final flag is True
    exactly when the annotation is a final marker or the origin of its
    annotated form is one. *)
Theorem X10_from_annotation_never_raises (ann : value) :
  exists f,
    from_annotation ann = Ok f /\
    annotation f = annotated_origin ann /\
    final f = VBool (is_finalvar ann || is_finalvar (annotated_origin ann)
                                        && is_annotated (unwrap_final ann)).
Proof.
  rewrite from_annotation_unfold. unfold annotated_origin.
  destruct (unwrap_final ann) eqn:Hu;
    try (rewrite (__init___annotation_final _ _ [] _)
           by (now apply _extract_metadata_plain);
         eexists; split; [reflexivity|]; split; [reflexivity|];
         cbn [is_annotated]; now rewrite andb_false_r, orb_false_r).
  cbn zeta. cbn [is_annotated]. rewrite andb_true_r.
  rewrite (orb_comm (is_finalvar ann)).
  match goal with
  | Hu' : unwrap_final ann = VAnnotated ?o ?e |- _ =>
      destruct (_find_field_info_arg e) eqn:Hf;
        [|rewrite (__init___annotation_final _ o e)
            by (rewrite _extract_metadata_annotated; now rewrite Hf)]
  end;
    (eexists; split; [reflexivity|]; split; reflexivity).
Qed.

(** X11: when the annotation embeds a descriptor, the bare-annotation path
    returns that descriptor with its options as they are; only the
    annotation and the final flag are set anew, and the metadata is the
    descriptor's own followed by the extra arguments of the annotated form
    that are not descriptors, in their order. *)
Theorem X11_from_annotation_embedded
    (ann origin : value) (extras : list value) (fi : FieldInfo) :
  unwrap_final ann = VAnnotated origin extras ->
  _find_field_info_arg extras = Some fi ->
  exists f,
    from_annotation ann = Ok f /\
    same_options f fi /\
    annotation f = origin /\
    metadata f = metadata fi ++ not_field_infos extras.
Proof.
  intros Hu Hf. rewrite from_annotation_unfold, Hu. cbn zeta. rewrite Hf.
  eexists. split; [reflexivity|].
  split; [unfold same_options; repeat split|]. split; reflexivity.
Qed.

Lemma X11_from_annotation_embedded_witness :
  exists fi,
    fst (Field [("default", VInt 3); ("gt", VInt 0)]) = Ok fi /\
    exists f,
      from_annotation
        (VFinalOf (VAnnotated (VClass "int") [Lt (VInt 9); VFieldInfo fi]))
        = Ok f /\
      same_options f fi /\
      annotation f = VClass "int" /\
      metadata f = [Gt (VInt 0); Lt (VInt 9)].
Proof.
  eexists. split; [reflexivity|].
  match goal with
  | |- exists f, from_annotation (VFinalOf (VAnnotated ?o ?e)) = _ /\ _ =>
      exact (X11_from_annotation_embedded (VFinalOf (VAnnotated o e)) o e _
               eq_refl eq_refl)
  end.
Defined.

(** ** The annotation+default path *)

(** X12: an attribute whose default is a descriptor and whose annotation
    embeds none resolves, without error or warning, to that descriptor with
    its options as they are, the annotation set to the type with the
    embedded metadata taken off, the final flag set from the Final[...]
    wrapper, and the annotation's metadata appended after the descriptor's
    own. *)
Theorem X12_descriptor_as_default
    (version_info : Z * Z) (ann : value) (d : FieldInfo) :
  embedded_field_info ann = None ->
  exists f,
    from_annotated_attribute version_info ann (VFieldInfo d) = (Ok f, []) /\
    same_options f d /\
    annotation f = annotated_origin ann /\
    final f = VBool (is_finalvar ann) /\
    metadata f = metadata d ++ annotated_extras ann.
Proof.
  intros Hemb. unfold from_annotated_attribute. rewrite final_split.
  rewrite (_extract_metadata_parts ann Hemb). cbn [bind lift ret app].
  eexists. split; [reflexivity|].
  split; [unfold same_options; repeat split|].
  split; [reflexivity|]. split; reflexivity.
Qed.

Lemma X12_descriptor_as_default_witness :
  exists d,
    fst (Field [("default", VInt 3); ("lt", VInt 9)]) = Ok d /\
    exists f,
      from_annotated_attribute (3, 11)%Z
        (VAnnotated (VClass "int") [Gt (VInt 0)]) (VFieldInfo d) = (Ok f, []) /\
      same_options f d /\
      annotation f = VClass "int" /\
      final f = VBool false /\
      metadata f = [Lt (VInt 9); Gt (VInt 0)].
Proof.
  eexists. split; [reflexivity|].
  exact (X12_descriptor_as_default (3, 11)%Z
           (VAnnotated (VClass "int") [Gt (VInt 0)]) _ eq_refl).
Defined.

(** X13: an attribute with a plain default value and an annotation that
    embeds no descriptor always resolves, without error or warning: the
    default is the value (Unset for the Ellipsis literal), there is no
    factory, so the field is required exactly when the value is Unset or
    Ellipsis, and annotation, final flag and metadata are those of the
    annotation. *)
Theorem X13_plain_default
    (version_info : Z * Z) (ann dflt : value) :
  plain_default dflt = true ->
  embedded_field_info ann = None ->
  exists f,
    from_annotated_attribute version_info ann dflt = (Ok f, []) /\
    default f = (if is_Ellipsis dflt then Undefined else dflt) /\
    default_factory f = VNone /\
    is_required f = is_Undefined dflt || is_Ellipsis dflt /\
    annotation f = annotated_origin ann /\
    final f = VBool (is_finalvar ann) /\
    metadata f = annotated_extras ann.
Proof.
  intros Hplain Hemb.
  assert (Hres : from_annotated_attribute version_info ann dflt =
                 (__init__ [("annotation", unwrap_final ann); ("default", dflt);
                            ("final", VBool (is_finalvar ann))], [])).
  { rewrite (from_annotated_attribute_plain _ _ _ Hplain).
    unfold embedded_field_info in Hemb.
    destruct (unwrap_final ann); try reflexivity. now rewrite Hemb. }
  rewrite Hres, __init___unfold.
  change (kw_get "annotation" VNone _) with (unwrap_final ann).
  rewrite (_extract_metadata_parts ann Hemb).
  change (kw_get "default_factory" VNone _) with VNone.
  cbn [is_None negb andb]. rewrite andb_false_r.
  eexists. split; [reflexivity|].
  change (stored_default _) with (if is_Ellipsis dflt then Undefined else dflt).
  unfold is_required. cbn [built default default_factory annotation final metadata].
  change (stored_default _) with (if is_Ellipsis dflt then Undefined else dflt).
  split; [reflexivity|]. split; [reflexivity|].
  split; [now destruct dflt|].
  split; [reflexivity|]. split; reflexivity.
Qed.

Lemma X13_plain_default_witness :
  exists f,
    from_annotated_attribute (3, 11)%Z
      (VFinalOf (VAnnotated (VClass "int") [Gt (VInt 0)])) (VInt 4) = (Ok f, []) /\
    default f = VInt 4 /\
    default_factory f = VNone /\
    is_required f = false /\
    annotation f = VClass "int" /\
    final f = VBool true /\
    metadata f = [Gt (VInt 0)].
Proof.
  exact (X13_plain_default (3, 11)%Z
           (VFinalOf (VAnnotated (VClass "int") [Gt (VInt 0)])) (VInt 4)
           eq_refl eq_refl).
Defined.

(** ** Dataclass fields *)

Lemma _from_dataclass_field_ok (dc : DataclassField) (f : FieldInfo) :
  fst (_from_dataclass_field dc) = Ok f ->
  repeats_keyword dc = false /\
  exists field ann md,
    fst (Field (dataclass_args dc)) = Ok field /\
    _extract_metadata (dc_type dc) = Ok (ann, md) /\
    f = set_metadata (set_annotation field ann) (metadata field ++ md).
Proof.
  rewrite _from_dataclass_field_fst.
  destruct (repeats_keyword dc); [discriminate|].
  destruct (fst (Field (dataclass_args dc))) as [field|e]; [|discriminate].
  destruct (_extract_metadata (dc_type dc)) as [[ann md]|e]; [|discriminate].
  intros H. inversion H. split; [reflexivity|]. now exists field, ann, md.
Qed.

(** X15: a descriptor made from a dataclass field takes the field's
    default, with MISSING and the Ellipsis literal read as Unset, its
    default_factory, with MISSING read as None, and its repr flag; its
    annotation is the field's type with the embedded metadata taken off, and
    that metadata comes last in the descriptor's metadata.  A metadata
    mapping that repeats default, default_factory or repr makes the
    conversion fail. *)
Theorem X15_from_dataclass_field (dc : DataclassField) :
  (forall f,
     fst (_from_dataclass_field dc) = Ok f ->
     default f = (if is_MISSING (dc_default dc) || is_Ellipsis (dc_default dc)
                  then Undefined else dc_default dc) /\
     default_factory f = (if is_MISSING (dc_default_factory dc) then VNone
                          else dc_default_factory dc) /\
     repr f = dc_repr dc /\
     exists ann md tokens,
       _extract_metadata (dc_type dc) = Ok (ann, md) /\
       annotation f = ann /\
       metadata f = tokens ++ md) /\
  (repeats_keyword dc = true ->
   _from_dataclass_field dc = (Raise (TypeError multiple_values_msg), [])).
Proof.
  split.
  - intros f H.
    apply _from_dataclass_field_ok in H
      as (_ & field & ann & md & HField & Hex & ->).
    apply Field_ok in HField as (_ & _ & ->).
    cbn [set_metadata set_annotation default default_factory repr annotation
         metadata built].
    change (stored_default (Field_call (dataclass_args dc))) with
      (let d := if is_MISSING (dc_default dc) then Undefined else dc_default dc in
       if is_Ellipsis d then Undefined else d).
    change (kw_get "default_factory" VNone (Field_call (dataclass_args dc)))
      with (if is_MISSING (dc_default_factory dc) then VNone
            else dc_default_factory dc).
    change (kw_get "repr" (VBool true) (Field_call (dataclass_args dc)))
      with (dc_repr dc).
    split; [now destruct (dc_default dc)|].
    split; [reflexivity|]. split; [reflexivity|].
    eexists ann, md, _. split; [exact Hex|]. split; reflexivity.
  - intros Hrep. unfold _from_dataclass_field. fold (repeats_keyword dc).
    now rewrite Hrep.
Qed.

Lemma X15_from_dataclass_field_witness :
  let dc := {| dc_default := MISSING; dc_default_factory := MISSING;
               dc_repr := VBool false; dc_metadata := [("gt", VInt 0)];
               dc_type := VAnnotated (VClass "int") [Lt (VInt 9)];
               dc_kw_only := None |} in
  exists f,
    fst (_from_dataclass_field dc) = Ok f /\
    default f = Undefined /\
    default_factory f = VNone /\
    repr f = VBool false /\
    _from_dataclass_field
      {| dc_default := MISSING; dc_default_factory := MISSING;
         dc_repr := VBool false; dc_metadata := [("repr", VBool true)];
         dc_type := VClass "int"; dc_kw_only := None |}
    = (Raise (TypeError multiple_values_msg), []).
Proof.
  intros dc. eexists. split; [vm_compute; reflexivity|].
  match goal with
  | |- default ?f = _ /\ _ =>
      destruct (proj1 (X15_from_dataclass_field dc) f eq_refl)
        as (Hd & Hf & Hr & _)
  end.
  split; [exact Hd|]. split; [exact Hf|]. split; [exact Hr|].
  match goal with
  | |- _from_dataclass_field ?d = _ =>
      exact (proj2 (X15_from_dataclass_field d) eq_refl)
  end.
Defined.

(** X14: for an attribute whose default is a dataclass field: a bare
    InitVar annotation on an interpreter older than 3.8 raises the
    RuntimeError before anything else is looked at; when a descriptor is
    returned, its init_var flag is True exactly when the annotation (a
    Final[...] wrapper taken off) is InitVar or InitVar[T], its kw_only is
    the field's kw_only attribute, None if there is none, its final flag
    comes from the Final[...] wrapper, and default, default_factory and repr
    are those of the converted field. *)
Theorem X14_dataclass_field_as_default
    (version_info : Z * Z) (ann : value) (dc : DataclassField) :
  (unwrap_final ann = VInitVar ->
   version_lt_3_8 version_info = true ->
   from_annotated_attribute version_info ann (VDataclassField dc)
   = (Raise (RuntimeError initvar_msg), [])) /\
  (forall f,
     fst (from_annotated_attribute version_info ann (VDataclassField dc)) = Ok f ->
     init_var f = VBool (is_initvar (unwrap_final ann)) /\
     kw_only f = match dc_kw_only dc with Some k => k | None => VNone end /\
     final f = VBool (is_finalvar ann) /\
     exists field,
       fst (_from_dataclass_field dc) = Ok field /\
       default f = default field /\
       default_factory f = default_factory field /\
       repr f = repr field).
Proof.
  unfold from_annotated_attribute. rewrite final_split. split.
  - intros Hu Hv. now rewrite Hu, Hv.
  - intros f.
    assert (Hinit : forall r w,
               match unwrap_final ann with
               | VInitVar =>
                   if version_lt_3_8 version_info
                   then raise (RuntimeError initvar_msg)
                   else ret (true, VAny)
               | VInitVarOf t => ret (true, t)
               | _ => ret (false, unwrap_final ann)
               end = (Ok r, w) -> fst r = is_initvar (unwrap_final ann)).
    { intros r w. destruct (unwrap_final ann);
        try (intros H; inversion H; reflexivity).
      destruct (version_lt_3_8 version_info); intros H; inversion H.
      reflexivity. }
    destruct (match unwrap_final ann with
              | VInitVar => _ | VInitVarOf t => _ | _ => _ end)
      as [[[init ann']|e] w0]; [|discriminate].
    specialize (Hinit _ _ eq_refl). cbn [fst] in Hinit. subst init.
    cbn [bind].
    destruct (_from_dataclass_field dc) as [[field|e] w1]; [|discriminate].
    cbn [bind lift].
    destruct (_extract_metadata ann') as [[a md]|e]; [|discriminate].
    cbn [bind ret fst]. intros H. inversion H.
    split; [reflexivity|]. split; [reflexivity|]. split; [reflexivity|].
    exists field. repeat split.
Qed.

Lemma X14_dataclass_field_as_default_witness :
  let dc := {| dc_default := VInt 1; dc_default_factory := MISSING;
               dc_repr := VBool true; dc_metadata := [];
               dc_type := VClass "int"; dc_kw_only := Some (VBool true) |} in
  from_annotated_attribute (3, 7)%Z VInitVar (VDataclassField dc)
  = (Raise (RuntimeError initvar_msg), []) /\
  exists f,
    fst (from_annotated_attribute (3, 11)%Z (VInitVarOf (VClass "int"))
           (VDataclassField dc)) = Ok f /\
    init_var f = VBool true /\
    kw_only f = VBool true /\
    final f = VBool false.
Proof.
  intros dc. split.
  - exact (proj1 (X14_dataclass_field_as_default (3, 7)%Z VInitVar dc)
             eq_refl eq_refl).
  - eexists. split; [vm_compute; reflexivity|].
    match goal with
    | |- init_var ?f = _ /\ _ =>
        destruct (proj2 (X14_dataclass_field_as_default (3, 11)%Z
                           (VInitVarOf (VClass "int")) dc) f eq_refl)
          as (Hi & Hk & Hfin & _)
    end.
    exact (conj Hi (conj Hk Hfin)).
Defined.

(** ** Invariants of the descriptors *)

Lemma built_exclusive (kw : kwargs) (f : FieldInfo) :
  __init__ kw = Ok f -> exclusive f.
Proof.
  rewrite __init___unfold.
  destruct (_extract_metadata (kw_get "annotation" VNone kw)) as [[ann md]|e];
    [|discriminate].
  destruct (negb (is_Undefined (stored_default kw))
            && negb (is_None (kw_get "default_factory" VNone kw))) eqn:Hboth;
    [discriminate|].
  intros H. inversion H. unfold exclusive. cbn [built default default_factory].
  destruct (is_Undefined (stored_default kw)); [reflexivity|].
  destruct (is_None (kw_get "default_factory" VNone kw));
    [reflexivity|discriminate Hboth].
Qed.

Lemma Field_exclusive (args : kwargs) (f : FieldInfo) :
  fst (Field args) = Ok f -> exclusive f.
Proof.
  intros H. apply Field_ok in H as (_ & H & _). exact (built_exclusive _ _ H).
Qed.

Lemma _from_dataclass_field_exclusive (dc : DataclassField) (f : FieldInfo) :
  fst (_from_dataclass_field dc) = Ok f -> exclusive f.
Proof.
  intros H.
  apply _from_dataclass_field_ok in H as (_ & field & ann & md & HField & _ & ->).
  exact (Field_exclusive _ _ HField).
Qed.

(** X16: a descriptor holds a default or a default_factory, never both,
    on every construction path: the constructor, Field, the conversion of a
    dataclass field, from_annotation and from_annotated_attribute return
    such a descriptor, provided the descriptor they start from (the one
    embedded in the annotation for from_annotation, the one given as the
    default for from_annotated_attribute) is one.  A plain default never
    lands beside the factory of an embedded descriptor. *)
Theorem X16_default_or_factory :
  (forall kw f, __init__ kw = Ok f -> exclusive f) /\
  (forall args f, fst (Field args) = Ok f -> exclusive f) /\
  (forall dc f, fst (_from_dataclass_field dc) = Ok f -> exclusive f) /\
  (forall ann f,
     (forall fi, embedded_field_info ann = Some fi -> exclusive fi) ->
     from_annotation ann = Ok f -> exclusive f) /\
  (forall version_info ann dflt f,
     (forall d, dflt = VFieldInfo d -> exclusive d) ->
     fst (from_annotated_attribute version_info ann dflt) = Ok f ->
     exclusive f).
Proof.
  split; [exact built_exclusive|]. split; [exact Field_exclusive|].
  split; [exact _from_dataclass_field_exclusive|]. split.
  - intros ann f Hemb. rewrite from_annotation_unfold.
    unfold embedded_field_info in Hemb.
    destruct (unwrap_final ann); try apply built_exclusive.
    cbn zeta. destruct (_find_field_info_arg extras) as [fi|];
      [|apply built_exclusive].
    intros H. inversion H. exact (Hemb fi eq_refl).
  - intros version_info ann dflt f Hdflt.
    destruct (plain_default dflt) eqn:Hplain.
    + rewrite (from_annotated_attribute_plain _ _ _ Hplain).
      destruct (unwrap_final ann); try apply built_exclusive.
      destruct (_find_field_info_arg extras) as [fi|];
        [|apply built_exclusive].
      destruct (negb (is_required fi)) eqn:Hreq; [discriminate|].
      intros H. inversion H. unfold exclusive.
      cbn [set_metadata set_annotation set_default default default_factory].
      unfold is_required in Hreq.
      destruct (is_Undefined (default fi)); [|discriminate Hreq].
      destruct (is_None (default_factory fi)); [|discriminate Hreq].
      apply orb_true_r.
    + unfold from_annotated_attribute. rewrite final_split.
      destruct dflt as [| | | | | | | | | | | | | | | | | | | | | | | | | | | |d|dc|];
        try discriminate Hplain.
      * destruct (_extract_metadata (unwrap_final ann)) as [[a md]|e];
          [|discriminate].
        cbn [bind lift ret fst]. intros H. inversion H.
        exact (Hdflt d eq_refl).
      * destruct (match unwrap_final ann with
                  | VInitVar => _ | VInitVarOf t => _ | _ => _ end)
          as [[[init ann']|e] w0]; [|discriminate].
        cbn [bind].
        destruct (_from_dataclass_field dc) as [[field|e] w1] eqn:Hdc;
          [|discriminate].
        cbn [bind lift].
        destruct (_extract_metadata ann') as [[a md]|e]; [|discriminate].
        cbn [bind ret fst]. intros H. inversion H.
        assert (Hfield : exclusive field)
          by (apply (_from_dataclass_field_exclusive dc); now rewrite Hdc).
        exact Hfield.
Qed.

Lemma X16_default_or_factory_witness :
  exists f,
    fst (from_annotated_attribute (3, 11)%Z
           (VAnnotated (VClass "int") [Gt (VInt 0)]) (VInt 3)) = Ok f /\
    exclusive f.
Proof.
  eexists. split; [vm_compute; reflexivity|].
  match goal with
  | |- exclusive ?f =>
      refine (proj2 (proj2 (proj2 (proj2 X16_default_or_factory)))
                (3, 11)%Z (VAnnotated (VClass "int") [Gt (VInt 0)]) (VInt 3)
                f _ eq_refl)
  end.
  intros d Hd. discriminate Hd.
Defined.

(** X17: the metadata of a descriptor never holds a descriptor, on every
    construction path, provided the descriptor the path starts from (the
    one embedded in the annotation, or the one given as the default) has
    none in its own metadata. *)
Theorem X17_metadata_holds_no_descriptor :
  (forall kw f, __init__ kw = Ok f -> tokens_only f) /\
  (forall args f, fst (Field args) = Ok f -> tokens_only f) /\
  (forall dc f, fst (_from_dataclass_field dc) = Ok f -> tokens_only f) /\
  (forall ann f,
     (forall fi, embedded_field_info ann = Some fi -> tokens_only fi) ->
     from_annotation ann = Ok f -> tokens_only f) /\
  (forall version_info ann dflt f,
     (forall d, dflt = VFieldInfo d -> tokens_only d) ->
     (forall fi, embedded_field_info ann = Some fi -> tokens_only fi) ->
     fst (from_annotated_attribute version_info ann dflt) = Ok f ->
     tokens_only f).
Proof.
  split; [exact __init___tokens_only|].
  split; [exact Field_tokens_only|].
  split; [exact _from_dataclass_field_tokens_only|].
  split; [exact from_annotation_tokens_only|].
  exact from_annotated_attribute_tokens_only.
Qed.

Lemma X17_metadata_holds_no_descriptor_witness :
  exists f,
    from_annotation
      (VAnnotated (VClass "int")
         [Gt (VInt 0); VFieldInfo (built [("le", VInt 9)] VNone [Le (VInt 9)])])
    = Ok f /\
    tokens_only f.
Proof.
  eexists. split; [vm_compute; reflexivity|].
  match goal with
  | |- tokens_only ?f =>
      refine (proj1 (proj2 (proj2 (proj2 X17_metadata_holds_no_descriptor)))
                (VAnnotated (VClass "int")
                   [Gt (VInt 0);
                    VFieldInfo (built [("le", VInt 9)] VNone [Le (VInt 9)])])
                f _ eq_refl)
  end.
  intros fi Hfi. vm_compute in Hfi. inversion Hfi. reflexivity.
Defined.

(** X18: the annotation a descriptor stores is never an annotated form, on
    every construction path, for annotations as the typing module builds
    them, where the first argument of an annotated form is not an annotated
    form again. *)
Theorem X18_annotation_stored_without_metadata :
  (forall kw f,
     flat (kw_get "annotation" VNone kw) -> __init__ kw = Ok f -> stripped f) /\
  (forall args f, fst (Field args) = Ok f -> stripped f) /\
  (forall ann f,
     flat (unwrap_final ann) -> from_annotation ann = Ok f -> stripped f) /\
  (forall version_info ann dflt f,
     flat (unwrap_final ann) ->
     (forall t, unwrap_final ann = VInitVarOf t -> flat t) ->
     fst (from_annotated_attribute version_info ann dflt) = Ok f ->
     stripped f).
Proof.
  split; [intros kw f Hflat; apply __init___stripped; exact Hflat|].
  split; [exact Field_stripped|].
  split; [exact from_annotation_stripped|].
  exact from_annotated_attribute_stripped.
Qed.

Lemma X18_annotation_stored_without_metadata_witness :
  exists f,
    fst (from_annotated_attribute (3, 11)%Z
           (VFinalOf (VAnnotated (VClass "int") [Gt (VInt 0)])) (VInt 3)) = Ok f /\
    stripped f.
Proof.
  eexists. split; [vm_compute; reflexivity|].
  match goal with
  | |- stripped ?f =>
      refine (proj2 (proj2 (proj2 X18_annotation_stored_without_metadata))
                (3, 11)%Z (VFinalOf (VAnnotated (VClass "int") [Gt (VInt 0)]))
                (VInt 3) f _ _ eq_refl)
  end.
  - intros origin extras Heq. inversion Heq. reflexivity.
  - intros t Heq. discriminate Heq.
Defined.

(** ** Private attributes *)

(** X19: the default of a private attribute.  On the same default and
    factory, ModelPrivateAttr.get_default is FieldInfo.get_default with
    call_default_factory=True, and also with call_default_factory=False
    when there is no factory; an attribute PrivateAttr returns for a
    default other than Unset has no factory, so its get_default is the copy
    of that default and never calls anything. *)
Theorem X19_private_default
    (smart_deepcopy : value -> value) (f : FieldInfo) (p : ModelPrivateAttr) :
  default f = pa_default p ->
  default_factory f = pa_default_factory p ->
  get_default smart_deepcopy f true = ModelPrivateAttr_get_default smart_deepcopy p /\
  (is_None (pa_default_factory p) = true ->
   get_default smart_deepcopy f false
   = ModelPrivateAttr_get_default smart_deepcopy p) /\
  (forall dflt fac,
     PrivateAttr dflt fac = Ok p ->
     is_Undefined dflt = false ->
     ModelPrivateAttr_get_default smart_deepcopy p = Ok (smart_deepcopy dflt)).
Proof.
  intros Hd Hf. unfold get_default, ModelPrivateAttr_get_default.
  rewrite Hd, Hf. split; [|split].
  - destruct (is_None (pa_default_factory p)); reflexivity.
  - intros ->. reflexivity.
  - intros dflt fac. unfold PrivateAttr. intros H Hun. rewrite Hun in H.
    cbn [negb andb] in H. destruct (is_None fac) eqn:Hfac; [|discriminate].
    cbn [negb] in H. inversion H. cbn [pa_default pa_default_factory].
    now rewrite Hfac.
Qed.

Lemma X19_private_default_witness :
  let p := {| pa_default := VInt 3; pa_default_factory := VNone |} in
  let f := built [("default", VInt 3)] (VClass "int") [] in
  get_default (fun v => v) f true = ModelPrivateAttr_get_default (fun v => v) p /\
  ModelPrivateAttr_get_default (fun v => v) p = Ok (VInt 3).
Proof.
  intros p f.
  destruct (X19_private_default (fun v => v) f p eq_refl eq_refl)
    as (Htrue & _ & Hprivate).
  split; [exact Htrue|].
  exact (Hprivate (VInt 3) VNone eq_refl eq_refl).
Defined.

(** ** Alias objects *)

Lemma convert_loop (choices : list value) (acc : list (list value)) :
  fold_left
    (fun aliases c =>
       match c with
       | VAliasPath path => aliases ++ [AliasPath_convert_to_aliases path]
       | _ => aliases ++ [[c]]
       end)
    choices acc
  = acc ++ map choice_aliases choices.
Proof.
  revert acc. induction choices as [|c choices IH]; intros acc.
  - cbn. now rewrite app_nil_r.
  - cbn [fold_left map]. rewrite IH.
    replace (c :: nil) with [c] by reflexivity.
    destruct c; cbn [choice_aliases AliasPath_convert_to_aliases];
      now rewrite <- app_assoc.
Qed.

(** X20: AliasChoices.convert_to_aliases yields one list per choice, in the
    order of the choices: the path of a choice that is an AliasPath, and
    the one-element list of any other choice.  For an object built by the
    constructor the result is never empty, and it starts with the aliases
    of the first choice. *)
Theorem X20_convert_to_aliases (first_choice : value) (choices : list value) :
  exists stored,
    AliasChoices first_choice choices = VAliasChoices stored /\
    AliasChoices_convert_to_aliases stored
    = choice_aliases first_choice :: map choice_aliases choices /\
    List.length (AliasChoices_convert_to_aliases stored)
    = S (List.length choices) /\
    (forall first_arg args,
       first_choice = AliasPath first_arg args ->
       hd [] (AliasChoices_convert_to_aliases stored) = first_arg :: args).
Proof.
  exists (first_choice :: choices). split; [reflexivity|].
  assert (H : AliasChoices_convert_to_aliases (first_choice :: choices)
              = choice_aliases first_choice :: map choice_aliases choices).
  { unfold AliasChoices_convert_to_aliases. now rewrite convert_loop. }
  rewrite H. split; [reflexivity|]. split.
  - cbn [List.length]. now rewrite length_map.
  - intros first_arg args ->. reflexivity.
Qed.

Lemma X20_convert_to_aliases_witness :
  exists stored,
    AliasChoices (AliasPath (VStr "a") [VInt 0]) [VStr "b"] = VAliasChoices stored /\
    AliasChoices_convert_to_aliases stored = [[VStr "a"; VInt 0]; [VStr "b"]] /\
    hd [] (AliasChoices_convert_to_aliases stored) = [VStr "a"; VInt 0].
Proof.
  destruct (X20_convert_to_aliases (AliasPath (VStr "a") [VInt 0]) [VStr "b"])
    as (stored & Hs & Hc & _ & Hhd).
  exists stored. split; [exact Hs|]. split; [exact Hc|].
  exact (Hhd (VStr "a") [VInt 0] eq_refl).
Defined.

(** ** The representation of a descriptor *)

Lemma repr_slot_entry (display : value -> value) (py_eq : value -> value -> bool)
    (self : FieldInfo) (s k : string) (v : value) :
  In (k, v) (repr_slot display py_eq self s) ->
  k = s /\ s <> "annotation" /\ s <> "final" /\
  (s = "default_factory" /\ is_None (default_factory self) = false /\
   v = display (default_factory self)
   \/ v = getattr self s /\ is_None v = false /\ is_Undefined v = false).
Proof.
  unfold repr_slot.
  destruct (String.eqb s "annotation") eqn:Hann; [contradiction|].
  destruct (String.eqb s "metadata" && _); [contradiction|].
  destruct (String.eqb s "repr" && _); [contradiction|].
  destruct (String.eqb s "final") eqn:Hfin; [contradiction|].
  destruct (String.eqb s "frozen" && _); [contradiction|].
  destruct (String.eqb s "validation_alias" && _); [contradiction|].
  destruct (String.eqb s "serialization_alias" && _); [contradiction|].
  apply String.eqb_neq in Hann, Hfin.
  destruct (String.eqb s "default_factory" && _) eqn:Hdf.
  - apply andb_prop in Hdf as [Hs Hn]. apply String.eqb_eq in Hs.
    intros [H|[]]. inversion H. subst.
    split; [reflexivity|]. split; [exact Hann|]. split; [exact Hfin|].
    left. split; [reflexivity|]. split; [|reflexivity].
    now destruct (is_None (default_factory self)).
  - cbv zeta.
    destruct (negb (is_None (getattr self s))
              && negb (is_Undefined (getattr self s))) eqn:Hv; [|contradiction].
    intros [H|[]]. inversion H. subst.
    split; [reflexivity|]. split; [exact Hann|]. split; [exact Hfin|].
    right. split; [reflexivity|].
    apply andb_prop in Hv as [Hn Hu].
    split; [now destruct (is_None (getattr self k))
           |now destruct (is_Undefined (getattr self k))].
Qed.

Lemma repr_slot_short (display : value -> value) (py_eq : value -> value -> bool)
    (self : FieldInfo) (s : string) :
  map fst (repr_slot display py_eq self s) = []
  \/ map fst (repr_slot display py_eq self s) = [s].
Proof.
  unfold repr_slot.
  repeat match goal with
         | |- context [if ?c then _ else _] =>
             lazymatch c with
             | String.eqb s "default_factory" && _ => fail
             | _ => destruct c; [now left|]
             end
         end.
  destruct (String.eqb s "default_factory" && _) eqn:Hdf.
  - apply andb_prop in Hdf as [Hs _]. apply String.eqb_eq in Hs. subst.
    now right.
  - cbv zeta. destruct (negb _ && negb _); [now right|now left].
Qed.

Lemma repr_keys_NoDup (display : value -> value) (py_eq : value -> value -> bool)
    (self : FieldInfo) (slots : list string) :
  NoDup slots ->
  NoDup (map fst (flat_map (repr_slot display py_eq self) slots)).
Proof.
  induction 1 as [|s slots Hnotin Hnodup IH]; [constructor|].
  cbn [flat_map]. rewrite map_app.
  destruct (repr_slot_short display py_eq self s) as [-> | ->]; [exact IH|].
  constructor; [|exact IH].
  intros Hin. apply Hnotin. apply in_map_iff in Hin as ([k v] & Hk & Hin).
  cbn in Hk. subst k. apply in_flat_map in Hin as (s' & Hs' & Hin).
  apply repr_slot_entry in Hin as (-> & _). exact Hs'.
Qed.

(** X21: the pairs of __repr_args__.  The keys are pairwise distinct; the
    annotation and the required flag come first; every other pair is a slot
    of the descriptor with its value, which is neither None nor Unset, or
    the default_factory in its displayed form; the final flag is never
    among them, nor is a repr flag that is True or a frozen flag that is
    False.  For a descriptor made from an annotation that embeds no
    descriptor the pairs are the annotation, required=True and, if the
    annotation embeds metadata, that metadata. *)
Theorem X21_repr_args
    (display : value -> value) (py_eq : value -> value -> bool) (self : FieldInfo) :
  NoDup (map fst (__repr_args__ display py_eq self)) /\
  (exists rest,
     __repr_args__ display py_eq self
     = ("annotation", display (annotation self))
       :: ("required", VBool (is_required self)) :: rest /\
     forall k v,
       In (k, v) rest ->
       In k __slots__ /\ k <> "annotation" /\ k <> "final" /\
       (k = "default_factory" /\ v = display (default_factory self)
        \/ v = getattr self k /\ is_None v = false /\ is_Undefined v = false)) /\
  ~ In ("repr", VBool true) (__repr_args__ display py_eq self) /\
  ~ In ("frozen", VBool false) (__repr_args__ display py_eq self) /\
  (forall ann,
     embedded_field_info ann = None ->
     from_annotation ann = Ok self ->
     __repr_args__ display py_eq self
     = ("annotation", display (annotated_origin ann))
       :: ("required", VBool true)
       :: match annotated_extras ann with
          | [] => []
          | md => [("metadata", VList md)]
          end).
Proof.
  assert (Hrest : forall k v,
             In (k, v) (flat_map (repr_slot display py_eq self) __slots__) ->
             In k __slots__ /\ k <> "annotation" /\ k <> "final" /\
             (k = "default_factory" /\ v = display (default_factory self)
              \/ v = getattr self k /\ is_None v = false /\ is_Undefined v = false)).
  { intros k v Hin. apply in_flat_map in Hin as (s & Hs & Hin).
    apply repr_slot_entry in Hin as (-> & Ha & Hf & Hv).
    split; [exact Hs|]. split; [exact Ha|]. split; [exact Hf|].
    destruct Hv as [(H1 & _ & H3)|H]; [left; now split|right; exact H]. }
  split; [|split; [|split; [|split]]].
  - unfold __repr_args__. cbn [map fst].
    assert (Hkeys : forall k,
               In k (map fst (flat_map (repr_slot display py_eq self) __slots__)) ->
               In k __slots__ /\ k <> "annotation").
    { intros k Hin. apply in_map_iff in Hin as ([k' v] & Hk & Hin).
      cbn in Hk. subst k'. apply Hrest in Hin as (H1 & H2 & _). now split. }
    constructor; [|constructor].
    + intros [H|H]; [discriminate H|]. apply Hkeys in H as [_ H]. now apply H.
    + intros H. apply Hkeys in H as [H _].
      unfold __slots__ in H. cbn [In] in H. intuition discriminate.
    + apply repr_keys_NoDup. unfold __slots__.
      repeat (constructor; [cbn [In]; intuition discriminate|]). constructor.
  - eexists. split; [reflexivity|]. exact Hrest.
  - unfold __repr_args__. intros [H|[H|H]]; try discriminate H.
    apply in_flat_map in H as (s & _ & H). revert H. unfold repr_slot.
    destruct (String.eqb s "annotation"); [contradiction|].
    destruct (String.eqb s "metadata" && _); [contradiction|].
    destruct (String.eqb s "repr") eqn:Hs.
    + apply String.eqb_eq in Hs. subst s. cbn [andb String.eqb Ascii.eqb Bool.eqb].
      destruct (is_True (repr self)) eqn:Ht; [contradiction|].
      cbn [getattr String.eqb Ascii.eqb Bool.eqb andb negb].
      destruct (negb _ && negb _); [|contradiction].
      intros [H|[]]. inversion H as [Hr]. rewrite Hr in Ht. discriminate Ht.
    + cbn [andb]. apply String.eqb_neq in Hs.
      repeat match goal with
             | |- In _ (if ?c then _ else _) -> _ => destruct c
             | |- In _ (let _ := _ in _) -> _ => cbv zeta
             end;
        try contradiction; intros [H|[]]; inversion H; subst; now apply Hs.
  - unfold __repr_args__. intros [H|[H|H]]; try discriminate H.
    apply in_flat_map in H as (s & _ & H). revert H. unfold repr_slot.
    destruct (String.eqb s "annotation"); [contradiction|].
    destruct (String.eqb s "metadata" && _); [contradiction|].
    destruct (String.eqb s "repr" && _); [contradiction|].
    destruct (String.eqb s "final"); [contradiction|].
    destruct (String.eqb s "frozen") eqn:Hs.
    + apply String.eqb_eq in Hs. subst s. cbn [andb String.eqb Ascii.eqb Bool.eqb].
      destruct (is_False (frozen self)) eqn:Ht; [contradiction|].
      cbn [getattr String.eqb Ascii.eqb Bool.eqb andb negb].
      destruct (negb _ && negb _); [|contradiction].
      intros [H|[]]. inversion H as [Hr]. rewrite Hr in Ht. discriminate Ht.
    + cbn [andb]. apply String.eqb_neq in Hs.
      repeat match goal with
             | |- In _ (if ?c then _ else _) -> _ => destruct c
             | |- In _ (let _ := _ in _) -> _ => cbv zeta
             end;
        try contradiction; intros [H|[]]; inversion H; subst; now apply Hs.
  - intros ann Hemb. rewrite from_annotation_unfold.
    pose proof (_extract_metadata_parts ann Hemb) as Hex.
    unfold embedded_field_info in Hemb.
    assert (Hinit : forall fin,
               __init__ [("annotation", unwrap_final ann); ("final", VBool fin)]
               = Ok self ->
               __repr_args__ display py_eq self
               = ("annotation", display (annotated_origin ann))
                 :: ("required", VBool true)
                 :: match annotated_extras ann with
                    | [] => []
                    | md => [("metadata", VList md)]
                    end).
    { intros fin H. apply __init___built in H as (a & md & Hex' & ->).
      change (kw_get "annotation" VNone
                [("annotation", unwrap_final ann); ("final", VBool fin)])
        with (unwrap_final ann) in Hex'.
      rewrite Hex in Hex'. inversion Hex'. subst a md.
      unfold __repr_args__, __slots__. cbn [flat_map]. unfold repr_slot.
      cbn [String.eqb Ascii.eqb Bool.eqb andb negb getattr].
      cbn -[annotated_origin annotated_extras unwrap_final].
      destruct (py_eq VNone VNone), (annotated_extras ann); reflexivity. }
    destruct (unwrap_final ann); try apply Hinit.
    cbn zeta. rewrite Hemb. apply Hinit.
Qed.

Lemma X21_repr_args_witness :
  exists f,
    from_annotation (VAnnotated (VClass "int") [Gt (VInt 0)]) = Ok f /\
    __repr_args__ (fun v => v) (fun _ _ => false) f
    = [("annotation", VClass "int"); ("required", VBool true);
       ("metadata", VList [Gt (VInt 0)])].
Proof.
  eexists. split; [vm_compute; reflexivity|].
  match goal with
  | |- __repr_args__ _ _ ?f = _ =>
      exact (proj2 (proj2 (proj2 (proj2
               (X21_repr_args (fun v => v) (fun _ _ => false) f))))
               (VAnnotated (VClass "int") [Gt (VInt 0)]) eq_refl eq_refl)
  end.
Defined.

(** ** Computed fields *)

Lemma py_or_idempotent (a b : value) :
  truthy b = true -> py_or (py_or a b) b = py_or a b.
Proof.
  intros Hb. unfold py_or. destruct (truthy a) eqn:Ha.
  - now rewrite Ha.
  - now rewrite Hb.
Qed.

Lemma dec_result (cleandoc : value -> value)
    (ensure_property : PyFunction -> PyFunction) (c : closure) (f : PyFunction) :
  let description :=
    if is_None (cl_description c) && truthy (__doc__ f)
    then cleandoc (__doc__ f) else cl_description c in
  let alias_priority :=
    if negb (is_None (cl_alias c))
    then py_or (cl_alias_priority c) (VInt 2) else VNone in
  dec cleandoc ensure_property c f =
  match cl_return_type c, kw_find "return" (type_hints f) with
  | None, None =>
      (Raise (PydanticUserError missing_return_type_msg
                "model-field-missing-annotation"),
       set_cl_description c description)
  | Some rt, _ | None, Some rt =>
      (Ok {| wrapped := ensure_property f;
             decorator_info :=
               {| wrapped_property := ensure_property f; return_type := rt;
                  cf_alias := cl_alias c; cf_alias_priority := alias_priority;
                  cf_title := cl_title c; cf_description := description;
                  cf_repr := cl_repr c |} |},
       {| cl_alias := cl_alias c; cl_title := cl_title c; cl_repr := cl_repr c;
          cl_description := description; cl_return_type := Some rt;
          cl_alias_priority := alias_priority |})
  end.
Proof.
  cbv zeta. unfold dec, dec_finish.
  destruct c as [a t r d rt ap]. cbn [cl_description cl_alias cl_title cl_repr
    cl_return_type cl_alias_priority].
  destruct (is_None d && truthy (__doc__ f));
    cbn [set_cl_description set_cl_return_type set_cl_alias_priority
         cl_description cl_alias cl_title cl_repr cl_return_type
         cl_alias_priority];
    destruct rt as [rt|]; try reflexivity;
    destruct (kw_find "return" (type_hints f)); reflexivity.
Qed.

(** X22: computed_field applied to a function.  It raises exactly when no
    return_type is given and the type hints of the function have no return
    entry, and then the missing-annotation error; otherwise the information
    it records has the return_type given, or else the hint; the description
    given, or else the cleaned docstring when there is a non-empty one; and
    as alias priority None when no alias is given, whatever priority is
    given, else the priority given when it is true, else 2. *)
Theorem X22_computed_field
    (cleandoc : value -> value) (ensure_property : PyFunction -> PyFunction)
    (f : PyFunction) (alias alias_priority title description repr : value)
    (return_type_arg : option value) :
  exists r c,
    computed_field cleandoc ensure_property (Some f)
      alias alias_priority title description repr return_type_arg = inr (r, c) /\
    (return_type_arg = None -> kw_find "return" (type_hints f) = None ->
     r = Raise (PydanticUserError missing_return_type_msg
                  "model-field-missing-annotation")) /\
    (forall rt,
       return_type_arg = Some rt
       \/ return_type_arg = None /\ kw_find "return" (type_hints f) = Some rt ->
       exists p,
         r = Ok p /\
         wrapped p = ensure_property f /\
         wrapped_property (decorator_info p) = ensure_property f /\
         return_type (decorator_info p) = rt /\
         cf_alias (decorator_info p) = alias /\
         cf_title (decorator_info p) = title /\
         cf_repr (decorator_info p) = repr /\
         cf_alias_priority (decorator_info p)
         = (if is_None alias then VNone
            else if truthy alias_priority then alias_priority else VInt 2) /\
         cf_description (decorator_info p)
         = (if is_None description
            then if truthy (__doc__ f) then cleandoc (__doc__ f) else VNone
            else description)).
Proof.
  unfold computed_field.
  match goal with
  | |- context [dec cleandoc ensure_property ?c0 f] =>
      exists (fst (dec cleandoc ensure_property c0 f)),
             (snd (dec cleandoc ensure_property c0 f));
      split; [now destruct (dec cleandoc ensure_property c0 f)|]
  end.
  rewrite dec_result.
  cbn [cl_description cl_alias cl_title cl_repr cl_return_type
       cl_alias_priority].
  split.
  - intros -> ->. reflexivity.
  - intros rt [-> | [-> ->]];
      (eexists; split; [reflexivity|];
       cbn [wrapped decorator_info wrapped_property return_type cf_alias
            cf_title cf_repr cf_alias_priority cf_description];
       repeat (split; [reflexivity|]);
       split; [now destruct (is_None alias)|];
       destruct description; cbn [is_None andb]; try reflexivity;
       now destruct (truthy (__doc__ f))).
Qed.

Lemma X22_computed_field_witness :
  exists r c,
    computed_field (fun v => v) (fun f => f)
      (Some {| __doc__ := VStr "Area."; type_hints := [("return", VClass "int")] |})
      (VStr "a") (VInt 0) VNone VNone (VBool true) None = inr (r, c) /\
    exists p,
      r = Ok p /\
      return_type (decorator_info p) = VClass "int" /\
      cf_alias_priority (decorator_info p) = VInt 2 /\
      cf_description (decorator_info p) = VStr "Area.".
Proof.
  destruct (X22_computed_field (fun v => v) (fun f => f)
              {| __doc__ := VStr "Area.";
                 type_hints := [("return", VClass "int")] |}
              (VStr "a") (VInt 0) VNone VNone (VBool true) None)
    as (r & c & Hcall & _ & Hok).
  exists r, c. split; [exact Hcall|].
  destruct (Hok (VClass "int") (or_intror (conj eq_refl eq_refl)))
    as (p & Hr & _ & _ & Hrt & _ & _ & _ & Hap & Hd).
  exists p. split; [exact Hr|]. split; [exact Hrt|]. split; [exact Hap|exact Hd].
Defined.

(** X23: a decorator that computed_field returned and that has been applied
    once keeps what the first application assigned to the closure: applied
    to a second function it never raises, whatever the type hints of that
    function, and records the return type and the alias priority of the
    first application, and its description when that is not None; the
    docstring and the return annotation of the second function are not
    looked at. *)
Theorem X23_decorator_applied_twice
    (cleandoc : value -> value) (ensure_property : PyFunction -> PyFunction)
    (alias alias_priority title description repr : value)
    (return_type_arg : option value)
    (f1 f2 : PyFunction) (p1 : PydanticDescriptorProxy) (c c1 : closure) :
  computed_field cleandoc ensure_property None
    alias alias_priority title description repr return_type_arg = inl c ->
  dec cleandoc ensure_property c f1 = (Ok p1, c1) ->
  exists p2 c2,
    dec cleandoc ensure_property c1 f2 = (Ok p2, c2) /\
    return_type (decorator_info p2) = return_type (decorator_info p1) /\
    cf_alias_priority (decorator_info p2) = cf_alias_priority (decorator_info p1) /\
    (is_None (cf_description (decorator_info p1)) = false ->
     cf_description (decorator_info p2) = cf_description (decorator_info p1) /\
     c2 = c1).
Proof.
  intros _. rewrite !dec_result.
  destruct (cl_return_type c) as [rt|] eqn:Hrt;
    [|destruct (kw_find "return" (type_hints f1)) as [rt|]; [|discriminate]];
    (intros H; inversion H; subst p1 c1; clear H;
     cbn [cl_description cl_alias cl_title cl_repr cl_return_type
          cl_alias_priority];
     eexists _, _; split; [reflexivity|];
     cbn [decorator_info return_type cf_alias_priority cf_description];
     assert (Hap : (if negb (is_None (cl_alias c))
                    then py_or (if negb (is_None (cl_alias c))
                                then py_or (cl_alias_priority c) (VInt 2)
                                else VNone) (VInt 2)
                    else VNone)
                   = (if negb (is_None (cl_alias c))
                      then py_or (cl_alias_priority c) (VInt 2) else VNone))
       by (destruct (negb (is_None (cl_alias c)));
           [now apply py_or_idempotent|reflexivity]);
     split; [reflexivity|]; split; [exact Hap|];
     intros Hd; rewrite Hd; cbn [andb]; rewrite Hap; split; reflexivity).
Qed.

Lemma X23_decorator_applied_twice_witness :
  let f1 := {| __doc__ := VStr "Area."; type_hints := [("return", VClass "int")] |} in
  let f2 := {| __doc__ := VStr "Name."; type_hints := [] |} in
  exists c p1 c1 p2 c2,
    computed_field (fun v => v) (fun f => f) None
      VNone VNone VNone VNone (VBool true) None = inl c /\
    dec (fun v => v) (fun f => f) c f1 = (Ok p1, c1) /\
    dec (fun v => v) (fun f => f) c1 f2 = (Ok p2, c2) /\
    return_type (decorator_info p2) = VClass "int" /\
    cf_description (decorator_info p2) = VStr "Area.".
Proof.
  intros f1 f2. eexists _, _, _.
  assert (Hc : computed_field (fun v => v) (fun f => f) None
                 VNone VNone VNone VNone (VBool true) None
               = inl {| cl_alias := VNone; cl_title := VNone;
                        cl_repr := VBool true; cl_description := VNone;
                        cl_return_type := None; cl_alias_priority := VNone |})
    by reflexivity.
  destruct (X23_decorator_applied_twice (fun v => v) (fun f => f)
              VNone VNone VNone VNone (VBool true) None f1 f2 _ _ _ Hc eq_refl)
    as (p2 & c2 & Hdec & Hrt & _ & Hd).
  exists p2, c2. split; [exact Hc|]. split; [reflexivity|].
  split; [exact Hdec|]. split; [exact Hrt|].
  exact (proj1 (Hd eq_refl)).
Defined.
